(* ===== verification/_CoqProject ===== *)
-Q . S2P
Prelude.v
Hex.v
Checkpoints.v
Seeds.v
Script.v
Block.v
ChainParams.v
Serialize.v
Registry.v
Typing.v
Lifecycle.v
Interleaving.v
Wire.v
