(* ===== verification/Prelude.v ===== *)
(** * Verification of [src/src/chainparams.cpp] (network parameters)

    The program.  [chainparams.cpp] defines the four network profiles of the
    node (main, testnet, regtest, unittest) as four C++ classes that inherit
    from each other ([CMainParams] <- [CTestNetParams] <- [CRegTestParams],
    [CMainParams] <- [CUnitTestParams]); each is instantiated once as a static
    object whose constructor builds and self-checks the genesis block
    ([assert] on its hash and merkle root), converts the packed seed table
    into timestamped addresses ([convertSeed6]) and assigns every scalar
    constant.  Three static checkpoint maps ([mapCheckpoints*], with their
    [CCheckpointData]) are selected by the virtual method [Checkpoints()].
    A global pointer [pCurrentParams] is set by [SelectParams] and read by
    [Params()]; [ModifiableParams()] hands out the setters of the unittest
    object, guarded by an [assert] that the unittest profile is selected.

    The library (files in dependency order, as listed in [_CoqProject]).
    - [Prelude] (this file): the fatal-error/state monad [M] that models
      [assert] and static state, its notation scope [cp_scope], fixed-width
      integer wrapping ([wrap], [uint32], [uint64]), the hint databases
      [cparams] and [cp_simpl], and shared list/integer lemmas.
    - [Hex]: [HexDigit], [ParseHex], and [uint256] values with [SetHex]
      (the [uint256("0x...")] constructor), [~] and [>>] on 256 bits.
    - [Checkpoints]: [MapCheckpoints] as a sorted association list with the
      [std::map] insert of [map_list_of], [CCheckpointData], the three
      static tables, lookup and highest height.
    - [Seeds]: [SeedSpec6], [CAddress], the clock/entropy [World] and
      [convertSeed6] with its wrap-around arithmetic.
    - [Script]: the [CScript] stream operators the genesis coinbase uses
      ([push_int64], [CScriptNum] serialisation, data pushes with their
      [OP_PUSHDATA] prefixes, opcode push), the decoder [GetOp] and the
      number a push carries ([decode_int]).
    - [Block]: transactions, block header and block, the [Hashing]
      interface (hash functions are outside the repository),
      [BuildMerkleTree] as the flat C++ loop, and the 80-byte header
      encoding [ser_header] with its decoder [deser_header].
    - [ChainParams]: the [CChainParams] record and the four constructors,
      each running its base constructor first, the genesis block they
      build and check, the virtual [Checkpoints()], and the static
      initialisation of the translation unit ([init_statics]).
    - [Serialize]: the wire encoding the spec gives for the genesis block:
      [CompactSize] with its two errors, vectors, transactions and blocks,
      each encoder with its decoder.
    - [Registry]: the globals [pCurrentParams] and [pCurrentBaseParams],
      [Params], [SelectParams], [SelectParamsFromCommandLine],
      [ModifiableParams] and the [CModifiableParams] setters, as a step
      relation with its reachable states.
    - [Typing]: the C++ types of the members ([params_ok], decidable)
      and the type invariant of the constructed and overridden profiles.
    - [Lifecycle]: the spec's state machine [Uninitialized -> Active(kind)]
      as an abstract specification, and the registry's refinement of it.
    - [Interleaving]: executions of several threads as interleavings of
      the registry's atomic operations ([Event], [run_events]), for the
      spec's concurrency contract.
    - [Wire]: the composition the consumers rely on: the genesis block
      served by [Params()] after initialisation, selection and
      overrides, with its hash and its encoding.

    How the parts interact.  [init_statics] runs the four constructors in
    declaration order in [M World] (the clock and random draws consumed by
    [convertSeed6]); its result is the [StaticParams] that every
    [Registry] state holds.  The registry operations read and write those
    objects through the pointer, so a setter called through
    [ModifiableParams()] changes what a later [Params()] returns.

    What is proved (claims C1-C28, by group).
    - Profiles ([ChainParams]): static initialisation succeeds exactly when
      the two genesis asserts hold (C1); all profiles share the genesis
      block and hash (C7); the stored merkle root is the coinbase hash
      (C8); message-start bytes through the inheritance chain (C13); the
      coinbase script builder and the genesis header encoding round trips
      (C18, C19); the constructor chains convert the main seed table four
      times and the testnet table twice, and which conversions each
      profile keeps (C28); every member within its C++ type, after
      construction and after every registry transition (C20, in
      [Typing]).
    - Encoding ([Serialize]): the genesis block is 253 bytes that decode
      back to it, for all hash functions (C24).  [ReadCompactSize]'s
      canonicity and size limit are lemmas ([read_compact_inv],
      [read_compact_boundaries]), as is the decoder's inverse direction
      ([read_block_inv]).
    - Registry: selection then reading serves the profile whose
      constructor declared the selected [networkID] (C2), misuse aborts
      (C6), [ModifiableParams] guarded by the unittest selection in every
      reachable state (C3), production profiles never change (C4),
      overrides refused on production networks (C5), the two pointers
      agree, the base pointer holding the served profile's [networkID]
      (C14), the spec's scenarios (C9, C11, C12), command-line selection
      (C15); invariants by induction on [reachable].  The refinement of
      the spec's lifecycle (C21) and the selection always enabled (C22),
      in [Lifecycle].  Readers of a production profile agree in every
      interleaving with attempted overrides (C25); on the unit-test
      profile reads see overrides in program order (C26), in
      [Interleaving].  Every reachable state serves, through [Params()],
      a genesis block that hashes to the served genesis hash and decodes
      from its 253 bytes (C27, in [Wire]).
    - Checkpoints: [map_list_of] and the [std::map] model carry no claim
      of their own (their sortedness and lookup lemmas hold for any
      literal); the tables enter the claims through [Checkpoints()] (C9).
    - Seeds: the timestamp window of the loop (C10) and of one timestamp
      (C16), the 32-bit wrap (C17), and the functional behaviour and
      termination of [convertSeed6] for every count within the array
      (C23).

    Bounds and fuel.  Integers are [Z] with their C++ widths written out
    ([uint32], [uint64], [uint256_ok] below [2^256]).  [magnitude_bytes]
    runs at most 8 times, the byte count of an [int64_t], enough for every
    magnitude below [2^64], the range of [CScriptNum_set_vch_serialize].
    [GetOps] takes one unit of fuel per operation and fails when it runs
    out before the script ends, so C18 with fuel 3 also shows the script
    has exactly three operations.  [SetHex] fills the 32 bytes of a
    [uint256].  [convertSeed6_loop] recurses on the number of remaining
    iterations and [BuildMerkleTree]'s loops on their measures, so
    neither needs fuel; [convertSeed6_terminates] and
    [BuildMerkleTree_eq_ref] state that they return.

    Not modelled, and why no faithful model of them is possible from the
    repository: hash functions (SHA-256d, X11) are external primitives the
    spec treats as black boxes, so they are the parameters of the
    [Hashing] interface and every theorem holds for all of them; the
    generated seed tables of [chainparamsseeds.h] are data, not logic, so
    they are section variables and the seed theorems hold for every
    table; the command-line parser ([NetworkIdFromCommandLine]) is not in
    the repository and the spec only says it yields a network, so the
    network is an input of [SelectParamsFromCommandLine]; threads are modelled only
    through interleavings of atomic operations, which the single-threaded
    contract makes the only executions (data races are outside it);
    base58 encoding, message framing and peer discovery consume the
    parameters outside this file, and of the encodings only the block
    layout the spec fixes is modelled.  [chainparamsbase.cpp] is modelled
    only by the network pointer [SelectParams] updates: the spec gives no
    other behaviour of it and its source is not in the repository. *)

From Stdlib Require Import ZArith String List Lia.
Import ListNotations.

Open Scope Z_scope.

Declare Scope cp_scope.
Delimit Scope cp_scope with cp.

(** ** Fatal errors and static state *)

(** The outcome of code that may hit a failing [assert]: C++ aborts the
    process, which the model records as [Fatal] with the asserted text. *)
Inductive result (A : Type) : Type :=
| Ok (a : A)
| Fatal (why : string).
Arguments Ok {A} a.
Arguments Fatal {A} why.

(** Code that reads and writes a state [S] and may abort. *)
Definition M (S A : Type) : Type := S -> result (A * S).

Definition ret {S A} (a : A) : M S A := fun s => Ok (a, s).

Definition bind {S A B} (c : M S A) (k : A -> M S B) : M S B :=
  fun s => match c s with
           | Ok (a, s') => k a s'
           | Fatal e => Fatal e
           end.

Definition get {S} : M S S := fun s => Ok (s, s).
Definition put {S} (s : S) : M S unit := fun _ => Ok (tt, s).

(** A pure computation that may fail, run in [M]. *)
Definition lift {S A} (r : result A) : M S A :=
  fun s => match r with Ok a => Ok (a, s) | Fatal e => Fatal e end.

(** [assert(cond)]: continue when [cond] holds, abort otherwise. *)
Definition assert {S} (cond : bool) (what : string) : M S unit :=
  fun s => if cond then Ok (tt, s) else Fatal what.

Notation "x <- c ;; k" := (bind c (fun x => k))
  (at level 100, c at next level, k at level 200, right associativity) : cp_scope.
Notation "c ;; k" := (bind c (fun _ => k))
  (at level 100, k at level 200, right associativity) : cp_scope.

Open Scope cp_scope.

(** ** Fixed-width integers *)

(** Conversion of a mathematical integer to an unsigned [bits]-wide
    integer, as C++ does on assignment and in unsigned arithmetic. *)
Definition wrap (bits z : Z) : Z := z mod 2 ^ bits.
Definition uint16 (z : Z) : Z := wrap 16 z.
Definition uint32 (z : Z) : Z := wrap 32 z.
Definition uint64 (z : Z) : Z := wrap 64 z.

(** ** Automation *)

Create HintDb cparams.
Create Rewrite HintDb cp_simpl.

Section MonadLaws.
Context {S A B : Type}.

Lemma bind_ret_l (a : A) (k : A -> M S B) s : bind (ret a) k s = k a s.
Proof. reflexivity. Qed.

Lemma bind_Ok (c : M S A) (k : A -> M S B) s a s' :
  c s = Ok (a, s') -> bind c k s = k a s'.
Proof. intros H. unfold bind. now rewrite H. Qed.

Lemma bind_Fatal (c : M S A) (k : A -> M S B) s e :
  c s = Fatal e -> bind c k s = Fatal e.
Proof. intros H. unfold bind. now rewrite H. Qed.

Lemma assert_true (w : string) (s : S) : assert true w s = Ok (tt, s).
Proof. reflexivity. Qed.

Lemma assert_false (w : string) (s : S) : assert false w s = Fatal w.
Proof. reflexivity. Qed.

(** A sequence succeeds exactly when both parts do. *)
Lemma bind_inv (c : M S A) (k : A -> M S B) s b s'' :
  bind c k s = Ok (b, s'') ->
  exists a s', c s = Ok (a, s') /\ k a s' = Ok (b, s'').
Proof.
  unfold bind. destruct (c s) as [[a s']|e]; [|discriminate].
  intros H. now exists a, s'.
Qed.
End MonadLaws.

#[export] Hint Rewrite @bind_ret_l @assert_true @assert_false : cp_simpl.

(** Unfold one [bind] whose first computation is known to succeed. *)
Ltac step_ok H := erewrite bind_Ok; [|exact H].

(** Split a successful [bind] in a hypothesis into its two parts. *)
Ltac split_bind H :=
  let a := fresh "a" in let s := fresh "s" in
  let H1 := fresh "Hc" in let H2 := fresh "Hk" in
  apply bind_inv in H; destruct H as (a & s & H1 & H2).

(** ** Shared integer lemmas *)

Lemma wrap_range bits z : 0 <= bits -> 0 <= wrap bits z < 2 ^ bits.
Proof. intros. apply Z.mod_pos_bound. apply Z.pow_pos_nonneg; lia. Qed.

Lemma wrap_small bits z : 0 <= z < 2 ^ bits -> wrap bits z = z.
Proof. apply Z.mod_small. Qed.

(** Wrapping twice to a wider width and then to a narrower one is wrapping
    once to the narrower width (the [uint64 -> uint32] truncation). *)
Lemma wrap_wrap_narrow w1 w2 z :
  0 <= w2 <= w1 -> wrap w2 (wrap w1 z) = wrap w2 z.
Proof.
  intros H. unfold wrap. apply Z.mod_mod_divide.
  exists (2 ^ (w1 - w2)). rewrite <- Z.pow_add_r by lia. f_equal; lia.
Qed.

(** Unsigned subtraction wraps modulo the width. *)
Lemma wrap_sub_l bits a b : 0 <= bits -> wrap bits (wrap bits a - b) = wrap bits (a - b).
Proof.
  intros. unfold wrap. rewrite Zminus_mod_idemp_l. reflexivity.
Qed.

#[export] Hint Resolve wrap_range : cparams.

(** ** Shared list lemmas *)

Lemma skipn_nth_cons {A} (l : list A) (i : nat) (d : A) :
  (i < length l)%nat -> skipn i l = nth i l d :: skipn (S i) l.
Proof.
  revert i. induction l as [|x l IH]; intros [|i] H; simpl in *; try lia; auto.
  apply IH. lia.
Qed.

Lemma last_app_ne {A} (l1 l2 : list A) (d : A) :
  l2 <> [] -> last (l1 ++ l2) d = last l2 d.
Proof.
  intros Hne. induction l1 as [|x l1 IH]; [reflexivity|].
  rewrite <- app_comm_cons. simpl. rewrite IH.
  destruct (l1 ++ l2) eqn:E; [|reflexivity].
  apply app_eq_nil in E. tauto.
Qed.
