(* ===== verification/Hex.v ===== *)
(** * Hexadecimal text and 256-bit integers

    The constants of [chainparams.cpp] are written as text and converted by
    two helpers of the repository that live outside [src/]:
    [ParseHex] ([utilstrencodings.cpp], used for the public keys) and the
    string constructor [uint256("0x...")] ([uint256.cpp], [SetHex], used for
    the genesis hash, the merkle root and every checkpoint).  Both are
    modelled here, on [string], character by character, as the C loops run;
    [uint256] values are integers below [2^256] with the two operators the
    source applies to them, [~] and [>>].  [ParseHex] is proved to return
    bytes, and [SetHex]'s byte loop to compute the base-16 value of the
    digits modulo [2^256] ([SetHex_hex_value]). *)

From Stdlib Require Import ZArith List String Ascii Bool Lia.
From S2P Require Import Prelude.
Import ListNotations.
Open Scope Z_scope.
Open Scope cp_scope.
Open Scope bool_scope.

(** ** Characters *)

(** [HexDigit]: the digit value of a character, or [-1]. *)
Definition HexDigit (c : ascii) : Z :=
  let n := Z.of_N (N_of_ascii c) in
  if (48 <=? n) && (n <=? 57) then n - 48              (* '0'..'9' *)
  else if (97 <=? n) && (n <=? 102) then n - 87        (* 'a'..'f' *)
  else if (65 <=? n) && (n <=? 70) then n - 55         (* 'A'..'F' *)
  else -1.

(** [isspace] of the C locale: space, \t, \n, \v, \f, \r. *)
Definition isspace (c : ascii) : bool :=
  let n := N_of_ascii c in
  (n =? 32)%N || ((9 <=? n)%N && (n <=? 13)%N).

Definition is_hex (c : ascii) : bool := negb (HexDigit c =? -1).

(** ** [ParseHex] *)

(** The loop of [ParseHex(const char* psz)]: skip white space, read two hex
    digits, push the byte [(c1 << 4) | c2]; stop at the first character
    that is not a hex digit (the terminating NUL included). *)
Fixpoint ParseHex (s : string) : list Z :=
  match s with
  | EmptyString => []
  | String c rest =>
      if isspace c then ParseHex rest
      else if HexDigit c =? -1 then []
      else match rest with
           | EmptyString => []
           | String c2 rest' =>
               if HexDigit c2 =? -1 then []
               else Z.lor (Z.shiftl (HexDigit c) 4) (HexDigit c2) :: ParseHex rest'
           end
  end.

(** ** [uint256] *)

Definition uint256_WIDTH : Z := 256.

(** A [uint256] is an integer in [[0, 2^256)]. *)
Definition uint256_ok (x : Z) : Prop := 0 <= x < 2 ^ uint256_WIDTH.

(** [operator~]: every bit of the 256 flipped. *)
Definition uint256_not (x : Z) : Z := Z.lxor x (Z.ones uint256_WIDTH).

(** [operator>>]: logical shift right (shifts of 256 or more give 0). *)
Definition uint256_shr (x : Z) (n : Z) : Z := Z.shiftr x n.

(** *** [SetHex], the [uint256(const char* )] constructor *)

Fixpoint skip_spaces (s : string) : string :=
  match s with
  | String c rest => if isspace c then skip_spaces rest else s
  | EmptyString => s
  end.

(** [if (psz[0] == '0' && tolower(psz[1]) == 'x') psz += 2;] *)
Definition skip_0x (s : string) : string :=
  match s with
  | String "0" (String x rest) =>
      if (Ascii.eqb x "x" || Ascii.eqb x "X")%bool then rest else s
  | _ => s
  end.

(** The digits from [pbegin] up to the first non-hex character. *)
Fixpoint hex_prefix (s : string) : list Z :=
  match s with
  | String c rest => if is_hex c then HexDigit c :: hex_prefix rest else []
  | EmptyString => []
  end.

(** The byte loop of [SetHex]: [rdigits] are the digits read backwards from
    the last one, [nbytes] the bytes left before [pend]; each byte takes a
    low nibble and, when a digit is left, a high nibble. *)
Fixpoint SetHex_fill (nbytes : nat) (rdigits : list Z) : list Z :=
  match nbytes, rdigits with
  | O, _ => []
  | S _, [] => []
  | S _, [lo] => [lo]
  | S n, lo :: hi :: r => Z.lor lo (Z.shiftl hi 4) :: SetHex_fill n r
  end.

(** The little-endian value of the byte array [pn]. *)
Fixpoint le_value (bytes : list Z) : Z :=
  match bytes with
  | [] => 0
  | b :: r => b + 256 * le_value r
  end.

Definition SetHex (s : string) : Z :=
  le_value (SetHex_fill 32 (rev (hex_prefix (skip_0x (skip_spaces s))))).

(** The reference reading of a digit string: its value in base 16. *)
Definition hex_value (digits : list Z) : Z :=
  fold_left (fun acc d => acc * 16 + d) digits 0.

(** ** [~uint256(0) >> n] *)

Lemma uint256_not0_shr (n : Z) :
  0 <= n <= 256 -> uint256_shr (uint256_not 0) n = Z.ones (256 - n).
Proof.
  intros H. unfold uint256_shr, uint256_not, uint256_WIDTH. rewrite Z.lxor_0_l.
  apply Z.bits_inj'. intros i Hi.
  rewrite Z.shiftr_spec by lia. rewrite !Z.testbit_ones_nonneg by lia.
  destruct (Z.ltb_spec (i + n) 256), (Z.ltb_spec i (256 - n)); auto; lia.
Qed.

Lemma pow_limit_lt (a b : Z) :
  0 <= a < b -> b <= 256 ->
  uint256_ok (uint256_shr (uint256_not 0) a) /\
  uint256_shr (uint256_not 0) b < uint256_shr (uint256_not 0) a.
Proof.
  intros Hab Hb. rewrite !uint256_not0_shr by lia.
  unfold uint256_ok, uint256_WIDTH. rewrite !Z.ones_equiv.
  assert (2 ^ (256 - b) < 2 ^ (256 - a)) by (apply Z.pow_lt_mono_r; lia).
  assert (2 ^ (256 - a) <= 2 ^ 256) by (apply Z.pow_le_mono_r; lia).
  assert (0 < 2 ^ (256 - b)) by (apply Z.pow_pos_nonneg; lia).
  lia.
Qed.

(** ** Bytes *)

(** A vector of [unsigned char]. *)
Definition bytes_ok (l : list Z) : Prop := Forall (fun b => 0 <= b < 256) l.

Lemma HexDigit_range (c : ascii) : HexDigit c = -1 \/ 0 <= HexDigit c < 16.
Proof.
  unfold HexDigit.
  destruct (Z.leb_spec 48 (Z.of_N (N_of_ascii c))), (Z.leb_spec (Z.of_N (N_of_ascii c)) 57);
  destruct (Z.leb_spec 97 (Z.of_N (N_of_ascii c))), (Z.leb_spec (Z.of_N (N_of_ascii c)) 102);
  destruct (Z.leb_spec 65 (Z.of_N (N_of_ascii c))), (Z.leb_spec (Z.of_N (N_of_ascii c)) 70);
  cbn [andb]; lia.
Qed.

Lemma lor_nibbles (lo hi : Z) :
  0 <= lo < 16 -> 0 <= hi -> Z.lor lo (Z.shiftl hi 4) = lo + 16 * hi.
Proof.
  intros Hlo Hhi. rewrite Z.shiftl_mul_pow2 by lia.
  assert (H0 : Z.land lo (hi * 2 ^ 4) = 0).
  { apply Z.bits_inj'. intros i Hi. rewrite Z.land_spec, Z.bits_0.
    destruct (Z.ltb_spec i 4).
    - rewrite Z.mul_pow2_bits_low by lia. apply andb_false_r.
    - replace (Z.testbit lo i) with false; [reflexivity|].
      rewrite <- (Z.sub_add 4 i), <- Z.div_pow2_bits by lia.
      rewrite (Z.div_small lo) by (cbn; lia). now rewrite Z.bits_0. }
  rewrite <- (Z.lxor_lor _ _ H0), <- (Z.add_nocarry_lxor _ _ H0). change (2 ^ 4) with 16. lia.
Qed.

Lemma lor_shiftl4_byte (a b : Z) :
  0 <= a < 16 -> 0 <= b < 16 -> 0 <= Z.lor (Z.shiftl a 4) b < 256.
Proof. intros Ha Hb. rewrite Z.lor_comm, lor_nibbles by lia. lia. Qed.

Lemma ParseHex_bytes_aux (s : string) :
  bytes_ok (ParseHex s) /\ forall c, bytes_ok (ParseHex (String c s)).
Proof.
  unfold bytes_ok. induction s as [|d s [IH1 IH2]].
  - split; [constructor|]. intros c. cbn. destruct (isspace c); [constructor|].
    destruct (HexDigit c =? -1); constructor.
  - split; [apply IH2|]. intros c. cbn [ParseHex].
    destruct (isspace c); [apply IH2|].
    destruct (Z.eqb_spec (HexDigit c) (-1)); [constructor|].
    destruct (Z.eqb_spec (HexDigit d) (-1)); [constructor|].
    constructor; [|exact IH1].
    apply lor_shiftl4_byte; [destruct (HexDigit_range c)|destruct (HexDigit_range d)]; lia.
Qed.

(** [ParseHex] returns bytes whatever its input. *)
Lemma ParseHex_bytes (s : string) : bytes_ok (ParseHex s).
Proof. apply ParseHex_bytes_aux. Qed.

(** ** [SetHex] against the base-16 value *)

(** The value of nibbles listed from the least significant. *)
Fixpoint nibbles_value (rdigits : list Z) : Z :=
  match rdigits with
  | [] => 0
  | d :: r => d + 16 * nibbles_value r
  end.

Definition nibbles_ok (l : list Z) : Prop := Forall (fun d => 0 <= d < 16) l.

Lemma nibbles_value_nonneg l : nibbles_ok l -> 0 <= nibbles_value l.
Proof. unfold nibbles_ok. induction 1 as [|d l Hd _ IH]; cbn [nibbles_value]; lia. Qed.

Lemma hex_value_rev (ds : list Z) : hex_value ds = nibbles_value (rev ds).
Proof.
  induction ds as [|d ds IH] using rev_ind; [reflexivity|].
  unfold hex_value in *. rewrite fold_left_app, rev_app_distr. cbn [fold_left rev app nibbles_value]. rewrite IH. ring.
Qed.

(** The byte loop of [SetHex] keeps the low [nbytes] bytes of the value. *)
Lemma SetHex_fill_value (n : nat) (l : list Z) :
  nibbles_ok l -> le_value (SetHex_fill n l) = nibbles_value l mod 2 ^ (8 * Z.of_nat n).
Proof.
  revert l. induction n as [|n IH]; intros l Hl.
  - cbn [SetHex_fill le_value]. change (8 * Z.of_nat 0) with 0. rewrite Z.pow_0_r, Z.mod_1_r. reflexivity.
  - destruct l as [|lo [|hi r]]; cbn [SetHex_fill le_value nibbles_value].
    + rewrite Z.mod_0_l; [reflexivity|]. apply Z.pow_nonzero; lia.
    + inversion Hl; subst. rewrite Z.mod_small; [lia|].
      split; [lia|]. rewrite Nat2Z.inj_succ, Z.mul_succ_r, Z.pow_add_r by lia.
      assert (0 < 2 ^ (8 * Z.of_nat n)) by (apply Z.pow_pos_nonneg; lia). change (2 ^ 8) with 256. nia.
    + inversion Hl as [|? ? Hlo Hl']; subst. inversion Hl' as [|? ? Hhi Hr]; subst.
      rewrite IH by exact Hr. rewrite lor_nibbles by lia.
      pose proof (nibbles_value_nonneg r Hr).
      replace (8 * Z.of_nat (S n)) with (8 + 8 * Z.of_nat n) by lia.
      rewrite Z.pow_add_r by lia. change (2 ^ 8) with 256.
      rewrite Z.rem_mul_r by (try apply Z.pow_pos_nonneg; lia).
      replace (lo + 16 * (hi + 16 * nibbles_value r)) with ((lo + 16 * hi) + nibbles_value r * 256) by ring.
      rewrite Z.mod_add, Z.div_add by lia.
      rewrite (Z.mod_small (lo + 16 * hi) 256), (Z.div_small (lo + 16 * hi) 256) by lia. now rewrite Z.add_0_l.
Qed.

Lemma hex_prefix_nibbles (s : string) : nibbles_ok (hex_prefix s).
Proof.
  induction s as [|c s IH]; cbn; [constructor|].
  unfold is_hex. destruct (Z.eqb_spec (HexDigit c) (-1)); cbn; [constructor|].
  constructor; [destruct (HexDigit_range c); lia|exact IH].
Qed.

(** [SetHex] agrees with reading the digits in base 16, reduced to the
    256 bits of a [uint256]. *)
Lemma SetHex_hex_value (s : string) :
  SetHex s = hex_value (hex_prefix (skip_0x (skip_spaces s))) mod 2 ^ 256.
Proof.
  unfold SetHex. rewrite SetHex_fill_value, hex_value_rev; [reflexivity|].
  unfold nibbles_ok. apply Forall_rev, hex_prefix_nibbles.
Qed.
