(* ===== verification/Checkpoints.v ===== *)
(** * Checkpoint tables ([chainparams.cpp], lines 49-91)

    [Checkpoints::MapCheckpoints] is a [std::map<int, uint256>] from block
    height to trusted block hash, filled by [boost::assign::map_list_of];
    [CCheckpointData] adds the time of the last checkpoint, the transaction
    count up to it and the estimated transactions per day.  The map is
    modelled as an association list kept sorted by height ([Module StdMap]),
    with the insertion of [std::map] (a key already present keeps its first
    value), so that [map_list_of] is the left fold of that insertion.  The
    lookups of [checkpoints.cpp] (outside [src/]) are modelled from the
    spec's contract: [lookup] and [highestCheckpointHeight]. *)

From Stdlib Require Import ZArith String List Lia Sorting.Sorted.
From S2P Require Import Prelude Hex.
Import ListNotations.
Open Scope Z_scope.

(** ** [std::map<int, uint256>] *)

Module StdMap.

Definition t := list (Z * Z).

(** [std::map::insert]: no effect when the key is present. *)
Fixpoint insert (k v : Z) (m : t) : t :=
  match m with
  | [] => [(k, v)]
  | (k', v') :: r =>
      if k <? k' then (k, v) :: m
      else if k =? k' then m
      else (k', v') :: insert k v r
  end.

(** [std::map::find]. *)
Fixpoint find (k : Z) (m : t) : option Z :=
  match m with
  | [] => None
  | (k', v') :: r => if k =? k' then Some v' else find k r
  end.

(** The key of [rbegin()], when the map is not empty. *)
Fixpoint last_key (m : t) : option Z :=
  match m with
  | [] => None
  | [(k, _)] => Some k
  | _ :: r => last_key r
  end.

(** The heights are strictly increasing: the order [std::map] keeps. *)
Definition sorted (m : t) : Prop :=
  StronglySorted (fun a b => fst a < fst b) m.

Definition keys (m : t) : list Z := map fst m.

End StdMap.

(** [boost::assign::map_list_of (k1, v1) (k2, v2) ...] converted to a
    [std::map]: the pairs are inserted in the order they are written. *)
Definition map_list_of (l : list (Z * Z)) : StdMap.t :=
  fold_left (fun m kv => StdMap.insert (fst kv) (snd kv) m) l [].

(** The first value bound to [k] in a list of pairs, the abstract reading
    of a [map_list_of] literal. *)
Fixpoint assoc_first (k : Z) (l : list (Z * Z)) : option Z :=
  match l with
  | [] => None
  | (k', v) :: r => if k =? k' then Some v else assoc_first k r
  end.

(** ** [CCheckpointData] *)

Record CCheckpointData := {
  mapCheckpoints : StdMap.t;
  nTimeLastCheckpoint : Z;          (** UNIX time of the last checkpoint block *)
  nTransactionsLastCheckpoint : Z;  (** transactions up to the last checkpoint *)
  fTransactionsPerDay : Z           (** estimated transactions per day after it *)
}.

(** ** The three static tables *)

Definition mapCheckpoints_main : StdMap.t :=
  map_list_of
    [(0, SetHex "0xf820cab6fa2bf7503f0302e7fe2b41c410117f865556de7273d76eaf399d9b48");
     (1000, SetHex "0xbb8c23e3fae0baea38080315d85a022ada850139843cf4469ced5f0d36447a6c");
     (5000, SetHex "0x8317b1173e86e07b4205ad4ec56fb5e88d4ba0afa0c0476e17b0a42574a35d5a");
     (6000, SetHex "0x625191e9fcf36f5a1ec127b4661d18cec9ca2a21e85e6dec1a0a5cd4cc52e3bf")].

Definition data : CCheckpointData := {|
  mapCheckpoints := mapCheckpoints_main;
  nTimeLastCheckpoint := 1523209806;
  nTransactionsLastCheckpoint := 0;
  fTransactionsPerDay := 750 |}.

Definition mapCheckpointsTestnet : StdMap.t :=
  map_list_of [(0, SetHex "0x001")].

Definition dataTestnet : CCheckpointData := {|
  mapCheckpoints := mapCheckpointsTestnet;
  nTimeLastCheckpoint := 1523209806;
  nTransactionsLastCheckpoint := 0;
  fTransactionsPerDay := 250 |}.

Definition mapCheckpointsRegtest : StdMap.t :=
  map_list_of [(0, SetHex "0x001")].

Definition dataRegtest : CCheckpointData := {|
  mapCheckpoints := mapCheckpointsRegtest;
  nTimeLastCheckpoint := 0;
  nTransactionsLastCheckpoint := 0;
  fTransactionsPerDay := 0 |}.

(** ** The contract of the checkpoint table *)

(** [lookup(height) -> optional<Hash>]. *)
Definition lookup (d : CCheckpointData) (height : Z) : option Z :=
  StdMap.find height (mapCheckpoints d).

(** [highestCheckpointHeight()] ([checkpoints.rbegin()->first]); the empty
    map, where [rbegin()] is not dereferenceable, gives [None]. *)
Definition highestCheckpointHeight (d : CCheckpointData) : option Z :=
  StdMap.last_key (mapCheckpoints d).

(** ** Lemmas on the map *)

Module StdMapFacts.
Import StdMap.

Lemma sorted_cons_inv k v m :
  sorted ((k, v) :: m) -> sorted m /\ Forall (fun b => k < fst b) m.
Proof. intros H. apply StronglySorted_inv in H. exact H. Qed.

Lemma Forall_insert (P : Z * Z -> Prop) k v m :
  P (k, v) -> Forall P m -> Forall P (insert k v m).
Proof.
  intros Hp Hm. induction Hm as [|[k' v'] r Hk Hr IH]; simpl; [auto|].
  destruct (k <? k'); [auto|]. destruct (k =? k'); auto.
Qed.

Lemma insert_sorted k v m : sorted m -> sorted (insert k v m).
Proof.
  unfold sorted. induction m as [|[k' v'] r IH]; simpl; intros H.
  - repeat constructor.
  - apply StronglySorted_inv in H as [Hr Hall].
    destruct (Z.ltb_spec k k').
    + constructor; [constructor; auto|].
      constructor; [simpl; lia|].
      eapply Forall_impl; [|exact Hall]. simpl; intros; lia.
    + destruct (Z.eqb_spec k k'); [constructor; auto|].
      constructor; [auto|]. apply Forall_insert; [simpl; lia|auto].
Qed.

(** Below every key of a sorted map, [find] fails. *)
Lemma find_below j m : Forall (fun b => j < fst b) m -> find j m = None.
Proof.
  induction 1 as [|[k' v'] r Hk _ IH]; simpl in *; [auto|].
  destruct (Z.eqb_spec j k'); [lia|auto].
Qed.

Lemma find_insert j k v m :
  sorted m ->
  find j (insert k v m) =
    if j =? k then match find k m with Some v' => Some v' | None => Some v end
    else find j m.
Proof.
  unfold sorted. induction m as [|[k' v'] r IH]; simpl; intros H.
  - destruct (j =? k); auto.
  - apply StronglySorted_inv in H as [Hr Hall].
    destruct (Z.ltb_spec k k').
    + simpl. destruct (Z.eqb_spec j k); subst.
      * destruct (Z.eqb_spec k k'); [lia|].
        rewrite find_below; auto.
        eapply Forall_impl; [|exact Hall]. simpl; intros; lia.
      * reflexivity.
    + destruct (Z.eqb_spec k k'); subst; simpl.
      * destruct (Z.eqb_spec j k'); auto.
      * rewrite IH by auto. destruct (Z.eqb_spec j k'), (Z.eqb_spec j k); subst; auto; lia.
Qed.

Lemma fold_insert_sorted l m :
  sorted m -> sorted (fold_left (fun m kv => insert (fst kv) (snd kv) m) l m).
Proof.
  revert m. induction l as [|kv l IH]; simpl; intros m H; auto using insert_sorted.
Qed.

Lemma fold_insert_find k l m :
  sorted m ->
  find k (fold_left (fun m kv => insert (fst kv) (snd kv) m) l m) =
    match find k m with Some v => Some v | None => assoc_first k l end.
Proof.
  revert m. induction l as [|[k' v'] l IH]; simpl; intros m H.
  - destruct (find k m); auto.
  - rewrite IH by (apply insert_sorted; auto).
    rewrite find_insert by auto.
    destruct (Z.eqb_spec k k'); subst.
    + destruct (find k' m); auto.
    + reflexivity.
Qed.

Lemma sorted_NoDup m : sorted m -> NoDup (keys m).
Proof.
  unfold sorted, keys. induction 1 as [|[k v] r _ IH Hall]; simpl; constructor; auto.
  rewrite in_map_iff. intros [[k' v'] [Heq Hin]]. simpl in Heq; subst.
  rewrite Forall_forall in Hall. specialize (Hall _ Hin). simpl in Hall. lia.
Qed.

Lemma find_in_keys k m : find k m <> None <-> In k (keys m).
Proof.
  unfold keys. induction m as [|[k' v'] r IH]; simpl; [tauto|].
  destruct (Z.eqb_spec k k'); subst; [split; auto; discriminate|].
  rewrite IH. split; [auto|]. intros [->|H]; [contradiction|auto].
Qed.

Lemma last_key_spec m h :
  sorted m -> last_key m = Some h ->
  In h (keys m) /\ forall k, In k (keys m) -> k <= h.
Proof.
  unfold sorted, keys. induction 1 as [|[k v] r Hr IH Hall]; [discriminate|].
  destruct r as [|[k2 v2] r'].
  - simpl. intros [= <-]. split; [auto|]. intros k' [Hk|[]]. subst. lia.
  - intros Hl. change (last_key ((k2, v2) :: r') = Some h) in Hl.
    destruct (IH Hl) as [Hin Hmax]. split; [right; exact Hin|].
    intros k' [<-|Hk']; [|auto].
    pose proof (Forall_inv Hall) as Hk2. simpl in Hk2.
    specialize (Hmax k2 (or_introl eq_refl)). simpl. lia.
Qed.
Lemma fold_insert_Forall (P : Z * Z -> Prop) (l : list (Z * Z)) (m : t) :
  Forall P l -> Forall P m ->
  Forall P (fold_left (fun m kv => insert (fst kv) (snd kv) m) l m).
Proof.
  intros Hl. revert m. induction Hl as [|[k v] l Hkv Hl IH]; intros m Hm; [exact Hm|].
  apply IH, Forall_insert; assumption.
Qed.
End StdMapFacts.
