(* ===== verification/Seeds.v ===== *)
(** * Seed address conversion ([convertSeed6], [chainparams.cpp] lines 20-47)

    [convertSeed6] turns the packed seed table [pnSeed6_*] (an array of
    [SeedSpec6]: 16 address bytes and a port) into [CAddress] records
    appended to [vSeedsOut], each stamped with a "last seen" time
    [GetTime() - GetRand(nOneWeek) - nOneWeek].  The two library calls read
    process state: the clock and the random generator.  They are modelled
    by a [World] holding the sequence of clock readings and the sequence of
    random draws together with the number of each consumed so far, so that
    a run is reproducible from its [World] (the spec asks for a fixed random
    source).  [GetRand(n)] returns the next draw reduced to [[0, n)] (the
    uniform range of [random.cpp], outside [src/]).

    The time arithmetic is written at its C++ widths: [GetTime()] is an
    [int64_t], [GetRand] a [uint64_t], so the subtraction is done in
    [uint64_t] and the result is truncated to the [unsigned int nTime] of
    [CAddress].  The out-of-range read [data[i]] with [i >= count] of the
    array, which C++ leaves undefined, is a [Fatal] outcome of the model
    (not an abort of the program); the only callers pass [ARRAYLEN], so
    the theorems take [count <= length data] and never reach it. *)

From Stdlib Require Import ZArith String List Lia.
From S2P Require Import Prelude.
Import ListNotations.
Open Scope Z_scope.
Open Scope cp_scope.

(** ** Data *)

Record SeedSpec6 := {
  addr : list Z;      (** [uint8_t addr[16]] *)
  port : Z            (** [uint16_t port] *)
}.

(** The fields of [CAddress] the conversion sets: the [CService] (address
    and port) and [nTime]. *)
Record CAddress := {
  ip : list Z;
  addr_port : Z;
  nTime : Z           (** [unsigned int nTime] *)
}.

(** ** The clock and the random generator *)

Record World := {
  clock : nat -> Z;         (** the [k]-th reading of [GetTime()] *)
  entropy : nat -> Z;       (** the [k]-th draw of the generator *)
  time_reads : nat;
  rand_draws : nat
}.

(** [int64_t GetTime()]. *)
Definition GetTime : M World Z :=
  fun w => Ok (clock w (time_reads w),
               {| clock := clock w; entropy := entropy w;
                  time_reads := S (time_reads w); rand_draws := rand_draws w |}).

(** [uint64_t GetRand(uint64_t nMax)]: [0] for [nMax = 0], otherwise the
    next draw in [[0, nMax)]. *)
Definition GetRand (nMax : Z) : M World Z :=
  fun w => if nMax =? 0 then Ok (0, w)
           else Ok (entropy w (rand_draws w) mod nMax,
                    {| clock := clock w; entropy := entropy w;
                       time_reads := time_reads w; rand_draws := S (rand_draws w) |}).

(** ** [convertSeed6] *)

Definition nOneWeek : Z := 7 * 24 * 60 * 60.

(** [addr.nTime = GetTime() - GetRand(nOneWeek) - nOneWeek;] at the C++
    types: [int64_t - uint64_t] and [uint64_t - int64_t] are [uint64_t]
    operations, and the assignment truncates to [unsigned int]. *)
Definition seed_nTime (now rnd : Z) : Z :=
  uint32 (uint64 (uint64 (uint64 now - rnd) - uint64 nOneWeek)).

(** [CAddress addr(CService(ip, data[i].port))] with its time. *)
Definition make_addr (sp : SeedSpec6) (t : Z) : CAddress :=
  {| ip := addr sp; addr_port := port sp; nTime := t |}.

(** The loop body for index [i] and the [remaining] iterations after it. *)
Fixpoint convertSeed6_loop (vSeedsOut : list CAddress) (data : list SeedSpec6)
    (i remaining : nat) : M World (list CAddress) :=
  match remaining with
  | O => ret vSeedsOut
  | S rem =>
      match nth_error data i with
      | None => fun _ => Fatal "convertSeed6: data[i] read past the end of the array"
      | Some sp =>
          now <- GetTime ;;
          rnd <- GetRand nOneWeek ;;
          convertSeed6_loop (vSeedsOut ++ [make_addr sp (seed_nTime now rnd)]) data (S i) rem
      end
  end.

Definition convertSeed6 (vSeedsOut : list CAddress) (data : list SeedSpec6)
    (count : nat) : M World (list CAddress) :=
  convertSeed6_loop vSeedsOut data 0 count.

(** ** Reference reading *)

(** The world after [n] iterations: [n] clock readings and [n] draws. *)
Definition advance (w : World) (n : nat) : World :=
  {| clock := clock w; entropy := entropy w;
     time_reads := (time_reads w + n)%nat; rand_draws := (rand_draws w + n)%nat |}.

(** The records of the seeds [data], the first one stamped with the [k]-th
    clock reading and draw of [w]. *)
Fixpoint seed_records (w : World) (k : nat) (data : list SeedSpec6) : list CAddress :=
  match data with
  | [] => []
  | sp :: r =>
      make_addr sp (seed_nTime (clock w (time_reads w + k))
                               (entropy w (rand_draws w + k) mod nOneWeek))
        :: seed_records w (S k) r
  end.

(** ** Lemmas *)

Lemma nOneWeek_pos : 0 < nOneWeek.
Proof. unfold nOneWeek; lia. Qed.

Lemma GetTime_run w :
  GetTime w = Ok (clock w (time_reads w),
                  {| clock := clock w; entropy := entropy w;
                     time_reads := S (time_reads w); rand_draws := rand_draws w |}).
Proof. reflexivity. Qed.

Lemma GetRand_week_run w :
  GetRand nOneWeek w =
    Ok (entropy w (rand_draws w) mod nOneWeek,
        {| clock := clock w; entropy := entropy w;
           time_reads := time_reads w; rand_draws := S (rand_draws w) |}).
Proof. reflexivity. Qed.

Lemma seed_records_advance w n k l :
  seed_records (advance w n) k l = seed_records w (n + k) l.
Proof.
  revert k. induction l as [|sp l IH]; intros k; simpl; [reflexivity|].
  rewrite IH. repeat (f_equal; try lia).
Qed.

Lemma advance_advance w n m : advance (advance w n) m = advance w (n + m).
Proof. unfold advance; simpl. f_equal; lia. Qed.

Lemma firstn_skipn_nth {A} (l : list A) i n x :
  nth_error l i = Some x ->
  firstn (S n) (skipn i l) = x :: firstn n (skipn (S i) l).
Proof.
  revert i. induction l as [|y l IH]; intros [|i] H; simpl in *; try discriminate.
  - now injection H as ->.
  - now apply IH.
Qed.

(** The loop from index [i] with [rem] iterations, all in range. *)
Lemma convertSeed6_loop_ok v data i rem w :
  (i + rem <= length data)%nat ->
  convertSeed6_loop v data i rem w =
    Ok (v ++ seed_records w 0 (firstn rem (skipn i data)), advance w rem).
Proof.
  revert v i w. induction rem as [|rem IH]; intros v i w Hlen; cbn [convertSeed6_loop].
  - rewrite app_nil_r. unfold ret, advance. destruct w; simpl. repeat f_equal; lia.
  - destruct (nth_error data i) as [sp|] eqn:Hi.
    2: { apply nth_error_None in Hi. lia. }
    unfold bind at 1. rewrite GetTime_run. unfold bind. rewrite GetRand_week_run.
    rewrite IH by lia.
    assert (Hw : {| clock := clock w; entropy := entropy w; time_reads := S (time_reads w);
                    rand_draws := S (rand_draws w) |} = advance w 1)
      by (unfold advance; f_equal; lia).
    cbn [clock entropy time_reads rand_draws]. rewrite Hw. rewrite (firstn_skipn_nth _ _ _ _ Hi). simpl.
    rewrite seed_records_advance, advance_advance, <- app_assoc. simpl.
    repeat f_equal; lia.
Qed.

(** The loop reaches an index past the end of the array. *)
Lemma convertSeed6_loop_past v data i rem w :
  (i <= length data < i + rem)%nat ->
  exists e, convertSeed6_loop v data i rem w = Fatal e.
Proof.
  revert v i w. induction rem as [|rem IH]; intros v i w Hlen; [lia|]. simpl.
  destruct (nth_error data i) as [sp|] eqn:Hi; [|eauto].
  assert (i < length data)%nat by (apply nth_error_Some; congruence).
  unfold bind at 1. rewrite GetTime_run. unfold bind. rewrite GetRand_week_run.
  apply IH. lia.
Qed.

(** [seed_nTime] is the difference taken modulo [2^32]. *)
Lemma seed_nTime_mod now rnd :
  seed_nTime now rnd = (now - rnd - nOneWeek) mod 2 ^ 32.
Proof.
  unfold seed_nTime, uint32, uint64.
  rewrite (wrap_small 64 nOneWeek) by (unfold nOneWeek; lia).
  rewrite wrap_sub_l by lia.
  replace (wrap 64 now - rnd - nOneWeek) with (wrap 64 now - (rnd + nOneWeek)) by lia.
  rewrite wrap_sub_l, wrap_wrap_narrow by lia. unfold wrap. f_equal. lia.
Qed.

Lemma seed_records_nth w k data j a :
  nth_error (seed_records w k data) j = Some a ->
  nTime a = seed_nTime (clock w (time_reads w + (k + j)))
                       (entropy w (rand_draws w + (k + j)) mod nOneWeek).
Proof.
  revert k j. induction data as [|sp data IH]; intros k [|j] H; simpl in H; try discriminate.
  - injection H as <-. simpl. now rewrite Nat.add_0_r.
  - rewrite (IH _ _ H). now rewrite Nat.add_succ_comm.
Qed.

(** ** Properties of [convertSeed6] *)

Lemma convertSeed6_run (v : list CAddress) (data : list SeedSpec6) (w : World) :
  convertSeed6 v data (length data) w =
    Ok (v ++ seed_records w 0 data, advance w (length data)).
Proof.
  unfold convertSeed6. rewrite convertSeed6_loop_ok by lia.
  rewrite firstn_all. reflexivity.
Qed.

Lemma seed_nTime_in_window (now rnd : Z) :
  0 <= rnd < nOneWeek ->
  2 * nOneWeek - 1 <= now -> now - nOneWeek < 2 ^ 32 ->
  now - 2 * nOneWeek < seed_nTime now rnd <= now - nOneWeek.
Proof.
  intros Hr Hlo Hhi. rewrite seed_nTime_mod, Z.mod_small by lia. lia.
Qed.

(** C23 (termination) The loop [for (i = 0; i < count; i++)] returns for
    every [count] up to the length of the array, after exactly [count]
    iterations: it appends the records of the first [count] seeds and
    consumes [count] clock readings and [count] random draws. *)
Theorem convertSeed6_terminates (v : list CAddress) (data : list SeedSpec6)
    (count : nat) (w : World) :
  (count <= length data)%nat ->
  convertSeed6 v data count w =
    Ok (v ++ seed_records w 0 (firstn count data), advance w count).
Proof. intros H. unfold convertSeed6. rewrite convertSeed6_loop_ok by lia. reflexivity. Qed.

Lemma convertSeed6_terminates_witness :
  convertSeed6 [] [{| addr := repeat 0 16; port := 36003 |}; {| addr := repeat 1 16; port := 36005 |}] 1
    {| clock := fun _ => 0; entropy := fun _ => 0; time_reads := 0; rand_draws := 0 |} =
  Ok ([] ++ seed_records {| clock := fun _ => 0; entropy := fun _ => 0; time_reads := 0; rand_draws := 0 |} 0
             (firstn 1 [{| addr := repeat 0 16; port := 36003 |}; {| addr := repeat 1 16; port := 36005 |}]),
      advance {| clock := fun _ => 0; entropy := fun _ => 0; time_reads := 0; rand_draws := 0 |} 1).
Proof. apply convertSeed6_terminates. simpl. lia. Defined.

(** C16 (bounds) One timestamp: with a draw in [[0, nOneWeek)] and a clock
    for which no wrap-around occurs, [nTime] lies in
    [(now - 2 weeks, now - 1 week]]. *)
Theorem seed_nTime_window (now rnd : Z) :
  0 <= rnd < nOneWeek ->
  2 * nOneWeek - 1 <= now -> now - nOneWeek < 2 ^ 32 ->
  now - 2 * nOneWeek < seed_nTime now rnd <= now - nOneWeek.
Proof. apply seed_nTime_in_window. Qed.

Lemma seed_nTime_window_witness :
  1523209806 - 2 * nOneWeek < seed_nTime 1523209806 0 <= 1523209806 - nOneWeek.
Proof.
  apply seed_nTime_window; unfold nOneWeek; lia.
Defined.

(** C10 (bounds) Every record [convertSeed6] appends is stamped between two
    weeks (excluded) and one week (included) before the clock reading of
    its iteration, when the clock reads a time of the [unsigned int] era
    at least two weeks after the epoch. *)
Theorem convertSeed6_nTime_window (v : list CAddress) (data : list SeedSpec6)
    (w : World) (out : list CAddress) (w' : World) (j : nat) (a : CAddress) :
  (forall k, 2 * nOneWeek <= clock w k < 2 ^ 32) ->
  convertSeed6 v data (length data) w = Ok (out, w') ->
  nth_error out (length v + j) = Some a ->
  clock w (time_reads w + j) - 2 * nOneWeek < nTime a <= clock w (time_reads w + j) - nOneWeek.
Proof.
  intros Hclock Hrun Hnth. rewrite convertSeed6_run in Hrun.
  injection Hrun as <- _. rewrite nth_error_app2 in Hnth by lia.
  replace (length v + j - length v)%nat with j in Hnth by lia.
  rewrite (seed_records_nth _ _ _ _ _ Hnth). simpl.
  specialize (Hclock (time_reads w + j)%nat).
  pose proof nOneWeek_pos.
  apply seed_nTime_in_window; [apply Z.mod_pos_bound; lia | lia | lia].
Qed.

Lemma convertSeed6_nTime_window_witness :
  clock {| clock := fun _ => 1523209806; entropy := fun _ => 0; time_reads := 0; rand_draws := 0 |}
        (0 + 0) - 2 * nOneWeek <
  nTime (make_addr {| addr := repeat 0 16; port := 36003 |} (seed_nTime 1523209806 0)) <=
  clock {| clock := fun _ => 1523209806; entropy := fun _ => 0; time_reads := 0; rand_draws := 0 |}
        (0 + 0) - nOneWeek.
Proof.
  apply (convertSeed6_nTime_window [] [{| addr := repeat 0 16; port := 36003 |}]
           {| clock := fun _ => 1523209806; entropy := fun _ => 0; time_reads := 0; rand_draws := 0 |}
           [make_addr {| addr := repeat 0 16; port := 36003 |} (seed_nTime 1523209806 0)]
           (advance {| clock := fun _ => 1523209806; entropy := fun _ => 0;
                       time_reads := 0; rand_draws := 0 |} 1) 0).
  - intros k. cbn. unfold nOneWeek. lia.
  - reflexivity.
  - reflexivity.
Defined.

(** C17 (bounds) When the clock reads less than one week plus the draw (a
    clock near the epoch), the [uint64_t] subtraction wraps and the
    truncated [nTime] lands [2^32] seconds later, in the future. *)
Theorem seed_nTime_wraps (now rnd : Z) :
  0 <= rnd -> now - rnd - nOneWeek < 0 -> - 2 ^ 32 <= now - rnd - nOneWeek ->
  seed_nTime now rnd = now - rnd - nOneWeek + 2 ^ 32.
Proof.
  intros H1 H2 H3. rewrite seed_nTime_mod.
  rewrite <- (Z.mod_small (now - rnd - nOneWeek + 2 ^ 32) (2 ^ 32)) by lia.
  rewrite <- Zplus_mod_idemp_r, Z_mod_same_full, Z.add_0_r. reflexivity.
Qed.

Lemma seed_nTime_wraps_witness :
  seed_nTime 0 0 = 0 - 0 - nOneWeek + 2 ^ 32.
Proof. apply seed_nTime_wraps; unfold nOneWeek; lia. Defined.
