(* ===== verification/Script.v ===== *)
(** * Script building for the genesis coinbase ([script.h], outside [src/])

    The genesis constructor of [CMainParams] ([chainparams.cpp] lines
    119-125) builds two scripts with [CScript]'s stream operators:
    [CScript() << 486604799 << CScriptNum(4) << vector(pszTimestamp)] and
    [CScript() << ParseHex(key) << OP_CHECKSIG].  The operators live in
    [script.h]; they are modelled here from the spec's words (the signature
    script "encodes the difficulty-bits constant, a fixed small integer and
    the raw bytes of the timestamp message") at the byte level of the
    [CScript] they append to: [CScriptNum::serialize], [push_int64], the
    data push with its [OP_PUSHDATA1/2/4] length prefixes, and the opcode
    push that throws on a value that is not a byte.  The decoder [GetOp]
    reads the same encoding back, and [decode_int] gives the number a
    push carries ([DecodeOP_N] or [CScriptNum]); the encoding round trip
    [CScriptNum_set_vch_serialize] and its [GetOp] forms are proved here.
    A script is a [list Z] of bytes. *)

From Stdlib Require Import ZArith String List Bool Lia.
From S2P Require Import Prelude Hex.
Import ListNotations.
Open Scope Z_scope.
Open Scope cp_scope.

Definition script := list Z.

Definition OP_0 : Z := 0.
Definition OP_PUSHDATA1 : Z := 76.
Definition OP_PUSHDATA2 : Z := 77.
Definition OP_PUSHDATA4 : Z := 78.
Definition OP_1NEGATE : Z := 79.
Definition OP_1 : Z := 81.
Definition OP_CHECKSIG : Z := 172.

(** [nbytes] little-endian bytes of [x] (the bytes of a [uint16_t] or
    [uint32_t] copied from memory on a little-endian host). *)
Fixpoint le_split (nbytes : nat) (x : Z) : list Z :=
  match nbytes with
  | O => []
  | S n => Z.land x 255 :: le_split n (Z.shiftr x 8)
  end.

(** [while (absvalue) { result.push_back(absvalue & 0xff); absvalue >>= 8; }]:
    the loop runs at most 8 times on a [uint64_t]. *)
Fixpoint magnitude_bytes (fuel : nat) (absvalue : Z) : list Z :=
  match fuel with
  | O => []
  | S f => if absvalue =? 0 then []
           else Z.land absvalue 255 :: magnitude_bytes f (Z.shiftr absvalue 8)
  end.

(** [CScriptNum::serialize(const int64_t& value)]: minimal little-endian
    magnitude with the sign in the top bit of the last byte. *)
Definition CScriptNum_serialize (value : Z) : list Z :=
  if value =? 0 then []
  else
    let neg := value <? 0 in
    let result := magnitude_bytes 8 (Z.abs value) in
    let last := List.last result 0 in
    if Z.testbit last 7 then result ++ [if neg then 128 else 0]
    else if neg then removelast result ++ [Z.lor last 128]
    else result.

(** [CScript& operator<<(const std::vector<unsigned char>& b)]. *)
Definition push_data (s : script) (b : list Z) : script :=
  let n := Z.of_nat (length b) in
  let prefix :=
    if n <? OP_PUSHDATA1 then [n]
    else if n <=? 255 then [OP_PUSHDATA1; n]
    else if n <=? 65535 then OP_PUSHDATA2 :: le_split 2 n
    else OP_PUSHDATA4 :: le_split 4 n in
  s ++ prefix ++ b.

(** [push_int64]: [OP_1NEGATE], [OP_1] .. [OP_16] for the small values,
    otherwise the serialized number as data. *)
Definition push_int64 (s : script) (n : Z) : script :=
  if (n =? -1) || ((1 <=? n) && (n <=? 16)) then s ++ [n + (OP_1 - 1)]
  else push_data s (CScriptNum_serialize n).

(** [CScript& operator<<(const CScriptNum& b)]: the number's bytes as data. *)
Definition push_scriptnum (s : script) (n : Z) : script :=
  push_data s (CScriptNum_serialize n).

(** [CScript& operator<<(opcodetype opcode)]: throws
    [runtime_error] when the opcode is not a byte. *)
Definition push_opcode (s : script) (opcode : Z) : result script :=
  if (opcode <? 0) || (255 <? opcode)
  then Fatal "CScript::operator<<() : invalid opcode"
  else Ok (s ++ [opcode]).

(** ** Decoding: [GetScriptOp] *)

(** [if (end - pc < 0 || (unsigned int)(end - pc) < nSize) return false;]
    then the [nSize] bytes of data and the rest of the script. *)
Definition read_data (opcode nSize : Z) (r : script) : option (Z * list Z * script) :=
  if Z.of_nat (length r) <? nSize then None
  else Some (opcode, firstn (Z.to_nat nSize) r, skipn (Z.to_nat nSize) r).

(** One operation: its opcode, the data it pushes and the rest of the
    script; [None] when the script ends or a push runs past the end. *)
Definition GetOp (s : script) : option (Z * list Z * script) :=
  match s with
  | [] => None
  | opcode :: pc =>
      if opcode <=? OP_PUSHDATA4 then
        let sized :=
          if opcode <? OP_PUSHDATA1 then Some (opcode, pc)
          else if opcode =? OP_PUSHDATA1 then
            match pc with [] => None | n :: r => Some (n, r) end
          else if opcode =? OP_PUSHDATA2 then
            if (length pc <? 2)%nat then None
            else Some (le_value (firstn 2 pc), skipn 2 pc)
          else
            if (length pc <? 4)%nat then None
            else Some (le_value (firstn 4 pc), skipn 4 pc) in
        match sized with
        | None => None
        | Some (nSize, r) => read_data opcode nSize r
        end
      else Some (opcode, [], pc)
  end.

(** All operations of a script, with fuel (one unit per operation). *)
Fixpoint GetOps (fuel : nat) (s : script) : option (list (Z * list Z)) :=
  match fuel with
  | O => match s with [] => Some [] | _ => None end
  | S f =>
      match s with
      | [] => Some []
      | _ => match GetOp s with
             | None => None
             | Some (op, d, r) =>
                 match GetOps f r with
                 | None => None
                 | Some ops => Some ((op, d) :: ops)
                 end
             end
      end
  end.

(** [CScriptNum::set_vch]: little-endian magnitude, sign in the top bit. *)
Definition CScriptNum_set_vch (vch : list Z) : Z :=
  match vch with
  | [] => 0
  | _ =>
      let result := le_value vch in
      if Z.testbit (List.last vch 0) 7
      then - (Z.land result (Z.lnot (Z.shiftl 128 (8 * (Z.of_nat (length vch) - 1)))))
      else result
  end.

(** ** Round trip of a data push *)

Lemma length_le_split k x : length (le_split k x) = k.
Proof. revert x. induction k; simpl; auto. Qed.

(** Also for a negative [x]: its bytes are those of the two's complement. *)
Lemma le_value_le_split k x :
  le_value (le_split k x) = x mod 2 ^ (8 * Z.of_nat k).
Proof.
  revert x. induction k as [|k IH]; intros x; simpl le_split; simpl le_value.
  - rewrite Z.mod_1_r. reflexivity.
  - rewrite IH. rewrite Z.shiftr_div_pow2 by lia.
    change 255 with (Z.ones 8). rewrite Z.land_ones by lia.
    replace (8 * Z.of_nat (S k)) with (8 + 8 * Z.of_nat k) by lia.
    rewrite Z.pow_add_r by lia.
    rewrite Z.rem_mul_r by (try apply Z.pow_pos_nonneg; lia). reflexivity.
Qed.

(** The opcode that introduces a push of [n] bytes. *)
Definition push_opcode_of (n : Z) : Z :=
  if n <? OP_PUSHDATA1 then n
  else if n <=? 255 then OP_PUSHDATA1
  else if n <=? 65535 then OP_PUSHDATA2
  else OP_PUSHDATA4.

Lemma skipn_firstn_app_exact {A} (p l : list A) :
  firstn (length p) (p ++ l) = p /\ skipn (length p) (p ++ l) = l.
Proof.
  split; [rewrite firstn_app, Nat.sub_diag, firstn_all; simpl; apply app_nil_r|].
  rewrite skipn_app, Nat.sub_diag, skipn_all; reflexivity.
Qed.

Lemma read_data_exact (op : Z) (b rest : list Z) :
  read_data op (Z.of_nat (length b)) (b ++ rest) = Some (op, b, rest).
Proof.
  unfold read_data. rewrite length_app, Nat2Z.id.
  destruct (Z.ltb_spec (Z.of_nat (length b + length rest)) (Z.of_nat (length b))); [lia|].
  destruct (skipn_firstn_app_exact b rest) as [-> ->]. reflexivity.
Qed.

(** [GetOp] reads back what [operator<<(vector)] pushed:
    the opcode of the length class, the data, and the rest of the script,
    for every push shorter than [2^32] bytes. *)
Theorem GetOp_push_data (b rest : list Z) :
  Z.of_nat (length b) < 2 ^ 32 ->
  GetOp (push_data [] b ++ rest) = Some (push_opcode_of (Z.of_nat (length b)), b, rest).
Proof.
  intros Hlen. unfold push_data, push_opcode_of. rewrite app_nil_l.
  set (n := Z.of_nat (length b)). assert (0 <= n) by lia.
  unfold OP_PUSHDATA1, OP_PUSHDATA2, OP_PUSHDATA4 in *.
  destruct (Z.ltb_spec n 76); [|destruct (Z.leb_spec n 255); [|destruct (Z.leb_spec n 65535)]];
    rewrite <- app_assoc; cbn -[read_data le_split le_value firstn skipn length];
    unfold OP_PUSHDATA1, OP_PUSHDATA4.
  - destruct (Z.leb_spec n 78); [|lia]. destruct (Z.ltb_spec n 76); [|lia].
    apply read_data_exact.
  - apply read_data_exact.
  - rewrite length_app, length_le_split. destruct (Nat.leb_spec (2 + length (b ++ rest)) 1); [lia|].
    destruct (skipn_firstn_app_exact (le_split 2 n) (b ++ rest)) as [Hf Hs].
    rewrite length_le_split in Hf, Hs. rewrite Hf, Hs.
    rewrite le_value_le_split, Z.mod_small by (cbn; lia). apply read_data_exact.
  - rewrite length_app, length_le_split. destruct (Nat.leb_spec (4 + length (b ++ rest)) 3); [lia|].
    destruct (skipn_firstn_app_exact (le_split 4 n) (b ++ rest)) as [Hf Hs].
    rewrite length_le_split in Hf, Hs. rewrite Hf, Hs.
    rewrite le_value_le_split, Z.mod_small by (cbn; lia). apply read_data_exact.
Qed.

(** ** Round trip of number pushes

    [CScriptNum_serialize] writes the magnitude in the fewest bytes and
    the sign in the top bit of the last one; [CScriptNum_set_vch] reads
    it back.  The lemmas below split the magnitude into its bytes and
    clear the sign bit. *)

Lemma le_value_app (a b : list Z) :
  le_value (a ++ b) = le_value a + 256 ^ Z.of_nat (length a) * le_value b.
Proof.
  induction a as [|x a IH]; cbn [app le_value length]; [lia|].
  rewrite IH, Nat2Z.inj_succ, Z.pow_succ_r by lia. ring.
Qed.

Lemma clear_top_bit (m k : Z) :
  0 <= k -> 0 <= m < 2 ^ k -> Z.land (m + 2 ^ k) (Z.lnot (2 ^ k)) = m.
Proof.
  intros Hk Hm. apply Z.bits_inj'. intros i Hi.
  rewrite Z.land_spec, Z.lnot_spec, Z.pow2_bits_eqb by lia.
  destruct (Z.ltb_spec i k).
  - rewrite <- (Z.mod_pow2_bits_low (m + 2 ^ k) k i) by lia.
    replace ((m + 2 ^ k) mod 2 ^ k) with m.
    + replace (k =? i) with false by (symmetry; apply Z.eqb_neq; lia).
      apply andb_true_r.
    + rewrite <- (Z.mod_small m (2 ^ k)) at 1 by lia.
      rewrite <- Z.add_mod_idemp_r, Z.mod_same, Z.add_0_r by lia. reflexivity.
  - replace (Z.testbit m i) with false.
    2: { destruct (Z.eq_dec m 0) as [->|]; [now rewrite Z.bits_0|].
         symmetry. apply Z.bits_above_log2; [lia|].
         assert (Z.log2 m < k) by (apply Z.log2_lt_pow2; lia). lia. }
    destruct (Z.eqb_spec k i); [apply andb_false_r|].
    rewrite <- (Z.sub_add k i), <- Z.div_pow2_bits by lia.
    replace ((m + 2 ^ k) / 2 ^ k) with 1.
    + destruct (i - k) eqn:E; simpl; try reflexivity; lia.
    + symmetry. replace (m + 2 ^ k) with (m + 1 * 2 ^ k) by ring.
      rewrite Z.div_add by lia. rewrite Z.div_small by lia. reflexivity.
Qed.

Lemma magnitude_bytes_zero f : magnitude_bytes f 0 = [].
Proof. destruct f; reflexivity. Qed.

Lemma pow256 (a : Z) : 0 <= a -> 256 ^ a = 2 ^ (8 * a).
Proof. intros Ha. rewrite Z.pow_mul_r by lia. reflexivity. Qed.

(** The bytes of [magnitude_bytes] end with a nonzero byte, below which
    the value of the others is the remainder. *)
Lemma magnitude_bytes_split (f : nat) (m : Z) :
  0 < m < 2 ^ (8 * Z.of_nat f) ->
  exists bs last, magnitude_bytes f m = bs ++ [last] /\ 1 <= last < 256 /\
    0 <= le_value bs < 256 ^ Z.of_nat (length bs) /\
    m = le_value bs + 256 ^ Z.of_nat (length bs) * last.
Proof.
  revert m. induction f as [|f IH]; intros m Hm; [cbn in Hm; lia|].
  cbn [magnitude_bytes]. destruct (Z.eqb_spec m 0) as [|_]; [lia|].
  change 255 with (Z.ones 8). rewrite Z.land_ones, Z.shiftr_div_pow2 by lia.
  change (2 ^ 8) with 256.
  pose proof (Z.mod_pos_bound m 256 ltac:(lia)) as Hr.
  pose proof (Z.div_mod m 256 ltac:(lia)) as Hdm.
  destruct (Z.eq_dec (m / 256) 0) as [Hq|Hq].
  - rewrite Hq, magnitude_bytes_zero. exists [], (m mod 256).
    split; [reflexivity|]. change (256 ^ Z.of_nat (length [])) with 1. cbn [le_value]. lia.
  - destruct (IH (m / 256)) as (bs & last & Heq & Hl & Hbs & Hv).
    + split; [apply Z.div_str_pos; lia|].
      apply Z.div_lt_upper_bound; [lia|].
      rewrite Nat2Z.inj_succ, Z.mul_succ_r, Z.pow_add_r in Hm by lia. lia.
    + rewrite Heq. exists (m mod 256 :: bs), last.
      cbn [app length le_value]. rewrite Nat2Z.inj_succ, Z.pow_succ_r by lia.
      split; [reflexivity|]. split; [exact Hl|]. split; [idtac|].
      { nia. }
      rewrite Hdm at 1. rewrite Hv. ring.
Qed.

Lemma testbit_7_byte (x : Z) : 0 <= x < 256 -> Z.testbit x 7 = (128 <=? x).
Proof.
  intros Hx.
  replace (Z.testbit x 7) with (Z.odd (x / 2 ^ 7))
    by (rewrite <- Z.bit0_odd, Z.div_pow2_bits by lia; reflexivity).
  change (2 ^ 7) with 128.
  destruct (Z.leb_spec 128 x).
  - replace (x / 128) with 1 by (apply Z.div_unique with (x - 128); lia). reflexivity.
  - rewrite Z.div_small by lia. reflexivity.
Qed.

Lemma lor_128_small (x : Z) : 0 <= x < 128 -> Z.lor x 128 = x + 128.
Proof.
  intros Hx. rewrite <- Z.lxor_lor.
  - rewrite <- Z.add_nocarry_lxor; [reflexivity|].
    apply Z.bits_inj'. intros i Hi. rewrite Z.land_spec, Z.bits_0.
    change 128 with (2 ^ 7). rewrite Z.pow2_bits_eqb by lia.
    destruct (Z.eqb_spec 7 i); [subst; rewrite testbit_7_byte by lia;
      destruct (Z.leb_spec 128 x); [lia|reflexivity]|apply andb_false_r].
  - apply Z.bits_inj'. intros i Hi. rewrite Z.land_spec, Z.bits_0.
    change 128 with (2 ^ 7). rewrite Z.pow2_bits_eqb by lia.
    destruct (Z.eqb_spec 7 i); [subst; rewrite testbit_7_byte by lia;
      destruct (Z.leb_spec 128 x); [lia|reflexivity]|apply andb_false_r].
Qed.

Lemma set_vch_nonnil (vch : list Z) :
  vch <> [] ->
  CScriptNum_set_vch vch =
    if Z.testbit (List.last vch 0) 7
    then - (Z.land (le_value vch) (Z.lnot (Z.shiftl 128 (8 * (Z.of_nat (length vch) - 1)))))
    else le_value vch.
Proof. destruct vch; [congruence|reflexivity]. Qed.

Lemma last_snoc (l : list Z) (x d : Z) : List.last (l ++ [x]) d = x.
Proof. induction l as [|a [|b l] IH]; [reflexivity|reflexivity|exact IH]. Qed.

Lemma shiftl_128 (k : Z) : 0 <= k -> Z.shiftl 128 k = 2 ^ (k + 7).
Proof. intros Hk. rewrite Z.shiftl_mul_pow2, Z.pow_add_r by lia. ring. Qed.

Lemma set_vch_pos (bs : list Z) (top : Z) :
  0 <= top < 128 -> CScriptNum_set_vch (bs ++ [top]) = le_value (bs ++ [top]).
Proof.
  intros Ht. rewrite set_vch_nonnil by (destruct bs; discriminate).
  rewrite last_snoc, testbit_7_byte by lia. destruct (Z.leb_spec 128 top); [lia|reflexivity].
Qed.

Lemma set_vch_neg (bs : list Z) (top m : Z) :
  128 <= top < 256 ->
  le_value (bs ++ [top]) = m + 2 ^ (8 * Z.of_nat (length bs) + 7) ->
  0 <= m < 2 ^ (8 * Z.of_nat (length bs) + 7) ->
  CScriptNum_set_vch (bs ++ [top]) = - m.
Proof.
  intros Ht Hv Hm. rewrite set_vch_nonnil by (destruct bs; discriminate).
  rewrite last_snoc, testbit_7_byte by lia. destruct (Z.leb_spec 128 top); [|lia].
  rewrite Hv, length_app. cbn [length]. rewrite shiftl_128 by lia.
  replace (8 * (Z.of_nat (length bs + 1) - 1) + 7) with (8 * Z.of_nat (length bs) + 7) by lia.
  rewrite clear_top_bit by lia. reflexivity.
Qed.

(** [CScriptNum(serialize(n)) = n] for every value whose magnitude fits
    the eight bytes of [magnitude_bytes]: the encoding round trip. *)
Theorem CScriptNum_set_vch_serialize (n : Z) :
  - 2 ^ 64 < n < 2 ^ 64 -> CScriptNum_set_vch (CScriptNum_serialize n) = n.
Proof.
  intros Hn. unfold CScriptNum_serialize.
  destruct (Z.eqb_spec n 0) as [->|Hn0]; [reflexivity|].
  destruct (magnitude_bytes_split 8 (Z.abs n)) as (bs & last & Heq & Hl & Hbs & Hv);
    [change (8 * Z.of_nat 8) with 64; lia|].
  rewrite Heq, last_snoc, testbit_7_byte by lia.
  assert (HP : 256 ^ Z.of_nat (length bs) = 2 ^ (8 * Z.of_nat (length bs)))
    by (apply pow256; lia).
  assert (HP7 : 2 ^ (8 * Z.of_nat (length bs) + 7) = 2 ^ (8 * Z.of_nat (length bs)) * 128)
    by (rewrite Z.pow_add_r by lia; reflexivity).
  destruct (Z.leb_spec 128 last), (Z.ltb_spec n 0).
  - rewrite <- app_assoc. cbn [app].
    change [last; 128] with ([last] ++ [128]). rewrite app_assoc.
    rewrite (set_vch_neg (bs ++ [last]) 128 (Z.abs n)); [lia|lia| |].
    + rewrite !le_value_app, length_app. cbn [length le_value].
      replace (8 * Z.of_nat (length bs + 1) + 7) with (8 * Z.of_nat (length bs) + 15) by lia.
      replace (Z.of_nat (length bs + 1)) with (Z.of_nat (length bs) + 1) by lia.
      rewrite !Z.pow_add_r by lia. rewrite HP. lia.
    + rewrite length_app. cbn [length].
      replace (8 * Z.of_nat (length bs + 1) + 7) with (8 * Z.of_nat (length bs) + 15) by lia.
      rewrite Z.pow_add_r by lia. rewrite HP in Hbs. nia.
  - rewrite (set_vch_pos (bs ++ [last]) 0), !le_value_app by lia. cbn [le_value length]. lia.
  - rewrite removelast_app, app_nil_r by discriminate. cbn [removelast].
    rewrite lor_128_small by lia.
    rewrite (set_vch_neg bs (last + 128) (Z.abs n)); [lia|lia| |].
    + rewrite le_value_app. cbn [le_value]. rewrite HP7, HP. lia.
    + rewrite HP7. rewrite HP in Hbs. nia.
  - rewrite set_vch_pos by lia. rewrite le_value_app. cbn [le_value]. lia.
Qed.

(** [CScript::DecodeOP_N] for the small-number opcodes, and the
    [CScriptNum] of the data otherwise: the number a push carries. *)
Definition decode_int (opcode : Z) (data : list Z) : Z :=
  if (opcode =? OP_1NEGATE) || ((OP_1 <=? opcode) && (opcode <=? OP_1 + 15))
  then opcode - (OP_1 - 1)
  else CScriptNum_set_vch data.

Lemma push_data_app (s b : list Z) : push_data s b = s ++ push_data [] b.
Proof. reflexivity. Qed.

Lemma push_int64_app (s : list Z) (n : Z) : push_int64 s n = s ++ push_int64 [] n.
Proof. unfold push_int64. destruct (_ || _); reflexivity. Qed.

Lemma length_magnitude_bytes f m : (length (magnitude_bytes f m) <= f)%nat.
Proof.
  revert m. induction f as [|f IH]; intros m.
  - reflexivity.
  - cbn [magnitude_bytes]. destruct (m =? 0); cbn [length]; [lia|].
    specialize (IH (Z.shiftr m 8)). lia.
Qed.

Lemma length_removelast {A} (l : list A) : (length (removelast l) <= length l)%nat.
Proof. induction l as [|a [|b l] IH]; cbn in *; lia. Qed.

Lemma length_CScriptNum_serialize n : (length (CScriptNum_serialize n) <= 9)%nat.
Proof.
  pose proof (length_magnitude_bytes 8 (Z.abs n)) as H.
  pose proof (length_removelast (magnitude_bytes 8 (Z.abs n))).
  unfold CScriptNum_serialize. cbv zeta. destruct (n =? 0); [cbn; lia|].
  destruct (Z.testbit _ 7); [rewrite length_app; cbn [length]; lia|].
  destruct (n <? 0); [|lia]. rewrite length_app. cbn [length]. lia.
Qed.

(** A number pushed by [push_scriptnum] is read back by [GetOp] as data
    whose [CScriptNum] is the number. *)
Lemma GetOp_push_scriptnum (n : Z) (rest : list Z) :
  - 2 ^ 64 < n < 2 ^ 64 ->
  exists op, GetOp (push_scriptnum [] n ++ rest) = Some (op, CScriptNum_serialize n, rest) /\
    op < OP_PUSHDATA1 /\ decode_int op (CScriptNum_serialize n) = n.
Proof.
  intros Hn. pose proof (length_CScriptNum_serialize n) as Hl.
  exists (push_opcode_of (Z.of_nat (length (CScriptNum_serialize n)))).
  unfold push_scriptnum. rewrite GetOp_push_data by lia.
  assert (Hop : push_opcode_of (Z.of_nat (length (CScriptNum_serialize n))) =
                Z.of_nat (length (CScriptNum_serialize n)))
    by (unfold push_opcode_of, OP_PUSHDATA1; destruct (Z.ltb_spec (Z.of_nat (length (CScriptNum_serialize n))) 76); lia).
  rewrite Hop. split; [reflexivity|]. split; [unfold OP_PUSHDATA1; lia|].
  unfold decode_int, OP_1NEGATE, OP_1.
  destruct (Z.eqb_spec (Z.of_nat (length (CScriptNum_serialize n))) 79); [lia|].
  destruct (Z.leb_spec 81 (Z.of_nat (length (CScriptNum_serialize n)))); [lia|].
  apply CScriptNum_set_vch_serialize, Hn.
Qed.

(** [push_int64]: a small number comes back from its opcode, any other
    [int64_t] from its data. *)
Lemma GetOp_push_int64 (n : Z) (rest : list Z) :
  - 2 ^ 63 <= n < 2 ^ 63 ->
  exists op d, GetOp (push_int64 [] n ++ rest) = Some (op, d, rest) /\ decode_int op d = n.
Proof.
  intros Hn. unfold push_int64.
  destruct (Z.eqb_spec n (-1)) as [->|H1]; [exists 79, []; split; reflexivity|].
  destruct (Z.leb_spec 1 n), (Z.leb_spec n 16); cbn [orb andb];
    try (destruct (GetOp_push_scriptnum n rest) as (op & Hg & _ & Hd); [lia|];
         exists op, (CScriptNum_serialize n); split; [exact Hg|exact Hd]).
  exists (n + (OP_1 - 1)), []. unfold OP_1, OP_PUSHDATA4, decode_int, OP_1NEGATE, OP_1. split.
  - cbn [app GetOp]. unfold OP_PUSHDATA4.
    destruct (Z.leb_spec (n + (81 - 1)) 78); [lia|]. reflexivity.
  - destruct (Z.eqb_spec (n + (81 - 1)) 79); [lia|].
    destruct (Z.leb_spec 81 (n + (81 - 1))), (Z.leb_spec (n + (81 - 1)) (81 + 15)); cbn; lia.
Qed.

Lemma GetOps_cons (f : nat) (s : script) (op : Z) (d r : list Z) :
  GetOp s = Some (op, d, r) ->
  GetOps (S f) s = option_map (cons (op, d)) (GetOps f r).
Proof.
  intros Hg. destruct s as [|x s]; [discriminate|].
  cbn [GetOps]. rewrite Hg. destruct (GetOps f r); reflexivity.
Qed.
