(* ===== verification/Block.v ===== *)
(** * Transactions, blocks, hashing and the merkle root

    The genesis constructor fills a [CMutableTransaction] and a [CBlock]
    ([primitives/transaction.h], [primitives/block.h], outside [src/]) and
    calls [CBlock::BuildMerkleTree()] and [CBlockHeader::GetHash()].  The
    records below carry the fields with the default values of their C++
    constructors.  The hash functions (SHA-256d of a transaction, the block
    header hash, SHA-256d of two concatenated hashes) are not part of the
    repository: they are the interface [Hashing], a type class whose
    instances promise 256-bit results; everything in the development that
    hashes is proved for every instance.

    [BuildMerkleTree] is modelled as the C++ loop runs, on the flat vector
    [vMerkleTree] with the level start [j] and the level size [nSize]
    ([Equations] with well-founded recursion on the loop measures), and is
    proved equal to the reference definition [merkle_root_ref], which pairs
    hashes level by level.  The 80-byte header encoding of the spec's
    layout ([ser_header]) and its decoder ([deser_header]) are proved
    inverse on headers whose fields fit their C++ types ([header_ok]). *)

From Stdlib Require Import ZArith String List Lia.
From Equations Require Import Equations.
From S2P Require Import Prelude Hex Script.
Import ListNotations.
Open Scope Z_scope.

(** ** Transactions and blocks *)

Record COutPoint := { prevout_hash : Z; prevout_n : Z }.

Record CTxIn := { prevout : COutPoint; scriptSig : script; nSequence : Z }.

Record CTxOut := { nValue : Z; scriptPubKey : script }.

Record CTransaction := {
  tx_nVersion : Z; vin : list CTxIn; vout : list CTxOut; nLockTime : Z }.

Record CBlockHeader := {
  nVersion : Z; hashPrevBlock : Z; hashMerkleRoot : Z;
  nTime : Z; nBits : Z; nNonce : Z }.

Record CBlock := { header : CBlockHeader; vtx : list CTransaction }.

(** [CTxIn()]: a null prevout ([hash = 0], [n = (uint32_t)-1]), an empty
    script and [nSequence = std::numeric_limits<unsigned int>::max()]. *)
Definition CTxIn_default : CTxIn :=
  {| prevout := {| prevout_hash := 0; prevout_n := 2 ^ 32 - 1 |};
     scriptSig := []; nSequence := 2 ^ 32 - 1 |}.

(** [CTxOut()]: [SetNull()], [nValue = -1] and an empty script. *)
Definition CTxOut_default : CTxOut := {| nValue := -1; scriptPubKey := [] |}.

(** [CMutableTransaction()]: [nVersion = CURRENT_VERSION = 1], [nLockTime = 0]. *)
Definition CMutableTransaction_default : CTransaction :=
  {| tx_nVersion := 1; vin := []; vout := []; nLockTime := 0 |}.

(** [CBlock()]: [SetNull()] on the header, no transactions. *)
Definition CBlock_default : CBlock :=
  {| header := {| nVersion := 2; hashPrevBlock := 0; hashMerkleRoot := 0;
                  nTime := 0; nBits := 0; nNonce := 0 |};
     vtx := [] |}.

(** ** The 80-byte header encoding

    [CBlockHeader]'s serialization writes [nVersion] ([int32_t]),
    [hashPrevBlock] and [hashMerkleRoot] (32 bytes each), [nTime],
    [nBits] and [nNonce] ([uint32_t]), all little-endian: the layout the
    spec gives for the genesis block ([primitives/block.h], outside
    [src/]). *)
Definition ser_header (h : CBlockHeader) : list Z :=
  le_split 4 (nVersion h) ++ le_split 32 (hashPrevBlock h) ++
  le_split 32 (hashMerkleRoot h) ++ le_split 4 (nTime h) ++
  le_split 4 (nBits h) ++ le_split 4 (nNonce h).

(** Read [n] little-endian bytes, or fail at the end of the stream. *)
Definition read_le (n : nat) (bs : list Z) : option (Z * list Z) :=
  if (length bs <? n)%nat then None else Some (le_value (firstn n bs), skipn n bs).

(** The [int32_t] whose two's complement bytes were read. *)
Definition int32_of (u : Z) : Z := if u <? 2 ^ 31 then u else u - 2 ^ 32.

Definition deser_header (bs : list Z) : option (CBlockHeader * list Z) :=
  match read_le 4 bs with None => None | Some (v, r1) =>
  match read_le 32 r1 with None => None | Some (prev, r2) =>
  match read_le 32 r2 with None => None | Some (root, r3) =>
  match read_le 4 r3 with None => None | Some (t, r4) =>
  match read_le 4 r4 with None => None | Some (bits, r5) =>
  match read_le 4 r5 with None => None | Some (nonce, r6) =>
    Some ({| nVersion := int32_of v; hashPrevBlock := prev; hashMerkleRoot := root;
             nTime := t; nBits := bits; nNonce := nonce |}, r6)
  end end end end end end.

(** The header fields within the widths of their C++ types. *)
Definition header_ok (h : CBlockHeader) : Prop :=
  - 2 ^ 31 <= nVersion h < 2 ^ 31 /\ uint256_ok (hashPrevBlock h) /\
  uint256_ok (hashMerkleRoot h) /\ 0 <= nTime h < 2 ^ 32 /\
  0 <= nBits h < 2 ^ 32 /\ 0 <= nNonce h < 2 ^ 32.

Lemma read_le_split (k : nat) (x : Z) (rest : list Z) :
  read_le k (le_split k x ++ rest) = Some (x mod 2 ^ (8 * Z.of_nat k), rest).
Proof.
  unfold read_le. rewrite length_app, length_le_split.
  destruct (Nat.ltb_spec (k + length rest) k); [lia|].
  destruct (skipn_firstn_app_exact (le_split k x) rest) as [Hf Hs].
  rewrite length_le_split in Hf, Hs. rewrite Hf, Hs, le_value_le_split. reflexivity.
Qed.

Lemma int32_of_mod (v : Z) : - 2 ^ 31 <= v < 2 ^ 31 -> int32_of (v mod 2 ^ 32) = v.
Proof.
  intros Hv. unfold int32_of. destruct (Z.leb_spec 0 v).
  - rewrite Z.mod_small by lia. destruct (Z.ltb_spec v (2 ^ 31)); lia.
  - replace (v mod 2 ^ 32) with (v + 2 ^ 32).
    + destruct (Z.ltb_spec (v + 2 ^ 32) (2 ^ 31)); lia.
    + apply Z.mod_unique with (-1); lia.
Qed.

Lemma length_ser_header (h : CBlockHeader) : length (ser_header h) = 80%nat.
Proof. unfold ser_header. rewrite !length_app, !length_le_split. reflexivity. Qed.

Lemma ser_header_fields (h : CBlockHeader) :
  firstn 4 (ser_header h) = le_split 4 (nVersion h) /\
  skipn 68 (ser_header h) = le_split 4 (nTime h) ++ le_split 4 (nBits h) ++ le_split 4 (nNonce h).
Proof.
  unfold ser_header. split.
  - rewrite firstn_app, length_le_split, Nat.sub_diag, firstn_0, app_nil_r.
    apply firstn_all2. rewrite length_le_split. lia.
  - rewrite !skipn_app, !length_le_split. cbn [Nat.sub].
    rewrite !skipn_all2 by (rewrite length_le_split; lia). reflexivity.
Qed.

(** Decoding an encoded header gives it back, and the rest of the stream. *)
Lemma deser_ser_header (h : CBlockHeader) (rest : list Z) :
  header_ok h -> deser_header (ser_header h ++ rest) = Some (h, rest).
Proof.
  intros (Hv & Hp & Hm & Ht & Hb & Hn). unfold uint256_ok, uint256_WIDTH in *.
  unfold deser_header, ser_header. rewrite <- !app_assoc.
  rewrite !read_le_split. cbn [Z.of_nat Pos.of_succ_nat Pos.succ].
  rewrite int32_of_mod by exact Hv.
  rewrite !(Z.mod_small (hashPrevBlock h)), !(Z.mod_small (hashMerkleRoot h)),
    !(Z.mod_small (nTime h)), !(Z.mod_small (nBits h)), !(Z.mod_small (nNonce h)) by lia.
  destruct h. reflexivity.
Qed.

(** ** The hash functions *)

Class Hashing := {
  tx_GetHash : CTransaction -> Z;
  header_GetHash : CBlockHeader -> Z;
  Hash2 : Z -> Z -> Z;
  tx_GetHash_range : forall t, uint256_ok (tx_GetHash t);
  header_GetHash_range : forall h, uint256_ok (header_GetHash h);
  Hash2_range : forall a b, uint256_ok (Hash2 a b)
}.

(** The level size shrinks: [(nSize + 1) / 2 < nSize] once [nSize > 1]. *)
Lemma half_lt (n : nat) : (1 < n)%nat -> ((n + 1) / 2 < n)%nat.
Proof. intros H. apply Nat.Div0.div_lt_upper_bound. lia. Qed.

Section Merkle.
Context `{Hashing}.

(** The inner loop [for (i = 0; i < nSize; i += 2)]: append the hash of
    the pair at [j+i] and [j+i2] with [i2 = min(i+1, nSize-1)]. *)
Equations? merkle_level (tree : list Z) (j nSize i : nat) : list Z
  by wf (nSize - i)%nat lt :=
  merkle_level tree j nSize i with lt_dec i nSize => {
    | left _ =>
        merkle_level
          (tree ++ [Hash2 (nth (j + i)%nat tree 0)
                          (nth (j + Nat.min (i + 1) (nSize - 1))%nat tree 0)])
          j nSize (i + 2)%nat;
    | right _ => tree }.
Proof. lia. Qed.

(** The outer loop [for (nSize = vtx.size(); nSize > 1; nSize = (nSize+1)/2)]
    with [j += nSize] after each level. *)
Equations? merkle_levels (tree : list Z) (j nSize : nat) : list Z
  by wf nSize lt :=
  merkle_levels tree j nSize with lt_dec 1 nSize => {
    | left _ => merkle_levels (merkle_level tree j nSize 0) (j + nSize)%nat ((nSize + 1) / 2)%nat;
    | right _ => tree }.
Proof. exact (half_lt nSize l). Qed.

(** [CBlock::BuildMerkleTree()]: the leaves are the transaction hashes;
    the root is the last element, or [0] for a block without
    transactions. *)
Definition BuildMerkleTree (vtx : list CTransaction) : Z :=
  let vMerkleTree := merkle_levels (map tx_GetHash vtx) 0 (length vtx) in
  match vMerkleTree with
  | [] => 0
  | _ => last vMerkleTree 0
  end.

(** ** Reference definition *)

(** One level up: hash adjacent pairs, the last hash paired with itself
    when the level has odd length. *)
Fixpoint pair_level (l : list Z) : list Z :=
  match l with
  | [] => []
  | [a] => [Hash2 a a]
  | a :: b :: r => Hash2 a b :: pair_level r
  end.

Lemma length_pair_level l : length (pair_level l) = ((length l + 1) / 2)%nat.
Proof.
  induction l as [l IH] using (induction_ltof1 _ (@length Z)); unfold ltof in IH.
  destruct l as [|a [|b r]]; [reflexivity|reflexivity|].
  cbn [pair_level length]. rewrite IH by (simpl; lia).
  replace (S (S (length r)) + 1)%nat with (1 * 2 + (length r + 1))%nat by lia.
  rewrite Nat.div_add_l by lia. lia.
Qed.

Equations? merkle_root_ref (l : list Z) : Z by wf (length l) lt :=
  merkle_root_ref [] := 0;
  merkle_root_ref [h] := h;
  merkle_root_ref (a :: b :: r) := merkle_root_ref (pair_level (a :: b :: r)).
Proof.
  cbn [pair_level length]. rewrite length_pair_level.
  pose proof (Nat.Div0.mul_div_le (length r + 1) 2). lia.
Qed.

(** ** The loop and the reference agree *)

Lemma merkle_level_lt tree j nSize i :
  (i < nSize)%nat ->
  merkle_level tree j nSize i =
    merkle_level (tree ++ [Hash2 (nth (j + i)%nat tree 0)
                                 (nth (j + Nat.min (i + 1) (nSize - 1))%nat tree 0)])
                 j nSize (i + 2)%nat.
Proof.
  intros Hi. rewrite merkle_level_equation_1.
  destruct (lt_dec i nSize); [reflexivity | contradiction].
Qed.

Lemma merkle_level_ge tree j nSize i :
  ~ (i < nSize)%nat -> merkle_level tree j nSize i = tree.
Proof.
  intros Hi. rewrite merkle_level_equation_1.
  destruct (lt_dec i nSize); [contradiction | reflexivity].
Qed.

Lemma merkle_levels_lt tree j nSize :
  (1 < nSize)%nat ->
  merkle_levels tree j nSize =
    merkle_levels (merkle_level tree j nSize 0) (j + nSize)%nat ((nSize + 1) / 2)%nat.
Proof.
  intros Hn. rewrite merkle_levels_equation_1.
  destruct (lt_dec 1 nSize); [reflexivity | contradiction].
Qed.

Lemma merkle_levels_ge tree j nSize :
  ~ (1 < nSize)%nat -> merkle_levels tree j nSize = tree.
Proof.
  intros Hn. rewrite merkle_levels_equation_1.
  destruct (lt_dec 1 nSize); [contradiction | reflexivity].
Qed.

(** The inner loop appends [pair_level] of the level it reads,
    [firstn nSize (skipn j tree)], from index [i] on. *)
Lemma merkle_level_spec tree acc j nSize i :
  (j + nSize <= length tree)%nat ->
  merkle_level (tree ++ acc) j nSize i =
    tree ++ acc ++ pair_level (skipn i (firstn nSize (skipn j tree))).
Proof.
  intros Hlen.
  set (level := firstn nSize (skipn j tree)).
  assert (Hl : length level = nSize)
    by (unfold level; rewrite length_firstn, length_skipn; lia).
  assert (Hnth : forall acc k, (k < nSize)%nat -> nth (j + k) (tree ++ acc) 0 = nth k level 0).
  { intros acc' k Hk. rewrite app_nth1 by lia. unfold level.
    rewrite nth_firstn, nth_skipn. destruct (Nat.ltb_spec k nSize); [reflexivity | lia]. }
  remember (nSize - i)%nat as m eqn:Hm. revert acc i Hm.
  induction m as [m IH] using lt_wf_ind; intros acc i Hm.
  destruct (lt_dec i nSize) as [Hi|Hi].
  - rewrite merkle_level_lt by exact Hi.
    rewrite !Hnth by lia. rewrite <- app_assoc.
    rewrite (IH (nSize - (i + 2))%nat) by lia.
    rewrite (skipn_nth_cons level i 0) by lia.
    destruct (lt_dec (i + 1) nSize) as [Hi1|Hi1].
    + rewrite (skipn_nth_cons level (S i) 0) by lia.
      replace (Nat.min (i + 1) (nSize - 1)) with (i + 1)%nat by lia.
      replace (S (S i)) with (i + 2)%nat by lia.
      replace (S i) with (i + 1)%nat by lia.
      simpl. rewrite <- app_assoc. reflexivity.
    + replace (Nat.min (i + 1) (nSize - 1)) with i by lia.
      rewrite !skipn_all2 by lia. simpl. rewrite <- app_assoc. reflexivity.
  - rewrite merkle_level_ge by exact Hi.
    rewrite skipn_all2 by lia. simpl. now rewrite app_nil_r.
Qed.

Lemma merkle_root_ref_one h : merkle_root_ref [h] = h.
Proof. now simp merkle_root_ref. Qed.

Lemma merkle_root_ref_step a b r :
  merkle_root_ref (a :: b :: r) = merkle_root_ref (pair_level (a :: b :: r)).
Proof. simp merkle_root_ref. reflexivity. Qed.

(** The outer loop on a tree that ends with [level] at index [j]: the
    tree only grows, and its last element is the reference root. *)
Lemma merkle_levels_spec (level prefix : list Z) :
  (1 <= length level)%nat ->
  exists rest,
    merkle_levels (prefix ++ level) (length prefix) (length level) = prefix ++ level ++ rest /\
    last (level ++ rest) 0 = merkle_root_ref level.
Proof.
  revert prefix.
  induction level as [level IH] using (induction_ltof1 _ (@length Z)); unfold ltof in IH.
  intros prefix Hne.
  destruct level as [|a [|b r]]; simpl in Hne; [lia| |].
  - exists []. rewrite merkle_levels_ge by (simpl; lia). split; [reflexivity|].
    simp merkle_root_ref. reflexivity.
  - remember (a :: b :: r) as level eqn:Hlevel.
    assert (H2 : (1 < length level)%nat) by (subst; simpl; lia).
    rewrite merkle_levels_lt by exact H2.
    rewrite <- (app_nil_r (prefix ++ level)).
    rewrite merkle_level_spec by (rewrite length_app; lia).
    rewrite skipn_app, Nat.sub_diag, (skipn_all2 prefix) by lia.
    rewrite !skipn_0, app_nil_l, firstn_all, app_nil_l.
    assert (Hpl : length (pair_level level) = ((length level + 1) / 2)%nat)
      by apply length_pair_level.
    assert (Hlt : (length (pair_level level) < length level)%nat)
      by (rewrite Hpl; apply half_lt; exact H2).
    assert (Hne' : pair_level level <> []) by (subst; simpl; discriminate).
    destruct (IH (pair_level level) Hlt (prefix ++ level)) as [rest [Hrun Hlast]].
    { destruct (pair_level level); [contradiction | simpl; lia]. }
    rewrite length_app in Hrun. rewrite <- Hpl, Hrun.
    exists (pair_level level ++ rest). split; [now rewrite <- !app_assoc|].
    rewrite last_app_ne by (destruct (pair_level level); [contradiction | discriminate]).
    rewrite Hlast. subst level. now rewrite merkle_root_ref_step.
Qed.
End Merkle.

Lemma pair_level_dup_last `{Hashing} (hs : list Z) (h : Z) :
  Nat.Even (length hs) -> pair_level (hs ++ [h]) = pair_level (hs ++ [h; h]).
Proof.
  induction hs as [hs IH] using (induction_ltof1 _ (@length Z)); unfold ltof in IH.
  intros [k Hk]. destruct hs as [|a [|b r]]; simpl in Hk; try lia; [reflexivity|].
  simpl. f_equal. apply IH; [simpl; lia | exists (k - 1)%nat; lia].
Qed.

(** An instance of the interface, to run the lemmas on concrete blocks:
    the hashes are reductions modulo [2^256] of simple mixes of the
    fields. *)
Lemma mod_uint256_ok (x : Z) : uint256_ok (x mod 2 ^ 256).
Proof. unfold uint256_ok, uint256_WIDTH. apply Z.mod_pos_bound. lia. Qed.

#[export] Instance mod_hashing : Hashing := {|
  tx_GetHash t := (tx_nVersion t * 31 + nLockTime t) mod 2 ^ 256;
  header_GetHash h := (nNonce h * 17 + nTime h) mod 2 ^ 256;
  Hash2 a b := (a * 3 + b) mod 2 ^ 256;
  tx_GetHash_range _ := mod_uint256_ok _;
  header_GetHash_range _ := mod_uint256_ok _;
  Hash2_range _ _ := mod_uint256_ok _ |}.

(** ** Properties of [BuildMerkleTree] *)

Lemma BuildMerkleTree_eq_ref `{Hashing} (vtx : list CTransaction) :
  BuildMerkleTree vtx = merkle_root_ref (map tx_GetHash vtx).
Proof.
  unfold BuildMerkleTree.
  destruct vtx as [|tx vtx]; [reflexivity|].
  destruct (merkle_levels_spec (map tx_GetHash (tx :: vtx)) [] ltac:(simpl; lia))
    as [rest [Hrun Hlast]].
  rewrite app_nil_l, length_map in Hrun. change (length (@nil Z)) with 0%nat in Hrun.
  rewrite Hrun. exact Hlast.
Qed.

Lemma pair_level_range `{Hashing} (l : list Z) : Forall uint256_ok (pair_level l).
Proof.
  induction l as [l IH] using (induction_ltof1 _ (@length Z)); unfold ltof in IH.
  destruct l as [|a [|b r]]; cbn [pair_level]; constructor; try apply Hash2_range.
  - constructor.
  - apply IH. simpl. lia.
Qed.

Lemma merkle_root_ref_range `{Hashing} (l : list Z) :
  Forall uint256_ok l -> uint256_ok (merkle_root_ref l).
Proof.
  induction l as [l IH] using (induction_ltof1 _ (@length Z)); unfold ltof in IH.
  intros Hl. destruct l as [|a [|b r]].
  - simp merkle_root_ref. unfold uint256_ok, uint256_WIDTH. lia.
  - rewrite merkle_root_ref_one. now inversion Hl.
  - rewrite merkle_root_ref_step. apply IH; [|apply pair_level_range].
    rewrite length_pair_level. cbn [length]. apply half_lt. lia.
Qed.

(** The root [BuildMerkleTree] returns is a 256-bit value. *)
Lemma BuildMerkleTree_range `{Hashing} (vtx : list CTransaction) :
  uint256_ok (BuildMerkleTree vtx).
Proof.
  rewrite BuildMerkleTree_eq_ref. apply merkle_root_ref_range.
  apply Forall_map, Forall_forall. intros t _. apply tx_GetHash_range.
Qed.

(** Duplicating the last transaction of a block with an
    odd number (three or more) of transactions leaves the merkle root
    unchanged: two different transaction lists share a root. *)
Theorem BuildMerkleTree_dup_last `{Hashing} (txs : list CTransaction) (tx : CTransaction) :
  txs <> [] -> Nat.Even (length txs) ->
  BuildMerkleTree (txs ++ [tx]) = BuildMerkleTree (txs ++ [tx; tx]).
Proof.
  intros Hne Hev. rewrite !BuildMerkleTree_eq_ref, !map_app.
  destruct txs as [|t1 [|t2 r]]; [contradiction| destruct Hev as [k Hk]; simpl in Hk; lia|].
  cbn [map app]. rewrite !merkle_root_ref_step. f_equal.
  apply (pair_level_dup_last (tx_GetHash t1 :: tx_GetHash t2 :: map tx_GetHash r)).
  simpl in Hev |- *. now rewrite length_map.
Qed.

Lemma BuildMerkleTree_dup_last_witness :
  let t k := {| tx_nVersion := k; vin := []; vout := []; nLockTime := 0 |} in
  BuildMerkleTree ([t 1; t 2] ++ [t 3]) = BuildMerkleTree ([t 1; t 2] ++ [t 3; t 3]).
Proof.
  intros t. apply BuildMerkleTree_dup_last; [discriminate | exists 1%nat; reflexivity].
Defined.
