(* ===== verification/ChainParams.v ===== *)
(** * The four network profiles ([chainparams.cpp] lines 93-316)

    [CChainParams] is a record with the fields the constructors assign.
    Each C++ constructor is modelled as a function from the object under
    construction ([this], as left by the base-class constructor) to the
    object it leaves, in the monad [M World] of [Prelude] and [Seeds]:
    [assert] is a [Fatal] outcome and [convertSeed6] reads the clock and
    the random generator.  A derived constructor runs its base constructor
    first ([CTestNetParams_ctor] runs [CMainParams_ctor], [CRegTestParams_ctor]
    runs [CTestNetParams_ctor], [CUnitTestParams_ctor] runs
    [CMainParams_ctor]); a field its body does not assign keeps the value
    the base constructor left, written [this.(field)].  The object
    before any constructor body runs is [CChainParams_uninit]: the class
    members with a default constructor ([genesis], the vectors) are empty,
    the scalars are indeterminate in C++ and are all overwritten by
    [CMainParams()], so their value there is immaterial.

    The virtual [Checkpoints()] dispatches on the dynamic class of the
    object ([ParamsClass]).  The static objects of the translation unit are
    constructed in declaration order by [init_statics].

    The hash functions are those of a [Hashing] instance, and the generated
    seed arrays [pnSeed6_main], [pnSeed6_test] of [chainparamsseeds.h] are
    variables of [Section Profiles]. *)

From Stdlib Require Import ZArith String Ascii List Bool Lia.
From S2P Require Import Prelude Hex Checkpoints Seeds Script Block.
Import ListNotations.
Open Scope Z_scope.
Open Scope cp_scope.

(** ** Network kinds and the data of a profile *)

(** [CBaseChainParams::Network] ([chainparamsbase.h]). *)
Inductive Network := MAIN | TESTNET | REGTEST | UNITTEST | MAX_NETWORK_TYPES.

Record CDNSSeedData := { seed_name : string; seed_host : string }.

(** [base58Prefixes[MAX_BASE58_TYPES]], one vector per [Base58Type]. *)
Record Base58Prefixes := {
  PUBKEY_ADDRESS : list Z; SCRIPT_ADDRESS : list Z; SECRET_KEY : list Z;
  EXT_PUBLIC_KEY : list Z; EXT_SECRET_KEY : list Z }.

Record CChainParams := {
  networkID : Network;
  strNetworkID : string;
  pchMessageStart : list Z;
  vAlertPubKey : list Z;
  nDefaultPort : Z;
  bnProofOfWorkLimit : Z;
  nSubsidyHalvingInterval : Z;
  nEnforceBlockUpgradeMajority : Z;
  nRejectBlockOutdatedMajority : Z;
  nToCheckBlockUpgradeMajority : Z;
  nMinerThreads : Z;
  nTargetTimespan : Z;
  nTargetSpacing : Z;
  genesis : CBlock;
  hashGenesisBlock : Z;
  vSeeds : list CDNSSeedData;
  base58Prefixes : Base58Prefixes;
  vFixedSeeds : list CAddress;
  fRequireRPCPassword : bool;
  fMiningRequiresPeers : bool;
  fAllowMinDifficultyBlocks : bool;
  fDefaultConsistencyChecks : bool;
  fRequireStandard : bool;
  fMineBlocksOnDemand : bool;
  fSkipProofOfWorkCheck : bool;
  fTestnetToBeDeprecatedFieldRPC : bool;
  nPoolMaxTransactions : Z;
  strSporkKey : string;
  strMasternodePaymentsPubKey : string;
  strDarksendPoolDummyAddress : string;
  nStartMasternodePayments : Z
}.

Definition empty_prefixes : Base58Prefixes :=
  {| PUBKEY_ADDRESS := []; SCRIPT_ADDRESS := []; SECRET_KEY := [];
     EXT_PUBLIC_KEY := []; EXT_SECRET_KEY := [] |}.

Definition CChainParams_uninit : CChainParams := {|
  networkID := MAIN; strNetworkID := ""; pchMessageStart := [0; 0; 0; 0];
  vAlertPubKey := []; nDefaultPort := 0; bnProofOfWorkLimit := 0;
  nSubsidyHalvingInterval := 0; nEnforceBlockUpgradeMajority := 0;
  nRejectBlockOutdatedMajority := 0; nToCheckBlockUpgradeMajority := 0;
  nMinerThreads := 0; nTargetTimespan := 0; nTargetSpacing := 0;
  genesis := CBlock_default; hashGenesisBlock := 0; vSeeds := [];
  base58Prefixes := empty_prefixes; vFixedSeeds := [];
  fRequireRPCPassword := false; fMiningRequiresPeers := false;
  fAllowMinDifficultyBlocks := false; fDefaultConsistencyChecks := false;
  fRequireStandard := false; fMineBlocksOnDemand := false;
  fSkipProofOfWorkCheck := false; fTestnetToBeDeprecatedFieldRPC := false;
  nPoolMaxTransactions := 0; strSporkKey := ""; strMasternodePaymentsPubKey := "";
  strDarksendPoolDummyAddress := ""; nStartMasternodePayments := 0 |}.

(** ** The genesis block of [CMainParams()] (lines 119-136) *)

Definition COIN : Z := 100000000.

Definition bytes_of_string (s : string) : list Z :=
  map (fun c => Z.of_N (N_of_ascii c)) (list_ascii_of_string s).

Definition pszTimestamp : string := "Examination 08/04/2018 coin for study".

Definition genesis_key_hex : string :=
  "04dad0fe35a7c4eff69a85b35bf29a41771ec306a3feed898209ab4b6c551ff082b3f4485e9f3720287540601659cc2a84af51c51a9a84cf0f309382e9fd1bbabe".

Definition spork_key : string :=
  "04fb8eae43c01b0d10a0b1ac58c4f37019c92d51ff02596966c3423fbd1d2d394917dffe0b2b1727cedf43c48a5645ae39086c43e7e05865c8b62299472e4a5a25".

Definition hashGenesisBlock_declared : Z :=
  SetHex "0xf820cab6fa2bf7503f0302e7fe2b41c410117f865556de7273d76eaf399d9b48".

Definition hashMerkleRoot_declared : Z :=
  SetHex "0xf618e18ca2ab3601ad49a9824e26a0c52b6b006f7d5dde016ea58abd519599d9".

(** [CScript() << nBitsConst << CScriptNum(nExtra) << msg]: the
    expression that builds the coinbase signature script, its three
    operands as parameters. *)
Definition coinbase_scriptSig (nBitsConst nExtra : Z) (msg : list Z) : script :=
  push_data (push_scriptnum (push_int64 [] nBitsConst) nExtra) msg.

(** [txNew.vin[0].scriptSig = CScript() << 486604799 << CScriptNum(4)
    << vector<unsigned char>(pszTimestamp, pszTimestamp + strlen(pszTimestamp))]. *)
Definition genesis_scriptSig : script :=
  coinbase_scriptSig 486604799 4 (bytes_of_string pszTimestamp).

(** [CScript() << ParseHex("04dad0...") << OP_CHECKSIG]. *)
Definition genesis_scriptPubKey : result script :=
  push_opcode (push_data [] (ParseHex genesis_key_hex)) OP_CHECKSIG.

(** [CMutableTransaction txNew; txNew.vin.resize(1); txNew.vout.resize(1);]
    and the three assignments to [vin[0]] and [vout[0]]. *)
Definition genesis_tx (scriptPubKey : script) : CTransaction :=
  let txin := CTxIn_default in
  let txout := CTxOut_default in
  {| tx_nVersion := tx_nVersion CMutableTransaction_default;
     vin := [{| prevout := prevout txin; scriptSig := genesis_scriptSig;
                nSequence := nSequence txin |}];
     vout := [{| nValue := 120 * COIN; scriptPubKey := scriptPubKey |}];
     nLockTime := nLockTime CMutableTransaction_default |}.

Section Profiles.
Context `{HS : Hashing}.
Context (pnSeed6_main pnSeed6_test : list SeedSpec6).

(** [genesis.vtx.push_back(txNew); genesis.hashPrevBlock = 0;
    genesis.hashMerkleRoot = genesis.BuildMerkleTree(); nVersion = 1;
    nTime = 1523209806; nBits = 0x1e0ffff0; nNonce = 5717343;] *)
Definition build_genesis (g : CBlock) (txNew : CTransaction) : CBlock :=
  let vtx' := vtx g ++ [txNew] in
  {| header := {| nVersion := 1; hashPrevBlock := 0;
                  hashMerkleRoot := BuildMerkleTree vtx';
                  nTime := 1523209806; nBits := 0x1e0ffff0; nNonce := 5717343 |};
     vtx := vtx' |}.

(** The member assignments of [CMainParams()]. *)
Definition CMainParams_assign (this : CChainParams) (g : CBlock) (hashGenesis : Z) (fixed : list CAddress) : CChainParams :=
  {|
    networkID := MAIN; strNetworkID := "main";
    pchMessageStart := [0xc1; 0xf4; 0xa7; 0xd6];
    vAlertPubKey := ParseHex genesis_key_hex;
    nDefaultPort := 36003;
    bnProofOfWorkLimit := uint256_shr (uint256_not 0) 20;
    nSubsidyHalvingInterval := 94000000;
    nEnforceBlockUpgradeMajority := 750;
    nRejectBlockOutdatedMajority := 950;
    nToCheckBlockUpgradeMajority := 1000;
    nMinerThreads := 0;
    nTargetTimespan := 10 * 60;
    nTargetSpacing := 1 * 60;
    genesis := g; hashGenesisBlock := hashGenesis;
    vSeeds := vSeeds this ++
      [{| seed_name := "178.57.222.93"; seed_host := "178.57.222.93" |};
       {| seed_name := "185.22.232.214"; seed_host := "185.22.232.214" |};
       {| seed_name := "185.87.194.191"; seed_host := "185.87.194.191" |};
       {| seed_name := "185.87.194.192"; seed_host := "185.87.194.192" |}];
    base58Prefixes := {| PUBKEY_ADDRESS := [33]; SCRIPT_ADDRESS := [118];
                         SECRET_KEY := [117]; EXT_PUBLIC_KEY := [0x04; 0x88; 0xB2; 0x1E];
                         EXT_SECRET_KEY := [0x04; 0x88; 0xAD; 0xE4] |};
    vFixedSeeds := fixed;
    fRequireRPCPassword := true; fMiningRequiresPeers := true;
    fAllowMinDifficultyBlocks := false; fDefaultConsistencyChecks := false;
    fRequireStandard := true; fMineBlocksOnDemand := false;
    fSkipProofOfWorkCheck := false; fTestnetToBeDeprecatedFieldRPC := false;
    nPoolMaxTransactions := 3;
    strSporkKey := spork_key; strMasternodePaymentsPubKey := spork_key;
    strDarksendPoolDummyAddress := "Pq19GqFvajRrEdDHYRKGYjTsQfpV5jyipF";
    nStartMasternodePayments := 1403728576 |}.

(** The body of [CMainParams()]: the genesis block and its checks, the seeds,
    then the assignments. *)
Definition CMainParams_body (this : CChainParams) : M World CChainParams :=
  spk <- lift genesis_scriptPubKey ;;
  let g := build_genesis (genesis this) (genesis_tx spk) in
  let hashGenesis := header_GetHash (header g) in
  assert (hashGenesis =? hashGenesisBlock_declared)
    "hashGenesisBlock == uint256(0xf820cab6...)" ;;
  assert (hashMerkleRoot (header g) =? hashMerkleRoot_declared)
    "genesis.hashMerkleRoot == uint256(0xf618e18c...)" ;;
  fixed <- convertSeed6 (vFixedSeeds this) pnSeed6_main (length pnSeed6_main) ;;
  ret (CMainParams_assign this g hashGenesis fixed).

Definition CMainParams_ctor : M World CChainParams :=
  CMainParams_body CChainParams_uninit.

(** The member assignments of [CTestNetParams()]. *)
Definition CTestNetParams_assign (this : CChainParams) (g : CBlock) (hashGenesis : Z) (fixed : list CAddress) : CChainParams :=
  {|
    networkID := TESTNET; strNetworkID := "test";
    pchMessageStart := [0xd4; 0xc3; 0x18; 0x5e];
    vAlertPubKey := ParseHex genesis_key_hex;
    nDefaultPort := 36005;
    bnProofOfWorkLimit := bnProofOfWorkLimit this;
    nSubsidyHalvingInterval := nSubsidyHalvingInterval this;
    nEnforceBlockUpgradeMajority := 51;
    nRejectBlockOutdatedMajority := 75;
    nToCheckBlockUpgradeMajority := 100;
    nMinerThreads := 0;
    nTargetTimespan := 10 * 60;
    nTargetSpacing := 2 * 60;
    genesis := g; hashGenesisBlock := hashGenesis;
    vSeeds := [];
    base58Prefixes := {| PUBKEY_ADDRESS := [111]; SCRIPT_ADDRESS := [196];
                         SECRET_KEY := [239]; EXT_PUBLIC_KEY := [0x04; 0x35; 0x87; 0xCF];
                         EXT_SECRET_KEY := [0x04; 0x35; 0x83; 0x94] |};
    vFixedSeeds := fixed;
    fRequireRPCPassword := true; fMiningRequiresPeers := true;
    fAllowMinDifficultyBlocks := true; fDefaultConsistencyChecks := false;
    fRequireStandard := false; fMineBlocksOnDemand := false;
    fSkipProofOfWorkCheck := fSkipProofOfWorkCheck this;
    fTestnetToBeDeprecatedFieldRPC := true;
    nPoolMaxTransactions := 2;
    strSporkKey := spork_key; strMasternodePaymentsPubKey := spork_key;
    strDarksendPoolDummyAddress := "P1EZuxhhNMAUofTBEeLqGE1bJrpC2TWRNp";
    nStartMasternodePayments := 1532947832 |}.

(** The body of [CTestNetParams()]: the genesis block and its checks, the seeds,
    then the assignments. *)
Definition CTestNetParams_body (this : CChainParams) : M World CChainParams :=
  let g0 := genesis this in
  let g := {| header := {| nVersion := nVersion (header g0);
                           hashPrevBlock := hashPrevBlock (header g0);
                           hashMerkleRoot := hashMerkleRoot (header g0);
                           nTime := 1523209806; nBits := nBits (header g0);
                           nNonce := 5717343 |};
              vtx := vtx g0 |} in
  let hashGenesis := header_GetHash (header g) in
  assert (hashGenesis =? hashGenesisBlock_declared)
    "hashGenesisBlock == uint256(0xf820cab6...)" ;;
  (* vFixedSeeds.clear(); vSeeds.clear(); *)
  fixed <- convertSeed6 [] pnSeed6_test (length pnSeed6_test) ;;
  ret (CTestNetParams_assign this g hashGenesis fixed).

Definition CTestNetParams_ctor : M World CChainParams :=
  this <- CMainParams_ctor ;; CTestNetParams_body this.

(** The member assignments of [CRegTestParams()]. *)
Definition CRegTestParams_assign (this : CChainParams) (g : CBlock) (hashGenesis : Z) : CChainParams :=
  {|
    networkID := REGTEST; strNetworkID := "regtest";
    pchMessageStart := [0xad; 0xb7; 0x31; 0xdf];
    vAlertPubKey := vAlertPubKey this;
    nDefaultPort := 37106;
    bnProofOfWorkLimit := uint256_shr (uint256_not 0) 1;
    nSubsidyHalvingInterval := 150;
    nEnforceBlockUpgradeMajority := 750;
    nRejectBlockOutdatedMajority := 950;
    nToCheckBlockUpgradeMajority := 1000;
    nMinerThreads := 1;
    nTargetTimespan := 10 * 60;
    nTargetSpacing := 1 * 60;
    genesis := g; hashGenesisBlock := hashGenesis;
    vSeeds := [];
    base58Prefixes := base58Prefixes this;
    vFixedSeeds := [];
    fRequireRPCPassword := false; fMiningRequiresPeers := false;
    fAllowMinDifficultyBlocks := true; fDefaultConsistencyChecks := true;
    fRequireStandard := false; fMineBlocksOnDemand := true;
    fSkipProofOfWorkCheck := fSkipProofOfWorkCheck this;
    fTestnetToBeDeprecatedFieldRPC := false;
    nPoolMaxTransactions := nPoolMaxTransactions this;
    strSporkKey := strSporkKey this;
    strMasternodePaymentsPubKey := strMasternodePaymentsPubKey this;
    strDarksendPoolDummyAddress := strDarksendPoolDummyAddress this;
    nStartMasternodePayments := nStartMasternodePayments this |}.

(** The body of [CRegTestParams()]: the genesis block and its checks, the seeds,
    then the assignments. *)
Definition CRegTestParams_body (this : CChainParams) : M World CChainParams :=
  let g0 := genesis this in
  let g := {| header := {| nVersion := nVersion (header g0);
                           hashPrevBlock := hashPrevBlock (header g0);
                           hashMerkleRoot := hashMerkleRoot (header g0);
                           nTime := 1523209806; nBits := 0x1e0ffff0;
                           nNonce := 5717343 |};
              vtx := vtx g0 |} in
  let hashGenesis := header_GetHash (header g) in
  assert (hashGenesis =? hashGenesisBlock_declared)
    "hashGenesisBlock == uint256(0xf820cab6...)" ;;
  ret (CRegTestParams_assign this g hashGenesis).

Definition CRegTestParams_ctor : M World CChainParams :=
  this <- CTestNetParams_ctor ;; CRegTestParams_body this.

(** The body of [CUnitTestParams()]: no assertion, no seeds. *)
Definition CUnitTestParams_body (this : CChainParams) : CChainParams := {|
  networkID := UNITTEST; strNetworkID := "unittest";
  pchMessageStart := pchMessageStart this;
  vAlertPubKey := vAlertPubKey this;
  nDefaultPort := 18445;
  bnProofOfWorkLimit := bnProofOfWorkLimit this;
  nSubsidyHalvingInterval := nSubsidyHalvingInterval this;
  nEnforceBlockUpgradeMajority := nEnforceBlockUpgradeMajority this;
  nRejectBlockOutdatedMajority := nRejectBlockOutdatedMajority this;
  nToCheckBlockUpgradeMajority := nToCheckBlockUpgradeMajority this;
  nMinerThreads := nMinerThreads this;
  nTargetTimespan := nTargetTimespan this;
  nTargetSpacing := nTargetSpacing this;
  genesis := genesis this; hashGenesisBlock := hashGenesisBlock this;
  vSeeds := [];
  base58Prefixes := base58Prefixes this;
  vFixedSeeds := [];
  fRequireRPCPassword := false; fMiningRequiresPeers := false;
  fAllowMinDifficultyBlocks := false; fDefaultConsistencyChecks := true;
  fRequireStandard := fRequireStandard this; fMineBlocksOnDemand := true;
  fSkipProofOfWorkCheck := fSkipProofOfWorkCheck this;
  fTestnetToBeDeprecatedFieldRPC := fTestnetToBeDeprecatedFieldRPC this;
  nPoolMaxTransactions := nPoolMaxTransactions this;
  strSporkKey := strSporkKey this;
  strMasternodePaymentsPubKey := strMasternodePaymentsPubKey this;
  strDarksendPoolDummyAddress := strDarksendPoolDummyAddress this;
  nStartMasternodePayments := nStartMasternodePayments this |}.

Definition CUnitTestParams_ctor : M World CChainParams :=
  this <- CMainParams_ctor ;; ret (CUnitTestParams_body this).

(** The four static objects, in declaration order. *)
Record StaticParams := {
  mainParams : CChainParams; testNetParams : CChainParams;
  regTestParams : CChainParams; unitTestParams : CChainParams }.

Definition init_statics : M World StaticParams :=
  m <- CMainParams_ctor ;;
  t <- CTestNetParams_ctor ;;
  r <- CRegTestParams_ctor ;;
  u <- CUnitTestParams_ctor ;;
  ret {| mainParams := m; testNetParams := t; regTestParams := r; unitTestParams := u |}.
End Profiles.

(** ** The virtual [Checkpoints()] *)

(** The dynamic class of a parameter object. *)
Inductive ParamsClass :=
| CMainParams_class | CTestNetParams_class | CRegTestParams_class | CUnitTestParams_class.

Definition CMainParams_Checkpoints : CCheckpointData := data.
Definition CTestNetParams_Checkpoints : CCheckpointData := dataTestnet.
Definition CRegTestParams_Checkpoints : CCheckpointData := dataRegtest.
(** "UnitTest share the same checkpoints as MAIN". *)
Definition CUnitTestParams_Checkpoints : CCheckpointData := data.

Definition Checkpoints (c : ParamsClass) : CCheckpointData :=
  match c with
  | CMainParams_class => CMainParams_Checkpoints
  | CTestNetParams_class => CTestNetParams_Checkpoints
  | CRegTestParams_class => CRegTestParams_Checkpoints
  | CUnitTestParams_class => CUnitTestParams_Checkpoints
  end.

(** ** Running the constructors *)

(** The script [CScript() << ParseHex(key) << OP_CHECKSIG] evaluates
    without the [invalid opcode] exception. *)
Definition genesis_spk : script := push_data [] (ParseHex genesis_key_hex) ++ [OP_CHECKSIG].

Lemma genesis_scriptPubKey_ok : genesis_scriptPubKey = Ok genesis_spk.
Proof. reflexivity. Qed.

Definition genesis_coinbase : CTransaction := genesis_tx genesis_spk.

Section ProfileFacts.
Context `{HS : Hashing}.
Context (pnSeed6_main pnSeed6_test : list SeedSpec6).

(** The genesis block every profile carries. *)
Definition main_genesis : CBlock := build_genesis CBlock_default genesis_coinbase.

(** The two assertions of [CMainParams()]. *)
Definition genesis_checks_pass : bool :=
  (header_GetHash (header main_genesis) =? hashGenesisBlock_declared) &&
  (hashMerkleRoot (header main_genesis) =? hashMerkleRoot_declared).

(** The main object after [CMainParams()] in world [w]. *)
Definition main_object (w : World) : CChainParams :=
  CMainParams_assign CChainParams_uninit main_genesis
    (header_GetHash (header main_genesis)) (seed_records w 0 pnSeed6_main).

Lemma CMainParams_ctor_run (w : World) :
  genesis_checks_pass = true ->
  CMainParams_ctor pnSeed6_main w = Ok (main_object w, advance w (length pnSeed6_main)).
Proof.
  unfold genesis_checks_pass. intros Hok. apply andb_prop in Hok as [H1 H2].
  unfold CMainParams_ctor, CMainParams_body. rewrite genesis_scriptPubKey_ok.
  unfold bind at 1. unfold lift.
  change (build_genesis (genesis CChainParams_uninit) (genesis_tx genesis_spk)) with main_genesis.
  unfold bind at 1. unfold assert at 1. rewrite H1.
  unfold bind at 1. unfold assert at 1. rewrite H2.
  unfold bind. rewrite convertSeed6_run. reflexivity.
Qed.

Lemma CMainParams_ctor_fail (w : World) :
  genesis_checks_pass = false -> exists e, CMainParams_ctor pnSeed6_main w = Fatal e.
Proof.
  unfold genesis_checks_pass. intros Hko.
  unfold CMainParams_ctor, CMainParams_body. rewrite genesis_scriptPubKey_ok.
  unfold bind at 1. unfold lift.
  change (build_genesis (genesis CChainParams_uninit) (genesis_tx genesis_spk)) with main_genesis.
  unfold bind at 1. unfold assert at 1.
  destruct (header_GetHash (header main_genesis) =? hashGenesisBlock_declared); [|eauto].
  unfold bind at 1. unfold assert at 1.
  destruct (hashMerkleRoot (header main_genesis) =? hashMerkleRoot_declared); [discriminate|eauto].
Qed.

Let nm := length pnSeed6_main.
Let nt := length pnSeed6_test.

(** The testnet object after [CTestNetParams()] in world [w]. *)
Definition test_object (w : World) : CChainParams :=
  CTestNetParams_assign (main_object w) main_genesis
    (header_GetHash (header main_genesis)) (seed_records (advance w nm) 0 pnSeed6_test).

Definition regtest_object (w : World) : CChainParams :=
  CRegTestParams_assign (test_object w) main_genesis (header_GetHash (header main_genesis)).

Definition unittest_object (w : World) : CChainParams :=
  CUnitTestParams_body (main_object w).

Lemma CTestNetParams_ctor_run (w : World) :
  genesis_checks_pass = true ->
  CTestNetParams_ctor pnSeed6_main pnSeed6_test w =
    Ok (test_object w, advance (advance w nm) nt).
Proof.
  intros Hok. pose proof Hok as Hok'.
  unfold genesis_checks_pass in Hok'. apply andb_prop in Hok' as [H1 _].
  unfold CTestNetParams_ctor. step_ok (CMainParams_ctor_run w Hok).
  unfold CTestNetParams_body.
  change (genesis (main_object w)) with main_genesis.
  unfold bind at 1. unfold assert at 1.
  change ({| header := {| nVersion := nVersion (header main_genesis);
                          hashPrevBlock := hashPrevBlock (header main_genesis);
                          hashMerkleRoot := hashMerkleRoot (header main_genesis);
                          nTime := 1523209806; nBits := nBits (header main_genesis);
                          nNonce := 5717343 |};
             vtx := vtx main_genesis |}) with main_genesis.
  rewrite H1. unfold bind. rewrite convertSeed6_run. reflexivity.
Qed.

Lemma CRegTestParams_ctor_run (w : World) :
  genesis_checks_pass = true ->
  CRegTestParams_ctor pnSeed6_main pnSeed6_test w =
    Ok (regtest_object w, advance (advance w nm) nt).
Proof.
  intros Hok. pose proof Hok as Hok'.
  unfold genesis_checks_pass in Hok'. apply andb_prop in Hok' as [H1 _].
  unfold CRegTestParams_ctor. step_ok (CTestNetParams_ctor_run w Hok).
  unfold CRegTestParams_body.
  change (genesis (test_object w)) with main_genesis.
  unfold bind at 1. unfold assert at 1.
  change ({| header := {| nVersion := nVersion (header main_genesis);
                          hashPrevBlock := hashPrevBlock (header main_genesis);
                          hashMerkleRoot := hashMerkleRoot (header main_genesis);
                          nTime := 1523209806; nBits := 0x1e0ffff0;
                          nNonce := 5717343 |};
             vtx := vtx main_genesis |}) with main_genesis.
  rewrite H1. reflexivity.
Qed.

Lemma CUnitTestParams_ctor_run (w : World) :
  genesis_checks_pass = true ->
  CUnitTestParams_ctor pnSeed6_main w = Ok (unittest_object w, advance w nm).
Proof.
  intros Hok. unfold CUnitTestParams_ctor.
  step_ok (CMainParams_ctor_run w Hok). reflexivity.
Qed.

(** The four static objects, each constructor consuming the clock and
    the generator after the previous one. *)
Definition statics_of (w : World) : StaticParams :=
  let w1 := advance w nm in
  let w2 := advance (advance w1 nm) nt in
  let w3 := advance (advance w2 nm) nt in
  {| mainParams := main_object w; testNetParams := test_object w1;
     regTestParams := regtest_object w2; unitTestParams := unittest_object w3 |}.

Definition statics_world (w : World) : World :=
  advance (advance (advance (advance (advance (advance w nm) nm) nt) nm) nt) nm.

Lemma init_statics_run (w : World) :
  genesis_checks_pass = true ->
  init_statics pnSeed6_main pnSeed6_test w = Ok (statics_of w, statics_world w).
Proof.
  intros Hok. unfold init_statics.
  step_ok (CMainParams_ctor_run w Hok).
  step_ok (CTestNetParams_ctor_run (advance w nm) Hok).
  step_ok (CRegTestParams_ctor_run (advance (advance (advance w nm) nm) nt) Hok).
  step_ok (CUnitTestParams_ctor_run
             (advance (advance (advance (advance (advance w nm) nm) nt) nm) nt) Hok).
  reflexivity.
Qed.

Lemma init_statics_fail (w : World) :
  genesis_checks_pass = false ->
  exists e, init_statics pnSeed6_main pnSeed6_test w = Fatal e.
Proof.
  intros Hko. destruct (CMainParams_ctor_fail w Hko) as [e He].
  exists e. unfold init_statics. now apply bind_Fatal.
Qed.
End ProfileFacts.

(** ** Properties of the profiles *)

Section ProfileProperties.
Context `{HS : Hashing}.
Context (pnSeed6_main pnSeed6_test : list SeedSpec6).

(** C8 (functional) The merkle root the genesis builder stores is the
    hash of the coinbase transaction it pushed, for every transaction and
    every hash function: the one-leaf tree of [BuildMerkleTree] is the
    leaf itself. *)
Theorem genesis_merkle_root (txNew : CTransaction) :
  hashMerkleRoot (header (build_genesis CBlock_default txNew)) = tx_GetHash txNew.
Proof.
  change (BuildMerkleTree [txNew] = tx_GetHash txNew).
  rewrite BuildMerkleTree_eq_ref. apply merkle_root_ref_one.
Qed.

Lemma main_genesis_merkle :
  hashMerkleRoot (header main_genesis) = tx_GetHash genesis_coinbase.
Proof.
  change (BuildMerkleTree [genesis_coinbase] = tx_GetHash genesis_coinbase).
  rewrite BuildMerkleTree_eq_ref. apply merkle_root_ref_one.
Qed.

Lemma genesis_checks_pass_iff :
  genesis_checks_pass = true <->
  header_GetHash (header main_genesis) = hashGenesisBlock_declared /\
  tx_GetHash genesis_coinbase = hashMerkleRoot_declared.
Proof.
  unfold genesis_checks_pass. rewrite main_genesis_merkle, andb_true_iff, !Z.eqb_eq.
  reflexivity.
Qed.

(** C1 (error) Static initialisation of the four profiles succeeds
    exactly when the block hash of the genesis header is the declared
    [0xf820...] and the coinbase transaction's hash, which is the merkle
    root of the one-transaction block, is the declared [0xf618...];
    otherwise an [assert] aborts it, whatever the seeds and the world. *)
Theorem init_statics_ok_iff (w : World) :
  (exists s w', init_statics pnSeed6_main pnSeed6_test w = Ok (s, w')) <->
  header_GetHash (header main_genesis) = hashGenesisBlock_declared /\
  tx_GetHash genesis_coinbase = hashMerkleRoot_declared.
Proof.
  rewrite <- genesis_checks_pass_iff.
  destruct genesis_checks_pass eqn:Hg.
  - split; [reflexivity|]. intros _. eexists _, _. apply init_statics_run, Hg.
  - split; [|discriminate]. intros (s & w' & Hrun).
    destruct (init_statics_fail pnSeed6_main pnSeed6_test w Hg) as [e He].
    congruence.
Qed.

(** A successful static initialisation builds [statics_of w]. *)
Lemma init_statics_inv (w w' : World) (s : StaticParams) :
  init_statics pnSeed6_main pnSeed6_test w = Ok (s, w') ->
  genesis_checks_pass = true /\ s = statics_of pnSeed6_main pnSeed6_test w.
Proof.
  intros Hrun. destruct genesis_checks_pass eqn:Hg.
  - rewrite init_statics_run in Hrun by exact Hg. injection Hrun as <- _. auto.
  - destruct (init_statics_fail pnSeed6_main pnSeed6_test w Hg) as [e He]. congruence.
Qed.

Lemma statics_genesis (w w' : World) (s : StaticParams) :
  init_statics pnSeed6_main pnSeed6_test w = Ok (s, w') ->
  genesis (testNetParams s) = genesis (mainParams s) /\
  genesis (regTestParams s) = genesis (mainParams s) /\
  genesis (unitTestParams s) = genesis (mainParams s) /\
  hashGenesisBlock (mainParams s) = hashGenesisBlock_declared /\
  hashGenesisBlock (testNetParams s) = hashGenesisBlock_declared /\
  hashGenesisBlock (regTestParams s) = hashGenesisBlock_declared /\
  hashGenesisBlock (unitTestParams s) = hashGenesisBlock_declared.
Proof.
  intros Hrun. apply init_statics_inv in Hrun as [Hg ->].
  apply genesis_checks_pass_iff in Hg as [H1 _].
  unfold statics_of, main_object, test_object, regtest_object, unittest_object.
  cbn [mainParams testNetParams regTestParams unitTestParams CMainParams_assign
       CTestNetParams_assign CRegTestParams_assign CUnitTestParams_body
       genesis hashGenesisBlock].
  unfold main_object. cbn [CMainParams_assign genesis hashGenesisBlock].
  rewrite H1. repeat split; reflexivity.
Qed.

(** C7 (equivalence) Testnet, regtest and unittest re-assign the genesis
    fields with the main values, so all four profiles carry the same
    genesis block and the same declared genesis hash. *)
Theorem genesis_shared (w w' : World) (s : StaticParams) :
  init_statics pnSeed6_main pnSeed6_test w = Ok (s, w') ->
  genesis (testNetParams s) = genesis (mainParams s) /\
  genesis (regTestParams s) = genesis (mainParams s) /\
  genesis (unitTestParams s) = genesis (mainParams s) /\
  hashGenesisBlock (mainParams s) = hashGenesisBlock_declared /\
  hashGenesisBlock (testNetParams s) = hashGenesisBlock_declared /\
  hashGenesisBlock (regTestParams s) = hashGenesisBlock_declared /\
  hashGenesisBlock (unitTestParams s) = hashGenesisBlock_declared.
Proof. apply statics_genesis. Qed.

(** C13 (functional) The unittest profile inherits the main profile's
    message start bytes, so two of the four profiles share their magic,
    while main, testnet and regtest have three different ones. *)
Theorem message_start_shared (w w' : World) (s : StaticParams) :
  init_statics pnSeed6_main pnSeed6_test w = Ok (s, w') ->
  pchMessageStart (unitTestParams s) = pchMessageStart (mainParams s) /\
  pchMessageStart (mainParams s) = [0xc1; 0xf4; 0xa7; 0xd6] /\
  pchMessageStart (testNetParams s) <> pchMessageStart (mainParams s) /\
  pchMessageStart (regTestParams s) <> pchMessageStart (mainParams s) /\
  pchMessageStart (regTestParams s) <> pchMessageStart (testNetParams s).
Proof.
  intros Hrun. apply init_statics_inv in Hrun as [_ ->].
  repeat split; cbn; discriminate.
Qed.

(** C28 (functional) Static initialisation runs the base-class
    constructors again for every derived profile, so it converts the main
    seed table four times (main, and the bases of testnet, regtest and
    unittest) and the testnet table twice (testnet, and the base of
    regtest): the clock is read and the generator drawn
    [4 * |main| + 2 * |test|] times.  Only two conversions survive: main
    keeps the first, stamped from the first clock reading, and testnet
    keeps its own, stamped from reading [2 * |main|] on, after its base's
    discarded conversion; regtest and unittest clear theirs. *)
Theorem init_statics_seed_reads (w w' : World) (s : StaticParams) :
  init_statics pnSeed6_main pnSeed6_test w = Ok (s, w') ->
  time_reads w' = (time_reads w + 4 * length pnSeed6_main + 2 * length pnSeed6_test)%nat /\
  rand_draws w' = (rand_draws w + 4 * length pnSeed6_main + 2 * length pnSeed6_test)%nat /\
  vFixedSeeds (mainParams s) = seed_records w 0 pnSeed6_main /\
  vFixedSeeds (testNetParams s) =
    seed_records w (2 * length pnSeed6_main) pnSeed6_test /\
  vFixedSeeds (regTestParams s) = [] /\ vFixedSeeds (unitTestParams s) = [].
Proof.
  intros Hrun. pose proof Hrun as Hw.
  apply init_statics_inv in Hrun as [Hg ->].
  rewrite init_statics_run in Hw by exact Hg. injection Hw as <-.
  unfold statics_world. rewrite !advance_advance.
  cbn [statics_of mainParams testNetParams regTestParams unitTestParams
       main_object test_object regtest_object unittest_object
       CMainParams_assign CTestNetParams_assign CRegTestParams_assign
       CUnitTestParams_body vFixedSeeds time_reads rand_draws advance].
  rewrite !seed_records_advance. repeat split; first [lia | f_equal; lia].
Qed.

(** Every field of the genesis header is within its C++ width. *)
Lemma build_genesis_header_ok (g : CBlock) (txNew : CTransaction) :
  header_ok (header (build_genesis g txNew)).
Proof.
  pose proof (BuildMerkleTree_range (vtx g ++ [txNew])).
  unfold header_ok, uint256_ok, uint256_WIDTH in *. cbn [header build_genesis
    nVersion hashPrevBlock hashMerkleRoot nTime nBits nNonce]. lia.
Qed.

(** C19 (roundtrip) The header the genesis builder produces, for any
    coinbase transaction and any hash functions, is encoded in the 80
    bytes of the spec's layout, starting with version [01 00 00 00] and
    ending with the time, bits and nonce bytes, and decodes back to
    itself, leaving the rest of the stream (the serialized
    transactions) untouched. *)
Theorem genesis_header_roundtrip (g : CBlock) (txNew : CTransaction) (rest : list Z) :
  length (ser_header (header (build_genesis g txNew))) = 80%nat /\
  firstn 4 (ser_header (header (build_genesis g txNew))) = [1; 0; 0; 0] /\
  skipn 68 (ser_header (header (build_genesis g txNew))) =
    [0x4e; 0x56; 0xca; 0x5a; 0xf0; 0xff; 0x0f; 0x1e; 0x5f; 0x3d; 0x57; 0x00] /\
  deser_header (ser_header (header (build_genesis g txNew)) ++ rest) =
    Some (header (build_genesis g txNew), rest).
Proof.
  destruct (ser_header_fields (header (build_genesis g txNew))) as [H4 H68].
  rewrite H4, H68. split; [apply length_ser_header|].
  split; [reflexivity|]. split; [reflexivity|].
  apply deser_ser_header, build_genesis_header_ok.
Qed.

(** C18 (roundtrip) The coinbase signature script decodes back into
    what built it: for any [int64_t] constant, any [CScriptNum] and any
    message shorter than [2^32] bytes, [GetOp] reads exactly three
    operations, whose numbers are the two values pushed and whose data
    is the message. *)
Theorem coinbase_scriptSig_roundtrip (a b : Z) (msg : list Z) :
  - 2 ^ 63 <= a < 2 ^ 63 -> - 2 ^ 63 <= b < 2 ^ 63 -> Z.of_nat (length msg) < 2 ^ 32 ->
  exists oa da ob db om,
    GetOps 3 (coinbase_scriptSig a b msg) = Some [(oa, da); (ob, db); (om, msg)] /\
    decode_int oa da = a /\ decode_int ob db = b.
Proof.
  intros Ha Hb Hm. unfold coinbase_scriptSig.
  rewrite push_data_app. unfold push_scriptnum at 1. rewrite push_data_app.
  fold (push_scriptnum [] b). rewrite <- (app_nil_r (push_data [] msg)), <- !app_assoc.
  destruct (GetOp_push_int64 a (push_scriptnum [] b ++ push_data [] msg ++ []))
    as (oa & da & Ha' & Hda); [exact Ha|].
  destruct (GetOp_push_scriptnum b (push_data [] msg ++ [])) as (ob & Hb' & _ & Hdb); [lia|].
  exists oa, da, ob, (CScriptNum_serialize b), (push_opcode_of (Z.of_nat (length msg))).
  rewrite (GetOps_cons _ _ _ _ _ Ha'), (GetOps_cons _ _ _ _ _ Hb'),
    (GetOps_cons _ _ _ _ _ (GetOp_push_data msg [] Hm)).
  auto.
Qed.
End ProfileProperties.

Lemma coinbase_scriptSig_roundtrip_witness :
  exists oa da ob db om,
    GetOps 3 (coinbase_scriptSig 486604799 4 (bytes_of_string pszTimestamp)) =
      Some [(oa, da); (ob, db); (om, bytes_of_string pszTimestamp)] /\
    decode_int oa da = 486604799 /\ decode_int ob db = 4.
Proof. apply coinbase_scriptSig_roundtrip; [lia|lia|vm_compute; reflexivity]. Defined.

(** ** A run of the static initialisation *)

Lemma declared_ok : uint256_ok hashGenesisBlock_declared /\ uint256_ok hashMerkleRoot_declared.
Proof. unfold uint256_ok, uint256_WIDTH. vm_compute. repeat split; discriminate. Qed.

(** An instance of [Hashing] under which the genesis checks pass: it maps
    every header to the declared genesis hash and every transaction to the
    declared merkle root (SHA-256d and X11 themselves are not modelled). *)
#[export] Instance genesis_hashing : Hashing := {|
  tx_GetHash _ := hashMerkleRoot_declared;
  header_GetHash _ := hashGenesisBlock_declared;
  Hash2 a _ := a mod 2 ^ 256;
  tx_GetHash_range _ := proj2 declared_ok;
  header_GetHash_range _ := proj1 declared_ok;
  Hash2_range _ _ := mod_uint256_ok _ |}.

(** A world whose clock reads the genesis time and whose generator
    draws [0]. *)
Definition sample_world : World :=
  {| clock := fun _ => 1523209806; entropy := fun _ => 0; time_reads := 0; rand_draws := 0 |}.

Definition sample_statics : StaticParams :=
  statics_of (HS := genesis_hashing) [] [] sample_world.

Lemma sample_init :
  init_statics (HS := genesis_hashing) [] [] sample_world =
    Ok (sample_statics, statics_world [] [] sample_world).
Proof. apply init_statics_run. vm_compute. reflexivity. Qed.

Lemma message_start_shared_witness :
  pchMessageStart (unitTestParams sample_statics) = pchMessageStart (mainParams sample_statics).
Proof. exact (proj1 (message_start_shared [] [] _ _ _ sample_init)). Defined.

Lemma genesis_shared_witness :
  genesis (testNetParams sample_statics) = genesis (mainParams sample_statics).
Proof. exact (proj1 (genesis_shared [] [] _ _ _ sample_init)). Defined.

Lemma init_statics_seed_reads_witness :
  let m := [{| addr := repeat 0 16; port := 36003 |}; {| addr := repeat 2 16; port := 36003 |}] in
  let t := [{| addr := repeat 1 16; port := 36005 |}] in
  let s := statics_of (HS := genesis_hashing) m t sample_world in
  let w' := statics_world m t sample_world in
  time_reads w' = (time_reads sample_world + 4 * length m + 2 * length t)%nat /\
  rand_draws w' = (rand_draws sample_world + 4 * length m + 2 * length t)%nat /\
  vFixedSeeds (mainParams s) = seed_records sample_world 0 m /\
  vFixedSeeds (testNetParams s) = seed_records sample_world (2 * length m) t /\
  vFixedSeeds (regTestParams s) = [] /\ vFixedSeeds (unitTestParams s) = [].
Proof.
  intros m t s w'. apply (init_statics_seed_reads (HS := genesis_hashing) m t sample_world w' s).
  apply init_statics_run. vm_compute. reflexivity.
Defined.
