(* ===== verification/Serialize.v ===== *)
(** * The wire encoding of transactions and blocks ([serialize.h],
    [primitives/transaction.h], [primitives/block.h], outside [src/])

    The spec fixes the layout of the genesis block as its header
    followed by one serialized coinbase transaction, the form in which
    the block-storage and validation collaborators consume it.  This
    file models that encoding from the serialization code of the
    repository's base: the [CompactSize] length prefix
    ([WriteCompactSize], [ReadCompactSize] with its two errors, a
    non-canonical prefix and a size above [MAX_SIZE]), byte vectors
    and vectors of records behind such a prefix, [COutPoint], [CTxIn],
    [CTxOut], [CTransaction] and [CBlock].  Each encoder has its decoder,
    which returns the decoded value and the rest of the stream or fails
    as [Unserialize] throws; the round trip of each is proved on values
    whose fields fit their C++ types, and the genesis block of
    [chainparams.cpp] is shown to encode to 253 bytes that decode back
    to it. *)

From Stdlib Require Import ZArith String List Bool Lia.
From S2P Require Import Prelude Hex Script Block ChainParams.
Import ListNotations.
Open Scope Z_scope.

Declare Scope ser_scope.
Delimit Scope ser_scope with ser.

(** Sequencing of decoders: a failure ends the decoding. *)
Notation "'let?' ' p := c 'in' k" :=
  (match c with Some p => k | None => None end)
  (at level 100, p pattern, c at next level, k at level 200) : ser_scope.
Open Scope ser_scope.

(** ** [CompactSize] *)

(** [MAX_SIZE = 0x02000000]. *)
Definition MAX_SIZE : Z := 0x02000000.

(** [WriteCompactSize]. *)
Definition ser_compact (n : Z) : list Z :=
  if n <? 253 then [n]
  else if n <=? 0xffff then 253 :: le_split 2 n
  else if n <=? 0xffffffff then 254 :: le_split 4 n
  else 255 :: le_split 8 n.

(** [ReadCompactSize]: a prefix that could have been shorter throws
    ["non-canonical ReadCompactSize()"], a size above [MAX_SIZE] throws
    ["ReadCompactSize() : size too large"]. *)
Definition read_compact (bs : list Z) : option (Z * list Z) :=
  let? '(n, r) :=
    match bs with
    | [] => None
    | chSize :: r =>
        if chSize <? 253 then Some (chSize, r)
        else if chSize =? 253 then
          let? '(v, r') := read_le 2 r in if v <? 253 then None else Some (v, r')
        else if chSize =? 254 then
          let? '(v, r') := read_le 4 r in if v <? 0x10000 then None else Some (v, r')
        else
          let? '(v, r') := read_le 8 r in if v <? 0x100000000 then None else Some (v, r')
    end in
  if MAX_SIZE <? n then None else Some (n, r).

(** ** Byte vectors and vectors of records *)

Definition ser_bytes (b : list Z) : list Z := ser_compact (Z.of_nat (length b)) ++ b.

Definition read_bytes (bs : list Z) : option (list Z * list Z) :=
  let? '(n, r) := read_compact bs in
  if (length r <? Z.to_nat n)%nat then None
  else Some (firstn (Z.to_nat n) r, skipn (Z.to_nat n) r).

Definition ser_vector {A} (f : A -> list Z) (l : list A) : list Z :=
  ser_compact (Z.of_nat (length l)) ++ concat (map f l).

(** [n] records, each read by [rd]. *)
Fixpoint read_n {A} (rd : list Z -> option (A * list Z)) (n : nat) (bs : list Z)
    : option (list A * list Z) :=
  match n with
  | O => Some ([], bs)
  | S n' =>
      let? '(x, r) := rd bs in
      let? '(xs, r') := read_n rd n' r in Some (x :: xs, r')
  end.

Definition read_vector {A} (rd : list Z -> option (A * list Z)) (bs : list Z)
    : option (list A * list Z) :=
  let? '(n, r) := read_compact bs in read_n rd (Z.to_nat n) r.

(** ** Transactions *)

(** The [int64_t] whose two's complement bytes were read. *)
Definition int64_of (u : Z) : Z := if u <? 2 ^ 63 then u else u - 2 ^ 64.

Definition ser_txin (i : CTxIn) : list Z :=
  le_split 32 (prevout_hash (prevout i)) ++ le_split 4 (prevout_n (prevout i)) ++
  ser_bytes (scriptSig i) ++ le_split 4 (nSequence i).

Definition read_txin (bs : list Z) : option (CTxIn * list Z) :=
  let? '(h, r1) := read_le 32 bs in
  let? '(n, r2) := read_le 4 r1 in
  let? '(s, r3) := read_bytes r2 in
  let? '(q, r4) := read_le 4 r3 in
  Some ({| prevout := {| prevout_hash := h; prevout_n := n |}; scriptSig := s;
           nSequence := q |}, r4).

Definition ser_txout (o : CTxOut) : list Z :=
  le_split 8 (nValue o) ++ ser_bytes (scriptPubKey o).

Definition read_txout (bs : list Z) : option (CTxOut * list Z) :=
  let? '(v, r1) := read_le 8 bs in
  let? '(s, r2) := read_bytes r1 in
  Some ({| nValue := int64_of v; scriptPubKey := s |}, r2).

(** [CTransaction]: [nVersion], [vin], [vout], [nLockTime]. *)
Definition ser_tx (t : CTransaction) : list Z :=
  le_split 4 (tx_nVersion t) ++ ser_vector ser_txin (vin t) ++
  ser_vector ser_txout (vout t) ++ le_split 4 (nLockTime t).

Definition read_tx (bs : list Z) : option (CTransaction * list Z) :=
  let? '(v, r1) := read_le 4 bs in
  let? '(ins, r2) := read_vector read_txin r1 in
  let? '(outs, r3) := read_vector read_txout r2 in
  let? '(lt, r4) := read_le 4 r3 in
  Some ({| tx_nVersion := int32_of v; vin := ins; vout := outs; nLockTime := lt |}, r4).

(** [CBlock]: the header, then the transactions. *)
Definition ser_block (b : CBlock) : list Z :=
  ser_header (header b) ++ ser_vector ser_tx (vtx b).

Definition read_block (bs : list Z) : option (CBlock * list Z) :=
  let? '(h, r1) := deser_header bs in
  let? '(txs, r2) := read_vector read_tx r1 in
  Some ({| header := h; vtx := txs |}, r2).

(** ** The values the encoding represents *)

(** A length the decoder accepts. *)
Definition size_ok (n : nat) : Prop := Z.of_nat n <= MAX_SIZE.

Definition txin_ok (i : CTxIn) : Prop :=
  uint256_ok (prevout_hash (prevout i)) /\ 0 <= prevout_n (prevout i) < 2 ^ 32 /\
  size_ok (length (scriptSig i)) /\ 0 <= nSequence i < 2 ^ 32.

Definition txout_ok (o : CTxOut) : Prop :=
  - 2 ^ 63 <= nValue o < 2 ^ 63 /\ size_ok (length (scriptPubKey o)).

Definition tx_ok (t : CTransaction) : Prop :=
  - 2 ^ 31 <= tx_nVersion t < 2 ^ 31 /\
  Forall txin_ok (vin t) /\ size_ok (length (vin t)) /\
  Forall txout_ok (vout t) /\ size_ok (length (vout t)) /\
  0 <= nLockTime t < 2 ^ 32.

Definition block_ok (b : CBlock) : Prop :=
  header_ok (header b) /\ Forall tx_ok (vtx b) /\ size_ok (length (vtx b)).

(** ** Round trips *)

Lemma read_compact_ser (n : Z) (r : list Z) :
  0 <= n <= MAX_SIZE -> read_compact (ser_compact n ++ r) = Some (n, r).
Proof.
  intros Hn. unfold ser_compact, read_compact. unfold MAX_SIZE in *.
  destruct (Z.ltb_spec n 253).
  - cbn [app]. destruct (Z.ltb_spec n 253); [|lia].
    destruct (Z.ltb_spec 0x02000000 n); [lia|reflexivity].
  - destruct (Z.leb_spec n 0xffff).
    + cbn -[read_le le_split]. rewrite read_le_split, Z.mod_small by (cbn; lia).
      destruct (Z.ltb_spec n 253); [lia|].
      destruct (Z.ltb_spec 0x02000000 n); [lia|reflexivity].
    + destruct (Z.leb_spec n 0xffffffff); [|lia].
      cbn -[read_le le_split]. rewrite read_le_split, Z.mod_small by (cbn; lia).
      destruct (Z.ltb_spec n 0x10000); [lia|].
      destruct (Z.ltb_spec 0x02000000 n); [lia|reflexivity].
Qed.

Lemma read_bytes_ser (b r : list Z) :
  size_ok (length b) -> read_bytes (ser_bytes b ++ r) = Some (b, r).
Proof.
  intros Hb. unfold read_bytes, ser_bytes, size_ok in *. rewrite <- app_assoc.
  rewrite read_compact_ser by lia. rewrite Nat2Z.id, length_app.
  destruct (Nat.ltb_spec (length b + length r) (length b)); [lia|].
  destruct (skipn_firstn_app_exact b r) as [-> ->]. reflexivity.
Qed.

Lemma read_n_concat {A} (rd : list Z -> option (A * list Z)) (f : A -> list Z)
    (l : list A) (r : list Z) :
  (forall x rest, In x l -> rd (f x ++ rest) = Some (x, rest)) ->
  read_n rd (length l) (concat (map f l) ++ r) = Some (l, r).
Proof.
  induction l as [|x l IH]; intros Hrd; [reflexivity|].
  cbn [length map concat read_n]. rewrite <- app_assoc, Hrd by now left.
  rewrite IH by (intros; apply Hrd; now right). reflexivity.
Qed.

Lemma read_vector_ser {A} (rd : list Z -> option (A * list Z)) (f : A -> list Z)
    (l : list A) (r : list Z) :
  size_ok (length l) ->
  (forall x rest, In x l -> rd (f x ++ rest) = Some (x, rest)) ->
  read_vector rd (ser_vector f l ++ r) = Some (l, r).
Proof.
  intros Hl Hrd. unfold read_vector, ser_vector, size_ok in *. rewrite <- app_assoc.
  rewrite read_compact_ser by lia. rewrite Nat2Z.id. apply read_n_concat, Hrd.
Qed.

Lemma int64_of_mod (v : Z) : - 2 ^ 63 <= v < 2 ^ 63 -> int64_of (v mod 2 ^ 64) = v.
Proof.
  intros Hv. unfold int64_of. destruct (Z.leb_spec 0 v).
  - rewrite Z.mod_small by lia. destruct (Z.ltb_spec v (2 ^ 63)); lia.
  - replace (v mod 2 ^ 64) with (v + 2 ^ 64) by (apply Z.mod_unique with (-1); lia).
    destruct (Z.ltb_spec (v + 2 ^ 64) (2 ^ 63)); lia.
Qed.

Lemma read_txin_ser (i : CTxIn) (r : list Z) :
  txin_ok i -> read_txin (ser_txin i ++ r) = Some (i, r).
Proof.
  intros (Hh & Hn & Hs & Hq). unfold uint256_ok, uint256_WIDTH in Hh.
  unfold read_txin, ser_txin. rewrite <- !app_assoc.
  rewrite read_le_split, Z.mod_small by (cbn; lia).
  rewrite read_le_split, Z.mod_small by (cbn; lia).
  rewrite read_bytes_ser by exact Hs.
  rewrite read_le_split, Z.mod_small by (cbn; lia).
  destruct i as [[h n] s q]. reflexivity.
Qed.

Lemma read_txout_ser (o : CTxOut) (r : list Z) :
  txout_ok o -> read_txout (ser_txout o ++ r) = Some (o, r).
Proof.
  intros (Hv & Hs). unfold read_txout, ser_txout. rewrite <- app_assoc.
  rewrite read_le_split. change (8 * Z.of_nat 8) with 64.
  rewrite int64_of_mod by exact Hv. rewrite read_bytes_ser by exact Hs.
  destruct o. reflexivity.
Qed.

Lemma read_tx_ser (t : CTransaction) (r : list Z) :
  tx_ok t -> read_tx (ser_tx t ++ r) = Some (t, r).
Proof.
  intros (Hv & Hi & Hni & Ho & Hno & Hl). unfold read_tx, ser_tx. rewrite <- !app_assoc.
  rewrite read_le_split. change (8 * Z.of_nat 4) with 32. rewrite int32_of_mod by exact Hv.
  rewrite read_vector_ser; [|exact Hni|].
  2: { intros x rest Hx. apply read_txin_ser. rewrite Forall_forall in Hi. auto. }
  rewrite read_vector_ser; [|exact Hno|].
  2: { intros x rest Hx. apply read_txout_ser. rewrite Forall_forall in Ho. auto. }
  rewrite read_le_split, Z.mod_small by (cbn; lia).
  destruct t. reflexivity.
Qed.

(** Decoding an encoded block gives it back, and the rest of the stream. *)
Lemma read_block_ser (b : CBlock) (r : list Z) :
  block_ok b -> read_block (ser_block b ++ r) = Some (b, r).
Proof.
  intros (Hh & Ht & Hn). unfold read_block, ser_block. rewrite <- app_assoc.
  rewrite deser_ser_header by exact Hh.
  rewrite read_vector_ser; [|exact Hn|].
  2: { intros x rest Hx. apply read_tx_ser. rewrite Forall_forall in Ht. auto. }
  destruct b. reflexivity.
Qed.

(** ** Every accepted stream is an encoding *)

Lemma le_split_mod (k : nat) (x : Z) :
  le_split k (x mod 2 ^ (8 * Z.of_nat k)) = le_split k x.
Proof.
  revert x. induction k as [|k IH]; intros x; [reflexivity|].
  cbn [le_split]. change 255 with (Z.ones 8).
  rewrite !Z.land_ones, !Z.shiftr_div_pow2 by lia. change (2 ^ 8) with 256.
  replace (8 * Z.of_nat (S k)) with (8 + 8 * Z.of_nat k) by lia.
  rewrite Z.pow_add_r by lia. change (2 ^ 8) with 256.
  assert (HP : 0 < 2 ^ (8 * Z.of_nat k)) by (apply Z.pow_pos_nonneg; lia).
  rewrite Z.rem_mul_r by lia.
  pose proof (Z.mod_pos_bound x 256 ltac:(lia)).
  f_equal.
  - rewrite Z.mul_comm, Z.mod_add, Z.mod_mod by lia. reflexivity.
  - rewrite <- (IH (x / 256)). f_equal.
    rewrite Z.mul_comm, Z.div_add, (Z.div_small (x mod 256)) by lia.
    rewrite Z.add_0_l. reflexivity.
Qed.

Lemma le_value_bound (l : list Z) :
  bytes_ok l -> 0 <= le_value l < 2 ^ (8 * Z.of_nat (length l)).
Proof.
  unfold bytes_ok. induction 1 as [|b l Hb _ IH]; cbn [le_value length]; [cbn; lia|].
  rewrite Nat2Z.inj_succ, Z.mul_succ_r, Z.pow_add_r by lia. change (2 ^ 8) with 256. nia.
Qed.

Lemma le_split_value (l : list Z) : bytes_ok l -> le_split (length l) (le_value l) = l.
Proof.
  unfold bytes_ok. induction 1 as [|b l Hb Hl IH]; [reflexivity|].
  cbn [length le_split le_value]. change 255 with (Z.ones 8).
  rewrite Z.land_ones, Z.shiftr_div_pow2 by lia. change (2 ^ 8) with 256.
  rewrite Z.mul_comm, Z.mod_add, Z.div_add, Z.mod_small, Z.div_small by lia.
  rewrite Z.add_0_l, IH. reflexivity.
Qed.

Lemma read_le_inv (k : nat) (bs r : list Z) (v : Z) :
  read_le k bs = Some (v, r) -> bytes_ok bs ->
  bs = le_split k v ++ r /\ 0 <= v < 2 ^ (8 * Z.of_nat k).
Proof.
  unfold read_le. destruct (Nat.ltb_spec (length bs) k); [discriminate|].
  intros [= <- <-] Hb.
  assert (Hf : bytes_ok (firstn k bs)).
  { rewrite <- (firstn_skipn k bs) in Hb. apply Forall_app in Hb. apply Hb. }
  assert (Hl : length (firstn k bs) = k) by (rewrite length_firstn; lia).
  split.
  - rewrite <- Hl at 1. rewrite le_split_value by exact Hf. symmetry. apply firstn_skipn.
  - pose proof (le_value_bound _ Hf) as HB. rewrite Hl in HB. exact HB.
Qed.

Lemma bytes_ok_app_r (a b : list Z) : bytes_ok (a ++ b) -> bytes_ok b.
Proof. unfold bytes_ok. intros H. apply Forall_app in H. apply H. Qed.

(** Every stream [ReadCompactSize] accepts is the canonical encoding of
    the size it returns. *)
Lemma read_compact_inv (bs r : list Z) (n : Z) :
  read_compact bs = Some (n, r) -> bytes_ok bs ->
  bs = ser_compact n ++ r /\ 0 <= n <= MAX_SIZE.
Proof.
  intros H Hb. unfold read_compact in H.
  destruct bs as [|c r0]; [discriminate|].
  inversion Hb as [|? ? Hc Hr0]; subst.
  unfold ser_compact, MAX_SIZE in *.
  destruct (Z.ltb_spec c 253).
  - destruct (Z.ltb_spec 0x02000000 c); [discriminate|]. injection H as <- <-.
    destruct (Z.ltb_spec c 253); [|lia]. split; [reflexivity|lia].
  - destruct (Z.eqb_spec c 253).
    + destruct (read_le 2 r0) as [[v r']|] eqn:E; [|discriminate].
      apply read_le_inv in E as [-> Hv]; [|exact Hr0].
      destruct (Z.ltb_spec v 253); [discriminate|].
      destruct (Z.ltb_spec 0x02000000 v); [discriminate|]. injection H as <- <-.
      cbn in Hv. destruct (Z.ltb_spec v 253); [lia|].
      destruct (Z.leb_spec v 0xffff); [|lia]. subst. split; [reflexivity|lia].
    + destruct (Z.eqb_spec c 254).
      * destruct (read_le 4 r0) as [[v r']|] eqn:E; [|discriminate].
        apply read_le_inv in E as [-> Hv]; [|exact Hr0].
        destruct (Z.ltb_spec v 0x10000); [discriminate|].
        destruct (Z.ltb_spec 0x02000000 v); [discriminate|]. injection H as <- <-.
        cbn in Hv. destruct (Z.ltb_spec v 253); [lia|].
        destruct (Z.leb_spec v 0xffff); [lia|].
        destruct (Z.leb_spec v 0xffffffff); [|lia]. subst. split; [reflexivity|lia].
      * destruct (read_le 8 r0) as [[v r']|] eqn:E; [|discriminate].
        destruct (Z.ltb_spec v 0x100000000); [discriminate|].
        destruct (Z.ltb_spec 0x02000000 v); [discriminate|lia].
Qed.

(** The size prefix decoder at its boundaries: the
    canonical prefix of any 64-bit size is accepted up to [MAX_SIZE]
    inclusive and refused above it ("size too large"), and the 3-, 5- and
    9-byte forms of a size that a shorter form could hold are refused
    ("non-canonical"), whatever follows in the stream. *)
Lemma read_compact_boundaries (n : Z) (r : list Z) :
  0 <= n < 2 ^ 64 ->
  read_compact (ser_compact n ++ r) = (if n <=? MAX_SIZE then Some (n, r) else None) /\
  (n < 253 -> read_compact (253 :: le_split 2 n ++ r) = None) /\
  (n < 0x10000 -> read_compact (254 :: le_split 4 n ++ r) = None) /\
  (n < 0x100000000 -> read_compact (255 :: le_split 8 n ++ r) = None).
Proof.
  intros Hn. unfold read_compact. cbn -[read_le le_split].
  rewrite !read_le_split. change (2 ^ (8 * Z.of_nat 2)) with 65536.
  change (2 ^ (8 * Z.of_nat 4)) with 4294967296.
  change (2 ^ (8 * Z.of_nat 8)) with (2 ^ 64).
  split; [|split; [|split]]; intros; cycle 1.
  - rewrite Z.mod_small by lia. destruct (Z.ltb_spec n 253); [reflexivity|lia].
  - rewrite Z.mod_small by lia. destruct (Z.ltb_spec n 65536); [reflexivity|lia].
  - rewrite Z.mod_small by lia. destruct (Z.ltb_spec n 4294967296); [reflexivity|lia].
  - destruct (Z.leb_spec n MAX_SIZE); [apply read_compact_ser; lia|].
    unfold ser_compact, MAX_SIZE in *.
    destruct (Z.ltb_spec n 253); [lia|]. destruct (Z.leb_spec n 0xffff); [lia|].
    destruct (Z.leb_spec n 0xffffffff); cbn -[read_le le_split];
      rewrite read_le_split, Z.mod_small by (cbn; lia); cbn.
    + destruct (Z.ltb_spec n 65536); [lia|].
      destruct (Z.ltb_spec 33554432 n); [reflexivity|lia].
    + destruct (Z.ltb_spec n 4294967296); [lia|].
      destruct (Z.ltb_spec 33554432 n); [reflexivity|lia].
Qed.

Lemma read_bytes_inv (bs b r : list Z) :
  read_bytes bs = Some (b, r) -> bytes_ok bs -> bs = ser_bytes b ++ r.
Proof.
  unfold read_bytes. intros H Hb.
  destruct (read_compact bs) as [[n r1]|] eqn:E; [|discriminate].
  apply read_compact_inv in E as [-> Hn]; [|exact Hb].
  destruct (Nat.ltb_spec (length r1) (Z.to_nat n)); [discriminate|].
  injection H as <- <-. unfold ser_bytes. rewrite length_firstn.
  replace (Z.of_nat (Nat.min (Z.to_nat n) (length r1))) with n by lia.
  rewrite <- app_assoc, firstn_skipn. reflexivity.
Qed.

Section Inverse.
Context {A : Type} (rd : list Z -> option (A * list Z)) (f : A -> list Z).
Hypothesis rd_inv : forall bs r x, rd bs = Some (x, r) -> bytes_ok bs -> bs = f x ++ r.

Lemma read_n_inv (k : nat) (bs r : list Z) (l : list A) :
  read_n rd k bs = Some (l, r) -> bytes_ok bs ->
  bs = concat (map f l) ++ r /\ length l = k.
Proof.
  revert bs l. induction k as [|k IH]; intros bs l H Hb; cbn [read_n] in H.
  - injection H as <- <-. split; reflexivity.
  - destruct (rd bs) as [[x r1]|] eqn:E; [|discriminate].
    apply rd_inv in E as ->; [|exact Hb].
    destruct (read_n rd k r1) as [[xs r2]|] eqn:E2; [|discriminate].
    injection H as <- <-.
    destruct (IH r1 xs E2 (bytes_ok_app_r _ _ Hb)) as [-> Hl].
    cbn [map concat length]. rewrite app_assoc. split; [reflexivity|lia].
Qed.

Lemma read_vector_inv (bs r : list Z) (l : list A) :
  read_vector rd bs = Some (l, r) -> bytes_ok bs -> bs = ser_vector f l ++ r.
Proof.
  unfold read_vector. intros H Hb.
  destruct (read_compact bs) as [[n r1]|] eqn:E; [|discriminate].
  apply read_compact_inv in E as [-> Hn]; [|exact Hb].
  apply read_n_inv in H as [-> Hl]; [|exact (bytes_ok_app_r _ _ Hb)].
  unfold ser_vector. rewrite Hl, Z2Nat.id by lia. apply app_assoc.
Qed.
End Inverse.

Lemma le_split_wrapped (k : nat) (v : Z) :
  le_split k (v - 2 ^ (8 * Z.of_nat k)) = le_split k v.
Proof.
  rewrite <- le_split_mod, <- (le_split_mod k v). f_equal.
  replace (v - 2 ^ (8 * Z.of_nat k)) with (v + (-1) * 2 ^ (8 * Z.of_nat k)) by ring.
  apply Z.mod_add. apply Z.pow_nonzero; lia.
Qed.

Lemma le_split_int32_of (v : Z) : le_split 4 (int32_of v) = le_split 4 v.
Proof. unfold int32_of. destruct (v <? 2 ^ 31); [reflexivity|apply le_split_wrapped]. Qed.

Lemma le_split_int64_of (v : Z) : le_split 8 (int64_of v) = le_split 8 v.
Proof. unfold int64_of. destruct (v <? 2 ^ 63); [reflexivity|apply le_split_wrapped]. Qed.

(** One field read by [read_le]: the stream starts with its bytes. *)
Ltac read_field H Hb :=
  match type of H with
  | context [match read_le ?k ?bs with Some _ => _ | None => None end] =>
      let E := fresh "E" in
      destruct (read_le k bs) as [[? ?]|] eqn:E; [|discriminate H];
      apply read_le_inv in E as [-> ?]; [|exact Hb];
      apply bytes_ok_app_r in Hb
  end.

Lemma read_txin_inv (bs r : list Z) (i : CTxIn) :
  read_txin bs = Some (i, r) -> bytes_ok bs -> bs = ser_txin i ++ r.
Proof.
  unfold read_txin. intros H Hb.
  read_field H Hb. read_field H Hb.
  destruct (read_bytes _) as [[s r3]|] eqn:E3; [|discriminate H].
  apply read_bytes_inv in E3 as ->; [|exact Hb]. apply bytes_ok_app_r in Hb.
  read_field H Hb. injection H as <- <-. unfold ser_txin. cbn.
  rewrite <- !app_assoc. reflexivity.
Qed.

Lemma read_txout_inv (bs r : list Z) (o : CTxOut) :
  read_txout bs = Some (o, r) -> bytes_ok bs -> bs = ser_txout o ++ r.
Proof.
  unfold read_txout. intros H Hb. read_field H Hb.
  destruct (read_bytes _) as [[s r2]|] eqn:E2; [|discriminate H].
  apply read_bytes_inv in E2 as ->; [|exact Hb].
  injection H as <- <-. unfold ser_txout. cbn [nValue scriptPubKey].
  rewrite le_split_int64_of, <- app_assoc. reflexivity.
Qed.

Lemma read_tx_inv (bs r : list Z) (t : CTransaction) :
  read_tx bs = Some (t, r) -> bytes_ok bs -> bs = ser_tx t ++ r.
Proof.
  unfold read_tx. intros H Hb. read_field H Hb.
  destruct (read_vector read_txin _) as [[ins r2]|] eqn:E2; [|discriminate H].
  apply (read_vector_inv _ _ read_txin_inv) in E2 as ->; [|exact Hb].
  apply bytes_ok_app_r in Hb.
  destruct (read_vector read_txout _) as [[outs r3]|] eqn:E3; [|discriminate H].
  apply (read_vector_inv _ _ read_txout_inv) in E3 as ->; [|exact Hb].
  apply bytes_ok_app_r in Hb.
  read_field H Hb. injection H as <- <-. unfold ser_tx. cbn [tx_nVersion vin vout nLockTime].
  rewrite le_split_int32_of, <- !app_assoc. reflexivity.
Qed.

Lemma deser_header_inv (bs r : list Z) (h : CBlockHeader) :
  deser_header bs = Some (h, r) -> bytes_ok bs -> bs = ser_header h ++ r.
Proof.
  unfold deser_header. intros H Hb.
  do 6 read_field H Hb. injection H as <- <-. unfold ser_header.
  cbn [nVersion hashPrevBlock hashMerkleRoot nTime nBits nNonce].
  rewrite le_split_int32_of, <- !app_assoc. reflexivity.
Qed.

(** Every byte stream the block decoder accepts is the encoding of the
    block it returns: the encoding admits no second form. *)
Lemma read_block_inv (bs r : list Z) (b : CBlock) :
  read_block bs = Some (b, r) -> bytes_ok bs -> bs = ser_block b ++ r.
Proof.
  unfold read_block. intros H Hb.
  destruct (deser_header bs) as [[h r1]|] eqn:E1; [|discriminate H].
  apply deser_header_inv in E1 as ->; [|exact Hb]. apply bytes_ok_app_r in Hb.
  destruct (read_vector read_tx _) as [[txs r2]|] eqn:E2; [|discriminate H].
  apply (read_vector_inv _ _ read_tx_inv) in E2 as ->; [|exact Hb].
  injection H as <- <-. unfold ser_block. cbn [header vtx]. rewrite <- app_assoc. reflexivity.
Qed.

(** ** The genesis block on the wire *)

Lemma genesis_coinbase_ok : tx_ok genesis_coinbase.
Proof.
  assert (H1 : length genesis_scriptSig = 45%nat) by (vm_compute; reflexivity).
  assert (H2 : length genesis_spk = 67%nat) by (vm_compute; reflexivity).
  unfold tx_ok, txin_ok, txout_ok, size_ok, uint256_ok, uint256_WIDTH, MAX_SIZE.
  unfold genesis_coinbase, genesis_tx.
  cbn [tx_nVersion vin vout nLockTime prevout prevout_hash prevout_n scriptSig nSequence
       nValue scriptPubKey CTxIn_default CTxOut_default CMutableTransaction_default length].
  repeat match goal with |- _ /\ _ => split end.
  all: try (apply Forall_cons; [|apply Forall_nil];
            cbn [prevout prevout_hash prevout_n scriptSig nSequence nValue scriptPubKey];
            rewrite ?H1, ?H2; unfold COIN).
  all: repeat match goal with |- _ /\ _ => split end; lia.
Qed.

Section GenesisEncoding.
Context `{HS : Hashing}.

Lemma main_genesis_ok : block_ok main_genesis.
Proof.
  split; [apply build_genesis_header_ok|].
  split; [repeat constructor; apply genesis_coinbase_ok|].
  unfold size_ok, MAX_SIZE. cbn. lia.
Qed.

Lemma length_ser_main_genesis : length (ser_block main_genesis) = 253%nat.
Proof.
  unfold ser_block. rewrite length_app, length_ser_header.
  change (vtx main_genesis) with [genesis_coinbase]. vm_compute. reflexivity.
Qed.

(** C24 (roundtrip) The genesis block, as the collaborators consume it,
    is its 80-byte header followed by the one coinbase transaction
    behind a one-byte count: 253 bytes in all, whatever the hash
    functions, which the block decoder reads back into the genesis
    block, leaving the rest of the stream. *)
Theorem genesis_block_encoding (rest : list Z) :
  length (ser_block main_genesis) = 253%nat /\
  read_block (ser_block main_genesis ++ rest) = Some (main_genesis, rest).
Proof.
  split; [apply length_ser_main_genesis|apply read_block_ser, main_genesis_ok].
Qed.

End GenesisEncoding.
