(* ===== verification/Registry.v ===== *)
(** * Profile selection and the unit-test override ([chainparams.cpp] lines 285-362)

    The process-wide state of the component: the four static objects
    ([StaticParams] of [ChainParams]), the pointer [pCurrentParams], which
    is null or the address of one of them ([ParamsObj] names the four
    addresses), and the pointer [pCurrentBaseParams] of
    [chainparamsbase.cpp] that [SelectParams] updates first through
    [SelectBaseParams] (modelled from the spec: "also triggers an external
    collaborator that reconfigures network-magic expectations").

    Operations, in the monad [M Registry]: [Params_network] (the [switch]
    of [Params(Network)], with the [assert(false)] default),
    [Params_current] ([Params()]), [SelectParams],
    [SelectParamsFromCommandLine] (the network that
    [NetworkIdFromCommandLine] parsed is its input), [ModifiableParams] with
    its two [assert]s, and the seven setters of [CModifiableParams], which
    write the unittest object through the pointer [ModifiableParams]
    returns.  A reader holding [Params()] sees a later write because
    [Params_current] dereferences the pointer in the current state.

    [step] is the transition relation of the successful operations that
    change the state, an override taking an argument of the setter's
    C++ type ([setter_ok]); [reachable] states are those reached from the
    initial one (both pointers null) after static initialisation. *)

From Stdlib Require Import ZArith String List Bool Lia.
From stdpp Require Import base decidable option.
From S2P Require Import Prelude Hex Checkpoints Seeds Block ChainParams.
Import ListNotations.
Open Scope Z_scope.
Open Scope cp_scope.

(** ** State *)

(** The addresses [pCurrentParams] may hold. *)
Inductive ParamsObj :=
| mainParams_obj | testNetParams_obj | regTestParams_obj | unitTestParams_obj.

#[export] Instance Network_eq_dec : EqDecision Network.
Proof. solve_decision. Defined.
#[export] Instance ParamsObj_eq_dec : EqDecision ParamsObj.
Proof. solve_decision. Defined.

Record Registry := {
  statics : StaticParams;
  pCurrentParams : option ParamsObj;
  pCurrentBaseParams : option Network
}.

(** [*p] for each of the four addresses. *)
Definition deref (r : Registry) (o : ParamsObj) : CChainParams :=
  match o with
  | mainParams_obj => mainParams (statics r)
  | testNetParams_obj => testNetParams (statics r)
  | regTestParams_obj => regTestParams (statics r)
  | unitTestParams_obj => unitTestParams (statics r)
  end.

(** The dynamic class of each static object, for [Checkpoints()]. *)
Definition class_of (o : ParamsObj) : ParamsClass :=
  match o with
  | mainParams_obj => CMainParams_class
  | testNetParams_obj => CTestNetParams_class
  | regTestParams_obj => CRegTestParams_class
  | unitTestParams_obj => CUnitTestParams_class
  end.

Definition init_registry (s : StaticParams) : Registry :=
  {| statics := s; pCurrentParams := None; pCurrentBaseParams := None |}.

(** ** Operations *)

(** [CChainParams &Params(CBaseChainParams::Network network)]. *)
Definition Params_network (network : Network) : result ParamsObj :=
  match network with
  | MAIN => Ok mainParams_obj
  | TESTNET => Ok testNetParams_obj
  | REGTEST => Ok regTestParams_obj
  | UNITTEST => Ok unitTestParams_obj
  | MAX_NETWORK_TYPES => Fatal "false && Unimplemented network"
  end.

(** [const CChainParams &Params()]. *)
Definition Params_current : M Registry CChainParams :=
  r <- get ;;
  match pCurrentParams r with
  | None => fun _ => Fatal "pCurrentParams"
  | Some o => ret (deref r o)
  end.

(** [SelectBaseParams] of [chainparamsbase.cpp]: the same [switch], with
    its own [assert(false)] default. *)
Definition SelectBaseParams (network : Network) : M Registry unit :=
  r <- get ;;
  match network with
  | MAX_NETWORK_TYPES => fun _ => Fatal "false && Unimplemented network"
  | _ => put {| statics := statics r; pCurrentParams := pCurrentParams r;
                pCurrentBaseParams := Some network |}
  end.

(** [void SelectParams(CBaseChainParams::Network network)]. *)
Definition SelectParams (network : Network) : M Registry unit :=
  SelectBaseParams network ;;
  o <- lift (Params_network network) ;;
  r <- get ;;
  put {| statics := statics r; pCurrentParams := Some o;
         pCurrentBaseParams := pCurrentBaseParams r |}.

(** [bool SelectParamsFromCommandLine()], given the network
    [NetworkIdFromCommandLine()] returned. *)
Definition SelectParamsFromCommandLine (network : Network) : M Registry bool :=
  if decide (network = MAX_NETWORK_TYPES) then ret false
  else SelectParams network ;; ret true.

(** [CModifiableParams *ModifiableParams()]. *)
Definition ModifiableParams : M Registry ParamsObj :=
  r <- get ;;
  assert (bool_decide (pCurrentParams r <> None)) "pCurrentParams" ;;
  assert (bool_decide (pCurrentParams r = Some unitTestParams_obj))
    "pCurrentParams==&unitTestParams" ;;
  ret unitTestParams_obj.

(** The published setters of [CUnitTestParams]. *)
Inductive ModifiableSetter :=
| setSubsidyHalvingInterval (anSubsidyHalvingInterval : Z)
| setEnforceBlockUpgradeMajority (anEnforceBlockUpgradeMajority : Z)
| setRejectBlockOutdatedMajority (anRejectBlockOutdatedMajority : Z)
| setToCheckBlockUpgradeMajority (anToCheckBlockUpgradeMajority : Z)
| setDefaultConsistencyChecks (afDefaultConsistencyChecks : bool)
| setAllowMinDifficultyBlocks (afAllowMinDifficultyBlocks : bool)
| setSkipProofOfWorkCheck (afSkipProofOfWorkCheck : bool).

(** The member a setter writes, every other member unchanged. *)
Definition apply_setter (st : ModifiableSetter) (p : CChainParams) : CChainParams :=
  let '(hal, enf, rej, chk, consis, mind, skip) :=
    match st with
    | setSubsidyHalvingInterval v =>
        (v, nEnforceBlockUpgradeMajority p, nRejectBlockOutdatedMajority p,
         nToCheckBlockUpgradeMajority p, fDefaultConsistencyChecks p,
         fAllowMinDifficultyBlocks p, fSkipProofOfWorkCheck p)
    | setEnforceBlockUpgradeMajority v =>
        (nSubsidyHalvingInterval p, v, nRejectBlockOutdatedMajority p,
         nToCheckBlockUpgradeMajority p, fDefaultConsistencyChecks p,
         fAllowMinDifficultyBlocks p, fSkipProofOfWorkCheck p)
    | setRejectBlockOutdatedMajority v =>
        (nSubsidyHalvingInterval p, nEnforceBlockUpgradeMajority p, v,
         nToCheckBlockUpgradeMajority p, fDefaultConsistencyChecks p,
         fAllowMinDifficultyBlocks p, fSkipProofOfWorkCheck p)
    | setToCheckBlockUpgradeMajority v =>
        (nSubsidyHalvingInterval p, nEnforceBlockUpgradeMajority p,
         nRejectBlockOutdatedMajority p, v, fDefaultConsistencyChecks p,
         fAllowMinDifficultyBlocks p, fSkipProofOfWorkCheck p)
    | setDefaultConsistencyChecks b =>
        (nSubsidyHalvingInterval p, nEnforceBlockUpgradeMajority p,
         nRejectBlockOutdatedMajority p, nToCheckBlockUpgradeMajority p, b,
         fAllowMinDifficultyBlocks p, fSkipProofOfWorkCheck p)
    | setAllowMinDifficultyBlocks b =>
        (nSubsidyHalvingInterval p, nEnforceBlockUpgradeMajority p,
         nRejectBlockOutdatedMajority p, nToCheckBlockUpgradeMajority p,
         fDefaultConsistencyChecks p, b, fSkipProofOfWorkCheck p)
    | setSkipProofOfWorkCheck b =>
        (nSubsidyHalvingInterval p, nEnforceBlockUpgradeMajority p,
         nRejectBlockOutdatedMajority p, nToCheckBlockUpgradeMajority p,
         fDefaultConsistencyChecks p, fAllowMinDifficultyBlocks p, b)
    end in
  {| networkID := networkID p; strNetworkID := strNetworkID p;
     pchMessageStart := pchMessageStart p; vAlertPubKey := vAlertPubKey p;
     nDefaultPort := nDefaultPort p; bnProofOfWorkLimit := bnProofOfWorkLimit p;
     nSubsidyHalvingInterval := hal; nEnforceBlockUpgradeMajority := enf;
     nRejectBlockOutdatedMajority := rej; nToCheckBlockUpgradeMajority := chk;
     nMinerThreads := nMinerThreads p; nTargetTimespan := nTargetTimespan p;
     nTargetSpacing := nTargetSpacing p; genesis := genesis p;
     hashGenesisBlock := hashGenesisBlock p; vSeeds := vSeeds p;
     base58Prefixes := base58Prefixes p; vFixedSeeds := vFixedSeeds p;
     fRequireRPCPassword := fRequireRPCPassword p;
     fMiningRequiresPeers := fMiningRequiresPeers p;
     fAllowMinDifficultyBlocks := mind; fDefaultConsistencyChecks := consis;
     fRequireStandard := fRequireStandard p; fMineBlocksOnDemand := fMineBlocksOnDemand p;
     fSkipProofOfWorkCheck := skip;
     fTestnetToBeDeprecatedFieldRPC := fTestnetToBeDeprecatedFieldRPC p;
     nPoolMaxTransactions := nPoolMaxTransactions p; strSporkKey := strSporkKey p;
     strMasternodePaymentsPubKey := strMasternodePaymentsPubKey p;
     strDarksendPoolDummyAddress := strDarksendPoolDummyAddress p;
     nStartMasternodePayments := nStartMasternodePayments p |}.

(** [ModifiableParams()->setX(v)]: the write goes to the object the
    returned pointer designates, the static [unitTestParams]. *)
Definition modify (st : ModifiableSetter) : M Registry unit :=
  o <- ModifiableParams ;;
  r <- get ;;
  let s := statics r in
  put {| statics := {| mainParams := mainParams s; testNetParams := testNetParams s;
                       regTestParams := regTestParams s;
                       unitTestParams := apply_setter st (unitTestParams s) |};
         pCurrentParams := pCurrentParams r; pCurrentBaseParams := pCurrentBaseParams r |}.

(** The setters take an [int] or a [bool]: the value a caller passes is
    an [int], between [-2^31] and [2^31 - 1]. *)
Definition setter_ok (st : ModifiableSetter) : Prop :=
  match st with
  | setSubsidyHalvingInterval v | setEnforceBlockUpgradeMajority v
  | setRejectBlockOutdatedMajority v | setToCheckBlockUpgradeMajority v =>
      - 2 ^ 31 <= v < 2 ^ 31
  | _ => True
  end.

(** ** Transitions *)

Inductive step : Registry -> Registry -> Prop :=
| step_select (network : Network) (r r' : Registry) :
    SelectParams network r = Ok (tt, r') -> step r r'
| step_modify (st : ModifiableSetter) (r r' : Registry) :
    setter_ok st -> modify st r = Ok (tt, r') -> step r r'.

Inductive reachable (s : StaticParams) : Registry -> Prop :=
| reach_init : reachable s (init_registry s)
| reach_step (r r' : Registry) : reachable s r -> step r r' -> reachable s r'.

(** ** Lemmas on the operations *)

Lemma SelectParams_run (network : Network) (o : ParamsObj) (r : Registry) :
  Params_network network = Ok o ->
  SelectParams network r =
    Ok (tt, {| statics := statics r; pCurrentParams := Some o;
               pCurrentBaseParams := Some network |}).
Proof. destruct network; intros H; try discriminate; injection H as <-; reflexivity. Qed.

Lemma Params_current_run (r : Registry) (o : ParamsObj) :
  pCurrentParams r = Some o -> Params_current r = Ok (deref r o, r).
Proof. intros H. unfold Params_current, bind, get. rewrite H. reflexivity. Qed.

Lemma ModifiableParams_spec (r : Registry) (o : ParamsObj) (r' : Registry) :
  ModifiableParams r = Ok (o, r') <->
  pCurrentParams r = Some unitTestParams_obj /\ o = unitTestParams_obj /\ r' = r.
Proof.
  unfold ModifiableParams, bind, get, assert, ret.
  repeat case_bool_decide; simpl; split;
    try (intros [= <- <-]; auto); try discriminate;
    intros (Hp & -> & ->); try congruence; reflexivity.
Qed.

Lemma modify_run (st : ModifiableSetter) (r r' : Registry) :
  modify st r = Ok (tt, r') ->
  pCurrentParams r = Some unitTestParams_obj /\
  r' = {| statics := {| mainParams := mainParams (statics r);
                        testNetParams := testNetParams (statics r);
                        regTestParams := regTestParams (statics r);
                        unitTestParams := apply_setter st (unitTestParams (statics r)) |};
          pCurrentParams := pCurrentParams r; pCurrentBaseParams := pCurrentBaseParams r |}.
Proof.
  unfold modify. intros H. split_bind H.
  apply ModifiableParams_spec in Hc as (Hp & _ & ->).
  split; [exact Hp|]. unfold bind, get, put in Hk. now injection Hk as <-.
Qed.

Lemma modify_ok (st : ModifiableSetter) (r : Registry) :
  pCurrentParams r = Some unitTestParams_obj ->
  exists r', modify st r = Ok (tt, r').
Proof.
  intros Hp. unfold modify.
  erewrite bind_Ok by (apply ModifiableParams_spec; auto).
  eexists. reflexivity.
Qed.

Lemma SelectParams_inv (network : Network) (r r' : Registry) :
  SelectParams network r = Ok (tt, r') ->
  exists o, Params_network network = Ok o /\
    r' = {| statics := statics r; pCurrentParams := Some o;
            pCurrentBaseParams := Some network |}.
Proof.
  destruct (Params_network network) as [o|e] eqn:Hn.
  - rewrite (SelectParams_run _ _ _ Hn). intros [= <-]. eauto.
  - destruct network; discriminate.
Qed.

(** ** Invariants of the reachable states *)

(** [p] and [q] agree on every member but the seven a setter writes. *)
Definition same_except_overrides (p q : CChainParams) : Prop :=
  networkID p = networkID q /\ strNetworkID p = strNetworkID q /\
  pchMessageStart p = pchMessageStart q /\ vAlertPubKey p = vAlertPubKey q /\
  nDefaultPort p = nDefaultPort q /\ bnProofOfWorkLimit p = bnProofOfWorkLimit q /\
  nMinerThreads p = nMinerThreads q /\ nTargetTimespan p = nTargetTimespan q /\
  nTargetSpacing p = nTargetSpacing q /\ genesis p = genesis q /\
  hashGenesisBlock p = hashGenesisBlock q /\ vSeeds p = vSeeds q /\
  base58Prefixes p = base58Prefixes q /\ vFixedSeeds p = vFixedSeeds q /\
  fRequireRPCPassword p = fRequireRPCPassword q /\
  fMiningRequiresPeers p = fMiningRequiresPeers q /\
  fRequireStandard p = fRequireStandard q /\
  fMineBlocksOnDemand p = fMineBlocksOnDemand q /\
  fTestnetToBeDeprecatedFieldRPC p = fTestnetToBeDeprecatedFieldRPC q /\
  nPoolMaxTransactions p = nPoolMaxTransactions q /\ strSporkKey p = strSporkKey q /\
  strMasternodePaymentsPubKey p = strMasternodePaymentsPubKey q /\
  strDarksendPoolDummyAddress p = strDarksendPoolDummyAddress q /\
  nStartMasternodePayments p = nStartMasternodePayments q.

Lemma same_except_overrides_refl p : same_except_overrides p p.
Proof. repeat split. Qed.

Lemma same_except_overrides_setter p q st :
  same_except_overrides p q -> same_except_overrides p (apply_setter st q).
Proof. intros H. destruct st; exact H. Qed.

(** The two globals designate the same network, or are both null. *)
Definition pointers_agree (r : Registry) : Prop :=
  (pCurrentParams r = None /\ pCurrentBaseParams r = None) \/
  exists network o, Params_network network = Ok o /\
    pCurrentParams r = Some o /\ pCurrentBaseParams r = Some network.

(** Everything a reachable state satisfies. *)
Definition registry_inv (s : StaticParams) (r : Registry) : Prop :=
  mainParams (statics r) = mainParams s /\
  testNetParams (statics r) = testNetParams s /\
  regTestParams (statics r) = regTestParams s /\
  same_except_overrides (unitTestParams s) (unitTestParams (statics r)) /\
  pointers_agree r.

Lemma registry_inv_init s : registry_inv s (init_registry s).
Proof.
  refine (conj eq_refl (conj eq_refl (conj eq_refl (conj (same_except_overrides_refl _) _)))).
  left. split; reflexivity.
Qed.

Lemma registry_inv_step s r r' : registry_inv s r -> step r r' -> registry_inv s r'.
Proof.
  intros (Hm & Ht & Hr & Hu & Hp) Hstep. destruct Hstep as [network r r' Hsel | st r r' _ Hmod].
  - apply SelectParams_inv in Hsel as (o & Hn & ->).
    refine (conj Hm (conj Ht (conj Hr (conj Hu _)))). right. eauto.
  - apply modify_run in Hmod as (_ & ->).
    refine (conj Hm (conj Ht (conj Hr (conj _ Hp)))).
    now apply same_except_overrides_setter.
Qed.

#[export] Hint Resolve registry_inv_init : cparams.

Lemma reachable_inv s r : reachable s r -> registry_inv s r.
Proof. induction 1; eauto using registry_inv_step with cparams. Qed.

(** ** Properties of the registry *)

(** C6 (error) Before any [SelectParams], [Params()] and
    [ModifiableParams()] abort on [assert(pCurrentParams)]; selecting
    [MAX_NETWORK_TYPES] aborts on [assert(false)], leaving no state. *)
Theorem registry_misuse_fatal (s : StaticParams) (r : Registry) :
  Params_current (init_registry s) = Fatal "pCurrentParams" /\
  ModifiableParams (init_registry s) = Fatal "pCurrentParams" /\
  SelectParams MAX_NETWORK_TYPES r = Fatal "false && Unimplemented network" /\
  Params_network MAX_NETWORK_TYPES = Fatal "false && Unimplemented network".
Proof. repeat split. Qed.

(** C3 (safety) In every reachable state, [ModifiableParams()] succeeds
    exactly when the selected network is [UNITTEST]; it then returns the
    unittest object and changes nothing. *)
Theorem ModifiableParams_iff_unittest (s : StaticParams) (r : Registry) :
  reachable s r ->
  (exists o r', ModifiableParams r = Ok (o, r')) <-> pCurrentBaseParams r = Some UNITTEST.
Proof.
  intros Hr. destruct (reachable_inv s r Hr) as (_ & _ & _ & _ & Hp).
  split.
  - intros (o & r' & H). apply ModifiableParams_spec in H as (Hu & _).
    destruct Hp as [[Hn _] | (network & o' & Hnet & Ho & Hb)]; [congruence|].
    rewrite Hu in Ho. injection Ho as <-. rewrite Hb.
    destruct network; try discriminate; reflexivity.
  - intros Hb. destruct Hp as [[_ Hn] | (network & o' & Hnet & Ho & Hb')]; [congruence|].
    rewrite Hb in Hb'. injection Hb' as <-. injection Hnet as <-.
    exists unitTestParams_obj, r. apply (proj2 (ModifiableParams_spec r _ r)). auto.
Qed.

Lemma ModifiableParams_iff_unittest_witness :
  (exists o r', ModifiableParams (init_registry sample_statics) = Ok (o, r')) <->
  pCurrentBaseParams (init_registry sample_statics) = Some UNITTEST.
Proof. apply (ModifiableParams_iff_unittest sample_statics). constructor. Defined.

(** C4 (invariant) Whatever sequence of selections and overrides runs,
    the main, testnet and regtest objects keep the values their
    constructors gave them, and the unittest object differs from its
    constructed value at most in the seven members the setters write. *)
Theorem production_params_immutable (s : StaticParams) (r : Registry) :
  reachable s r ->
  mainParams (statics r) = mainParams s /\
  testNetParams (statics r) = testNetParams s /\
  regTestParams (statics r) = regTestParams s /\
  same_except_overrides (unitTestParams s) (unitTestParams (statics r)).
Proof. intros Hr. destruct (reachable_inv s r Hr) as (? & ? & ? & ? & _). auto. Qed.

Lemma production_params_immutable_witness :
  mainParams (statics (init_registry sample_statics)) = mainParams sample_statics /\
  testNetParams (statics (init_registry sample_statics)) = testNetParams sample_statics /\
  regTestParams (statics (init_registry sample_statics)) = regTestParams sample_statics /\
  same_except_overrides (unitTestParams sample_statics)
                        (unitTestParams (statics (init_registry sample_statics))).
Proof. apply (production_params_immutable sample_statics). constructor. Defined.

(** C5 (safety) On a production network the override path aborts:
    after [SelectParams(k)] for [k] main, testnet or regtest, every setter
    called through [ModifiableParams()] fails its [assert], so the
    production parameters cannot be overridden. *)
Theorem override_refused_on_production (network : Network) (st : ModifiableSetter)
    (r : Registry) :
  network <> UNITTEST -> network <> MAX_NETWORK_TYPES ->
  (SelectParams network ;; modify st) r = Fatal "pCurrentParams==&unitTestParams".
Proof.
  intros Hu Hm. destruct network; try congruence; reflexivity.
Qed.

Lemma override_refused_on_production_witness :
  (SelectParams MAIN ;; modify (setDefaultConsistencyChecks false)) (init_registry sample_statics)
    = Fatal "pCurrentParams==&unitTestParams".
Proof. apply override_refused_on_production; discriminate. Defined.

(** C11 (functional) The unittest scenario of the spec: after
    [SelectParams(UNITTEST)] and
    [ModifiableParams()->setDefaultConsistencyChecks(false)], [Params()]
    is the unittest object with that member [false] and every other
    member as constructed. *)
Theorem unittest_override_scenario (s : StaticParams) :
  exists r,
    (SelectParams UNITTEST ;; modify (setDefaultConsistencyChecks false) ;; Params_current)
      (init_registry s)
      = Ok (apply_setter (setDefaultConsistencyChecks false) (unitTestParams s), r) /\
    fDefaultConsistencyChecks
      (apply_setter (setDefaultConsistencyChecks false) (unitTestParams s)) = false /\
    same_except_overrides (unitTestParams s)
      (apply_setter (setDefaultConsistencyChecks false) (unitTestParams s)).
Proof.
  eexists. split; [reflexivity|]. split; [reflexivity|].
  apply same_except_overrides_setter, same_except_overrides_refl.
Qed.

(** C15 (functional) [SelectParamsFromCommandLine()] returns [false] and
    changes nothing when the command line names no network
    ([MAX_NETWORK_TYPES]); otherwise it selects that network and returns
    [true]. *)
Theorem SelectParamsFromCommandLine_spec (network : Network) (r : Registry) :
  (network = MAX_NETWORK_TYPES -> SelectParamsFromCommandLine network r = Ok (false, r)) /\
  (forall o, Params_network network = Ok o ->
     SelectParamsFromCommandLine network r =
       Ok (true, {| statics := statics r; pCurrentParams := Some o;
                    pCurrentBaseParams := Some network |})).
Proof.
  split.
  - intros ->. reflexivity.
  - intros o Hn. unfold SelectParamsFromCommandLine.
    destruct (decide (network = MAX_NETWORK_TYPES)) as [->|_]; [discriminate|].
    step_ok (SelectParams_run network o r Hn). reflexivity.
Qed.

(** ** Scenarios on the constructed profiles *)

Section Scenarios.
Context `{HS : Hashing}.
Context (pnSeed6_main pnSeed6_test : list SeedSpec6).

(** C12 (functional) The spec's scenarios on the profiles the
    constructors build: main listens on 36003 with magic
    [c1 f4 a7 d6]; testnet on 36005 without standard-transaction rules;
    regtest mines on demand under a proof-of-work limit strictly above
    main's. *)
Theorem network_scenarios (w w' : World) (s : StaticParams) :
  init_statics pnSeed6_main pnSeed6_test w = Ok (s, w') ->
  let r := init_registry s in
  nDefaultPort (deref r mainParams_obj) = 36003 /\
  pchMessageStart (deref r mainParams_obj) = [0xc1; 0xf4; 0xa7; 0xd6] /\
  nDefaultPort (deref r testNetParams_obj) = 36005 /\
  fRequireStandard (deref r testNetParams_obj) = false /\
  fMineBlocksOnDemand (deref r regTestParams_obj) = true /\
  bnProofOfWorkLimit (deref r mainParams_obj) < bnProofOfWorkLimit (deref r regTestParams_obj).
Proof.
  intros Hrun. apply init_statics_inv in Hrun as [_ ->]. cbn.
  do 5 (split; [reflexivity|]).
  apply (pow_limit_lt 1 20); lia.
Qed.

(** C9 (functional) The checkpoint at height 0 that
    [Params().Checkpoints()] returns equals the profile's genesis hash
    for main and unittest (which share [data]), and differs from it for
    testnet and regtest, whose tables map height 0 to [uint256("0x001")],
    that is [1]. *)
Theorem checkpoint_zero_vs_genesis (w w' : World) (s : StaticParams) (o : ParamsObj) :
  init_statics pnSeed6_main pnSeed6_test w = Ok (s, w') ->
  (lookup (Checkpoints (class_of o)) 0 =
     Some (hashGenesisBlock (deref (init_registry s) o)) <->
   o = mainParams_obj \/ o = unitTestParams_obj) /\
  (o = testNetParams_obj \/ o = regTestParams_obj ->
   lookup (Checkpoints (class_of o)) 0 = Some 1).
Proof.
  intros Hrun. pose proof (statics_genesis pnSeed6_main pnSeed6_test w w' s Hrun)
    as (_ & _ & _ & Hm & Ht & Hr & Hu).
  destruct o; cbn [deref statics init_registry]; [rewrite Hm | rewrite Ht | rewrite Hr | rewrite Hu];
    vm_compute; intuition congruence.
Qed.

(** The object [Params(network)] designates carries [network] as its
    [networkID] and the constructor's [strNetworkID], in every reachable
    state: the three production objects are never written and a setter
    leaves both members of the unittest object alone. *)
Lemma deref_network (w w' : World) (s : StaticParams) (r : Registry)
    (k : Network) (o : ParamsObj) :
  init_statics pnSeed6_main pnSeed6_test w = Ok (s, w') -> reachable s r ->
  Params_network k = Ok o ->
  networkID (deref r o) = k /\
  strNetworkID (deref r o) =
    match k with MAIN => "main"%string | TESTNET => "test"%string | REGTEST => "regtest"%string | _ => "unittest"%string end.
Proof.
  intros Hrun Hr Ho. destruct (reachable_inv s r Hr) as (Em & Et & Er & Eu & _).
  destruct Eu as (Nu & Su & _).
  apply init_statics_inv in Hrun as [_ ->].
  destruct k; try discriminate; injection Ho as <-; cbn [deref];
    [rewrite Em|rewrite Et|rewrite Er|rewrite <- Nu, <- Su]; split; reflexivity.
Qed.

(** C2 (functional) After a successful static initialisation, from every
    reachable state, [SelectParams(k)] succeeds for each of the four
    networks, and [Params()] then returns, on two successive reads, the
    same profile: the one whose constructor declared [networkID = k] and
    the matching [strNetworkID].  The selection is recorded in the base
    pointer and the resulting state is reachable. *)
Theorem select_then_Params (w w' : World) (s : StaticParams) (r : Registry) (k : Network) :
  init_statics pnSeed6_main pnSeed6_test w = Ok (s, w') -> reachable s r ->
  k <> MAX_NETWORK_TYPES ->
  exists p r',
    (SelectParams k ;; p1 <- Params_current ;; p2 <- Params_current ;; ret (p1, p2)) r
      = Ok ((p, p), r') /\
    reachable s r' /\ pCurrentBaseParams r' = Some k /\ networkID p = k /\
    strNetworkID p =
      match k with MAIN => "main"%string | TESTNET => "test"%string | REGTEST => "regtest"%string | _ => "unittest"%string end.
Proof.
  intros Hrun Hr Hk.
  assert (exists o, Params_network k = Ok o) as [o Ho]
    by (destruct k; [eexists; reflexivity ..|contradiction]).
  set (r1 := {| statics := statics r; pCurrentParams := Some o; pCurrentBaseParams := Some k |}).
  assert (Hr1 : reachable s r1)
    by (eapply reach_step; [exact Hr|exact (step_select k r r1 (SelectParams_run k o r Ho))]).
  exists (deref r1 o), r1. split.
  - step_ok (SelectParams_run k o r Ho).
    step_ok (Params_current_run r1 o eq_refl).
    step_ok (Params_current_run r1 o eq_refl). reflexivity.
  - split; [exact Hr1|split; [reflexivity|]]. exact (deref_network _ _ _ r1 k o Hrun Hr1 Ho).
Qed.

(** C14 (invariant) In every reachable state after a successful static
    initialisation the two globals [SelectParams] writes agree:
    [pCurrentParams] is null exactly when [pCurrentBaseParams] is, and
    whenever [Params()] returns a profile, the base pointer holds that
    profile's own [networkID]. *)
Theorem selected_pointers_agree (w w' : World) (s : StaticParams) (r : Registry) :
  init_statics pnSeed6_main pnSeed6_test w = Ok (s, w') -> reachable s r ->
  (pCurrentParams r = None <-> pCurrentBaseParams r = None) /\
  forall p r', Params_current r = Ok (p, r') -> pCurrentBaseParams r = Some (networkID p).
Proof.
  intros Hrun Hr. destruct (reachable_inv s r Hr) as (_ & _ & _ & _ & Hp).
  destruct Hp as [[Hn Hb] | (k & o & Hk & Ho & Hb)].
  - split; [rewrite Hn, Hb; tauto|]. intros p r' H.
    unfold Params_current, bind, get in H. rewrite Hn in H. discriminate.
  - split; [rewrite Ho, Hb; split; discriminate|]. intros p r' H.
    rewrite (Params_current_run r o Ho) in H. injection H as <- _.
    rewrite Hb, (proj1 (deref_network _ _ _ r k o Hrun Hr Hk)). reflexivity.
Qed.
End Scenarios.

Lemma network_scenarios_witness :
  nDefaultPort (deref (init_registry sample_statics) mainParams_obj) = 36003.
Proof. exact (proj1 (network_scenarios [] [] _ _ _ sample_init)). Defined.

Lemma checkpoint_zero_vs_genesis_witness :
  lookup (Checkpoints (class_of testNetParams_obj)) 0 = Some 1.
Proof.
  exact (proj2 (checkpoint_zero_vs_genesis [] [] _ _ _ testNetParams_obj sample_init)
               (or_introl eq_refl)).
Defined.

Lemma select_then_Params_witness :
  exists p r',
    (SelectParams TESTNET ;; p1 <- Params_current ;; p2 <- Params_current ;; ret (p1, p2))
      (init_registry sample_statics) = Ok ((p, p), r') /\
    reachable sample_statics r' /\ pCurrentBaseParams r' = Some TESTNET /\
    networkID p = TESTNET /\ strNetworkID p = "test"%string.
Proof.
  apply (select_then_Params [] [] sample_world _ sample_statics _ TESTNET sample_init);
    [constructor|discriminate].
Defined.

Lemma selected_pointers_agree_witness :
  (pCurrentParams (init_registry sample_statics) = None <->
   pCurrentBaseParams (init_registry sample_statics) = None) /\
  forall p r', Params_current (init_registry sample_statics) = Ok (p, r') ->
    pCurrentBaseParams (init_registry sample_statics) = Some (networkID p).
Proof. apply (selected_pointers_agree [] [] sample_world _ sample_statics _ sample_init). constructor. Defined.
