(* ===== verification/Typing.v ===== *)
(** * The C++ types of the profile members

    Every member of [CChainParams] has a C++ type ([chainparams.h],
    outside [src/]): [MessageStartChars] is [unsigned char[4]], the keys
    and address prefixes are [std::vector<unsigned char>], the ports and
    counts are [int], the limits and hashes [uint256], the fixed seeds
    [CAddress] with a 16-byte address, a [uint16_t] port and an
    [unsigned int] time.  The model keeps these members as [Z] and lists,
    so that a member outside its type is a state the model can express
    and the code cannot; [params_ok] states that every member is within
    its type, with a [Decision] instance so that it can be decided on a
    concrete profile.  The theorem of this file is the type invariant:
    the static initialisation builds well-typed profiles from well-typed
    seed tables, and every registry transition keeps them so. *)

From Stdlib Require Import ZArith String List Bool Lia.
From stdpp Require Import base decidable list numbers.
From S2P Require Import Prelude Hex Seeds Block ChainParams Registry.
Import ListNotations.
Open Scope Z_scope.

(** ** The member types *)

Definition int32_ok (z : Z) : Prop := - 2 ^ 31 <= z < 2 ^ 31.

(** [SeedSpec6]: [uint8_t addr[16]] and [uint16_t port]. *)
Definition seed_ok (sp : SeedSpec6) : Prop :=
  length (addr sp) = 16%nat /\ bytes_ok (addr sp) /\ 0 <= port sp < 2 ^ 16.

(** [CAddress]: the 16 bytes of the [CNetAddr], the [uint16_t] port of the
    [CService], the [unsigned int nTime]. *)
Definition addr_ok (a : CAddress) : Prop :=
  length (ip a) = 16%nat /\ bytes_ok (ip a) /\ 0 <= addr_port a < 2 ^ 16 /\
  0 <= Seeds.nTime a < 2 ^ 32.

Definition prefixes_ok (b : Base58Prefixes) : Prop :=
  bytes_ok (PUBKEY_ADDRESS b) /\ bytes_ok (SCRIPT_ADDRESS b) /\ bytes_ok (SECRET_KEY b) /\
  bytes_ok (EXT_PUBLIC_KEY b) /\ bytes_ok (EXT_SECRET_KEY b).

Definition params_ok (p : CChainParams) : Prop :=
  length (pchMessageStart p) = 4%nat /\ bytes_ok (pchMessageStart p) /\
  bytes_ok (vAlertPubKey p) /\ 0 < nDefaultPort p < 2 ^ 16 /\
  uint256_ok (bnProofOfWorkLimit p) /\
  int32_ok (nSubsidyHalvingInterval p) /\ int32_ok (nEnforceBlockUpgradeMajority p) /\
  int32_ok (nRejectBlockOutdatedMajority p) /\ int32_ok (nToCheckBlockUpgradeMajority p) /\
  int32_ok (nMinerThreads p) /\ header_ok (header (genesis p)) /\
  uint256_ok (hashGenesisBlock p) /\ prefixes_ok (base58Prefixes p) /\
  Forall addr_ok (vFixedSeeds p) /\ int32_ok (nPoolMaxTransactions p).

Definition statics_ok (s : StaticParams) : Prop :=
  params_ok (mainParams s) /\ params_ok (testNetParams s) /\
  params_ok (regTestParams s) /\ params_ok (unitTestParams s).

(** ** Decidability *)

#[export] Instance bytes_ok_dec l : Decision (bytes_ok l).
Proof. unfold bytes_ok. apply _. Defined.
#[export] Instance int32_ok_dec z : Decision (int32_ok z).
Proof. unfold int32_ok. apply _. Defined.
#[export] Instance uint256_ok_dec z : Decision (uint256_ok z).
Proof. unfold uint256_ok. apply _. Defined.
#[export] Instance header_ok_dec h : Decision (header_ok h).
Proof. unfold header_ok. apply _. Defined.
#[export] Instance addr_ok_dec a : Decision (addr_ok a).
Proof. unfold addr_ok. apply _. Defined.
#[export] Instance prefixes_ok_dec b : Decision (prefixes_ok b).
Proof. unfold prefixes_ok. apply _. Defined.
#[export] Instance params_ok_dec p : Decision (params_ok p).
Proof. unfold params_ok. apply _. Defined.
#[export] Instance statics_ok_dec s : Decision (statics_ok s).
Proof. unfold statics_ok. apply _. Defined.

(** ** The constructors build well-typed members *)

Lemma seed_records_ok (w : World) (k : nat) (data : list SeedSpec6) :
  Forall seed_ok data -> Forall addr_ok (seed_records w k data).
Proof.
  revert k. induction data as [|sp data IH]; intros k Hd; [constructor|].
  inversion Hd as [|? ? (Hl & Hb & Hp) Hr]; subst. cbn [seed_records].
  constructor; [|apply IH, Hr].
  unfold addr_ok, make_addr, seed_nTime, uint32. cbn [ip addr_port Seeds.nTime].
  pose proof (wrap_range 32 (uint64 (uint64 (uint64 (clock w (time_reads w + k)) -
               entropy w (rand_draws w + k) mod nOneWeek) - uint64 nOneWeek))).
  repeat split; auto; lia.
Qed.

Lemma pow_limit_ok (a : Z) : 0 <= a < 256 -> uint256_ok (uint256_shr (uint256_not 0) a).
Proof. intros Ha. apply (pow_limit_lt a (a + 1)); lia. Qed.

Ltac is_literal t := lazymatch t with Zpos _ => idtac | Z0 => idtac | Zneg _ => idtac end.

(** The goals a member assignment leaves: a literal, an inherited
    member, or one of the computed members. *)
Ltac member_ok :=
  repeat match goal with |- _ /\ _ => split end;
  match goal with
  | |- length _ = _ => reflexivity
  | |- bytes_ok (ParseHex _) => apply ParseHex_bytes
  | |- uint256_ok (uint256_shr _ _) => apply pow_limit_ok; lia
  | |- uint256_ok (header_GetHash _) => apply header_GetHash_range
  | |- header_ok (header (build_genesis _ _)) => apply build_genesis_header_ok
  | |- header_ok (header main_genesis) => apply build_genesis_header_ok
  | |- Forall addr_ok (seed_records _ _ _) => apply seed_records_ok; assumption
  | |- Forall addr_ok [] => constructor
  | |- int32_ok ?z => is_literal z; unfold int32_ok; lia
  | |- bytes_ok (_ :: _) => unfold bytes_ok; repeat constructor; lia
  | |- prefixes_ok {| PUBKEY_ADDRESS := _ |} =>
      unfold prefixes_ok, bytes_ok; cbn;
      repeat match goal with |- _ /\ _ => split end; repeat constructor; lia
  | |- _ => assumption
  | |- _ => lia
  end.

Ltac inherit_from H :=
  unfold params_ok in H; decompose [and] H; clear H.

Ltac assigned_ok :=
  cbn [pchMessageStart vAlertPubKey nDefaultPort bnProofOfWorkLimit nSubsidyHalvingInterval
       nEnforceBlockUpgradeMajority nRejectBlockOutdatedMajority nToCheckBlockUpgradeMajority
       nMinerThreads genesis hashGenesisBlock base58Prefixes vFixedSeeds nPoolMaxTransactions];
  member_ok.

Section Constructors.
Context `{HS : Hashing}.
Context (pnSeed6_main pnSeed6_test : list SeedSpec6).
Hypothesis Hmain : Forall seed_ok pnSeed6_main.
Hypothesis Htest : Forall seed_ok pnSeed6_test.

(** The members [CMainParams()] writes, which the other classes inherit. *)
Lemma main_object_ok (w : World) : params_ok (main_object pnSeed6_main w).
Proof. unfold params_ok, main_object, CMainParams_assign. assigned_ok. Qed.

Lemma test_object_ok (w : World) : params_ok (test_object pnSeed6_main pnSeed6_test w).
Proof.
  pose proof (main_object_ok w) as H. inherit_from H.
  unfold params_ok, test_object, CTestNetParams_assign. assigned_ok.
Qed.

Lemma regtest_object_ok (w : World) : params_ok (regtest_object pnSeed6_main pnSeed6_test w).
Proof.
  pose proof (test_object_ok w) as H. inherit_from H.
  unfold params_ok, regtest_object, CRegTestParams_assign. assigned_ok.
Qed.

Lemma unittest_object_ok (w : World) : params_ok (unittest_object pnSeed6_main w).
Proof.
  pose proof (main_object_ok w) as H. inherit_from H.
  unfold params_ok, unittest_object, CUnitTestParams_body. assigned_ok.
Qed.

Lemma statics_of_ok (w : World) : statics_ok (statics_of pnSeed6_main pnSeed6_test w).
Proof.
  split; [apply main_object_ok|]. split; [apply test_object_ok|].
  split; [apply regtest_object_ok|apply unittest_object_ok].
Qed.
End Constructors.

(** ** The registry keeps the profiles well-typed *)

Lemma apply_setter_ok (st : ModifiableSetter) (p : CChainParams) :
  setter_ok st -> params_ok p -> params_ok (apply_setter st p).
Proof.
  intros Hs Hp. inherit_from Hp.
  destruct st; cbn in Hs; unfold params_ok, apply_setter; assigned_ok;
    unfold int32_ok; lia.
Qed.

Lemma statics_ok_step (r r' : Registry) :
  statics_ok (statics r) -> step r r' -> statics_ok (statics r').
Proof.
  intros Hs Hstep. destruct Hstep as [network r r' Hsel | st r r' Hst Hmod].
  - apply SelectParams_inv in Hsel as (o & _ & ->). exact Hs.
  - apply modify_run in Hmod as (_ & ->). destruct Hs as (Hm & Ht & Hr & Hu).
    refine (conj Hm (conj Ht (conj Hr _))). apply apply_setter_ok; assumption.
Qed.

Lemma statics_ok_reachable (s : StaticParams) (r : Registry) :
  statics_ok s -> reachable s r -> statics_ok (statics r).
Proof. intros Hs Hr. induction Hr; eauto using statics_ok_step. Qed.

Section TypeInvariant.
Context `{HS : Hashing}.
Context (pnSeed6_main pnSeed6_test : list SeedSpec6).

(** C20 (type) The type invariant: when the generated seed tables hold
    well-typed [SeedSpec6] entries, static initialisation builds four
    profiles whose members are all within their C++ types (four magic
    bytes, byte vectors, a [uint16_t] port, [int] counts, [uint256]
    limit and hash, a genesis header of the right widths, well-typed
    fixed seed addresses with 32-bit times), and every selection and
    every override with an [int] argument keeps them so. *)
Theorem profiles_well_typed (w w' : World) (s : StaticParams) (r : Registry) :
  Forall seed_ok pnSeed6_main -> Forall seed_ok pnSeed6_test ->
  init_statics pnSeed6_main pnSeed6_test w = Ok (s, w') ->
  reachable s r -> statics_ok (statics r).
Proof.
  intros Hm Ht Hrun Hr. apply init_statics_inv in Hrun as [_ ->].
  apply (statics_ok_reachable _ _ (statics_of_ok _ _ Hm Ht w) Hr).
Qed.
End TypeInvariant.

Lemma profiles_well_typed_witness :
  statics_ok (statics (init_registry sample_statics)).
Proof.
  apply (profiles_well_typed (HS := genesis_hashing) [] [] sample_world
           (statics_world [] [] sample_world) sample_statics);
    [constructor|constructor|exact sample_init|constructor].
Defined.
