(* ===== verification/Lifecycle.v ===== *)
(** * The registry against the spec's lifecycle

    The spec describes the parameter registry as a state machine
    [Uninitialized -> (select) -> Active(kind)] and
    [Active(kind) -> (select) -> Active(kind')], with [current()] the
    profile of the active kind and a fatal error before any selection.
    This file states that machine abstractly ([Lifecycle], [lstep],
    [current_spec]) and proves that the registry of [Registry]
    ([pCurrentParams], [pCurrentBaseParams], [SelectParams], [Params()]
    and the unit-test overrides) refines it: the abstraction
    [lifecycle_of] maps the initial state to [Uninitialized], every
    selection to an abstract step and every override to a stutter, and
    [Params()] returns what [current_spec] prescribes.  The selection is
    always enabled: from every reachable state, each of the four kinds
    can be made active. *)

From Stdlib Require Import ZArith String List Lia.
From stdpp Require Import base decidable option.
From S2P Require Import Prelude ChainParams Registry.
Open Scope Z_scope.

(** ** The abstract machine *)

Inductive Lifecycle := Uninitialized | Active (k : Network).

#[export] Instance Lifecycle_eq_dec : EqDecision Lifecycle.
Proof. solve_decision. Defined.

(** [select(kind)] for a kind of the closed set, from any state. *)
Inductive lstep : Lifecycle -> Lifecycle -> Prop :=
| lstep_select (a : Lifecycle) (k : Network) :
    k <> MAX_NETWORK_TYPES -> lstep a (Active k).

(** [profileFor(kind)]: the pre-built profile of a kind. *)
Definition profile_of (s : StaticParams) (k : Network) : option CChainParams :=
  match k with
  | MAIN => Some (mainParams s)
  | TESTNET => Some (testNetParams s)
  | REGTEST => Some (regTestParams s)
  | UNITTEST => Some (unitTestParams s)
  | MAX_NETWORK_TYPES => None
  end.

(** [current()]: the profile of the active kind; none before a selection. *)
Definition current_spec (s : StaticParams) (a : Lifecycle) : option CChainParams :=
  match a with
  | Uninitialized => None
  | Active k => profile_of s k
  end.

(** ** The abstraction *)

Definition lifecycle_of (r : Registry) : Lifecycle :=
  match pCurrentBaseParams r with
  | None => Uninitialized
  | Some k => Active k
  end.

(** ** Lemmas *)

Lemma Params_network_profile (r : Registry) (k : Network) (o : ParamsObj) :
  Params_network k = Ok o -> profile_of (statics r) k = Some (deref r o).
Proof. destruct k; intros H; try discriminate; injection H as <-; reflexivity. Qed.

Lemma Params_network_defined (k : Network) (o : ParamsObj) :
  Params_network k = Ok o -> k <> MAX_NETWORK_TYPES.
Proof. destruct k; intros H; discriminate. Qed.

Lemma Params_current_abstract (r : Registry) :
  pointers_agree r ->
  Params_current r =
    match current_spec (statics r) (lifecycle_of r) with
    | Some p => Ok (p, r)
    | None => Fatal "pCurrentParams"
    end.
Proof.
  intros [[Hp Hb] | (k & o & Hk & Hp & Hb)]; unfold lifecycle_of; rewrite Hb.
  - unfold Params_current, bind, get. rewrite Hp. reflexivity.
  - rewrite (Params_current_run r o Hp). cbn [current_spec].
    rewrite (Params_network_profile r k o Hk). reflexivity.
Qed.

Lemma step_abstract (r r' : Registry) :
  step r r' -> lstep (lifecycle_of r) (lifecycle_of r') \/ lifecycle_of r' = lifecycle_of r.
Proof.
  intros [k r0 r0' Hsel | st r0 r0' _ Hmod].
  - apply SelectParams_inv in Hsel as (o & Hk & ->). left.
    apply lstep_select, (Params_network_defined k o Hk).
  - apply modify_run in Hmod as (_ & ->). right. reflexivity.
Qed.

Lemma Params_network_total (k : Network) :
  k <> MAX_NETWORK_TYPES -> exists o, Params_network k = Ok o.
Proof. destruct k; intros H; [eauto..|contradiction]. Qed.

(** ** Refinement *)

(** C21 (refinement) The registry implements the spec's lifecycle: the
    initial state (both pointers null) is [Uninitialized]; in every
    reachable state [Params()] returns the profile [current()] of the
    abstract state prescribes, with the overrides applied, and aborts
    exactly where [current()] is undefined; every transition is a
    [select] of the abstract machine or, for an override, leaves the
    abstract state unchanged, so no transition returns to
    [Uninitialized]. *)
Theorem registry_refines_lifecycle (s : StaticParams) (r r' : Registry) :
  reachable s r ->
  lifecycle_of (init_registry s) = Uninitialized /\
  Params_current r =
    match current_spec (statics r) (lifecycle_of r) with
    | Some p => Ok (p, r)
    | None => Fatal "pCurrentParams"
    end /\
  (step r r' -> lstep (lifecycle_of r) (lifecycle_of r') \/ lifecycle_of r' = lifecycle_of r).
Proof.
  intros Hr. split; [reflexivity|]. split; [|apply step_abstract].
  apply Params_current_abstract. apply (reachable_inv s r Hr).
Qed.

Lemma registry_refines_lifecycle_witness :
  lifecycle_of (init_registry sample_statics) = Uninitialized /\
  Params_current (init_registry sample_statics) =
    match current_spec (statics (init_registry sample_statics))
                       (lifecycle_of (init_registry sample_statics)) with
    | Some p => Ok (p, init_registry sample_statics)
    | None => Fatal "pCurrentParams"
    end /\
  (step (init_registry sample_statics) (init_registry sample_statics) ->
   lstep (lifecycle_of (init_registry sample_statics)) (lifecycle_of (init_registry sample_statics)) \/
   lifecycle_of (init_registry sample_statics) = lifecycle_of (init_registry sample_statics)).
Proof. apply registry_refines_lifecycle. constructor. Defined.

(** C22 (liveness) Selection is always enabled: from every reachable
    state, whatever was selected or overridden before, each of the four
    kinds can be made active by one transition, after which [Params()]
    serves that kind's profile. *)
Theorem select_always_enabled (s : StaticParams) (r : Registry) (k : Network) :
  reachable s r -> k <> MAX_NETWORK_TYPES ->
  exists r', step r r' /\ reachable s r' /\ lifecycle_of r' = Active k /\
    exists p, profile_of (statics r) k = Some p /\ Params_current r' = Ok (p, r').
Proof.
  intros Hr Hk. destruct (Params_network_total k Hk) as [o Ho].
  pose proof (SelectParams_run k o r Ho) as Hsel.
  eexists. split; [exact (step_select k _ _ Hsel)|].
  split; [eapply reach_step; [exact Hr|exact (step_select k _ _ Hsel)]|].
  split; [reflexivity|].
  exists (deref r o). split; [apply Params_network_profile, Ho|].
  rewrite (Params_current_run
    {| statics := statics r; pCurrentParams := Some o; pCurrentBaseParams := Some k |} o eq_refl).
  destruct o; reflexivity.
Qed.

Lemma select_always_enabled_witness :
  exists r', step (init_registry sample_statics) r' /\ reachable sample_statics r' /\
    lifecycle_of r' = Active TESTNET /\
    exists p, profile_of (statics (init_registry sample_statics)) TESTNET = Some p /\
      Params_current r' = Ok (p, r').
Proof. apply select_always_enabled; [constructor|discriminate]. Defined.
