(* ===== verification/Interleaving.v ===== *)
(** * Interleavings of readers and overrides (the concurrency contract)

    The spec makes the registry single-threaded by contract: selection
    happens before any reader starts, after which [current()] is
    "read-only and safe for concurrent readers from multiple threads,
    because the underlying profile data is immutable for all kinds
    except UnitTest".  Each registry operation is an atomic step of the
    model, so an execution of several threads is one interleaving of
    their operations: a list of [Event]s run in order by [run_events],
    which returns what the reads returned.  The theorem of this file is
    the contract: once a production network is selected, every
    interleaving of reads and attempted overrides either aborts at the
    first override or lets every reader see the same profile.  Truly
    parallel executions (data races on the unit-test object) are outside
    the contract and not modelled. *)

From Stdlib Require Import ZArith String List Lia.
From stdpp Require Import base decidable option.
From S2P Require Import Prelude ChainParams Registry Lifecycle.
Import ListNotations.
Open Scope Z_scope.

(** The operations a thread performs on the registry. *)
Inductive Event :=
| EvRead                              (** [Params()] *)
| EvSelect (k : Network)              (** [SelectParams(k)] *)
| EvOverride (st : ModifiableSetter). (** [ModifiableParams()->setX(v)] *)

(** One interleaving, run in order; the results of the reads in order. *)
Fixpoint run_events (es : list Event) : M Registry (list CChainParams) :=
  match es with
  | [] => ret []
  | EvRead :: es' => p <- Params_current ;; ps <- run_events es' ;; ret (p :: ps)
  | EvSelect k :: es' => SelectParams k ;; run_events es'
  | EvOverride st :: es' => modify st ;; run_events es'
  end.

Definition is_select (e : Event) : bool :=
  match e with EvSelect _ => true | _ => false end.

(** ** Lemmas *)

Lemma modify_refused (st : ModifiableSetter) (r : Registry) (o : ParamsObj) :
  pCurrentParams r = Some o -> o <> unitTestParams_obj ->
  modify st r = Fatal "pCurrentParams==&unitTestParams".
Proof.
  intros Hp Ho. unfold modify, ModifiableParams, bind, get, assert.
  rewrite Hp. repeat case_bool_decide; congruence.
Qed.

(** Reads and refused overrides leave the state unchanged: the run is
    the reads of one profile, or the refusal. *)
Lemma run_events_fixed (es : list Event) (r : Registry) (o : ParamsObj) :
  pCurrentParams r = Some o -> o <> unitTestParams_obj ->
  forallb (fun e => negb (is_select e)) es = true ->
  (exists n, run_events es r = Ok (repeat (deref r o) n, r)) \/
  run_events es r = Fatal "pCurrentParams==&unitTestParams".
Proof.
  intros Hp Ho. induction es as [|e es IH]; intros Hs.
  - left. exists O. reflexivity.
  - cbn [forallb] in Hs. apply andb_prop in Hs as [He Hs].
    destruct e as [| k | st]; cbn [run_events]; [|discriminate|].
    + rewrite (bind_Ok _ _ _ _ _ (Params_current_run r o Hp)).
      destruct (IH Hs) as [[n Hn]|Hf].
      * left. exists (S n). rewrite (bind_Ok _ _ _ _ _ Hn). reflexivity.
      * right. rewrite (bind_Fatal _ _ _ _ Hf). reflexivity.
    + right. apply bind_Fatal. apply modify_refused with o; assumption.
Qed.

Lemma selected_object (s : StaticParams) (r : Registry) (k : Network) :
  reachable s r -> pCurrentBaseParams r = Some k ->
  exists o, Params_network k = Ok o /\ pCurrentParams r = Some o.
Proof.
  intros Hr Hb. destruct (reachable_inv s r Hr) as (_ & _ & _ & _ & Hp).
  destruct Hp as [[_ Hn] | (k' & o & Hk & Ho & Hb')]; [congruence|].
  rewrite Hb in Hb'. injection Hb' as <-. eauto.
Qed.

(** ** The contract *)

(** C25 (safety) Once a production network is selected, readers may run
    in any interleaving with one another and with attempted overrides:
    the run either aborts at the first override, or every read returns
    the one profile of the selected network and the state is unchanged.
    No reader can observe a production profile in two versions. *)
Theorem production_readers_agree (s : StaticParams) (r : Registry) (k : Network)
    (es : list Event) :
  reachable s r -> pCurrentBaseParams r = Some k -> k <> UNITTEST ->
  forallb (fun e => negb (is_select e)) es = true ->
  exists p, profile_of (statics r) k = Some p /\
    ((exists n, run_events es r = Ok (repeat p n, r)) \/
     run_events es r = Fatal "pCurrentParams==&unitTestParams").
Proof.
  intros Hr Hb Hk Hs. destruct (selected_object s r k Hr Hb) as (o & Hn & Hp).
  exists (deref r o). split; [apply Params_network_profile, Hn|].
  apply run_events_fixed; [exact Hp| |exact Hs].
  intros ->. destruct k; try discriminate; contradiction.
Qed.

(** C26 (functional) On the unit-test profile the order of operations
    is what a reader sees: a read before an override returns the
    constructed profile, a read after it the overridden one, since
    [Params()] and the setter go through the same static object. *)
Theorem unittest_read_override_order (s : StaticParams) (r : Registry)
    (st : ModifiableSetter) :
  reachable s r -> pCurrentBaseParams r = Some UNITTEST ->
  exists r', run_events [EvRead; EvOverride st; EvRead] r =
    Ok ([unitTestParams (statics r); apply_setter st (unitTestParams (statics r))], r').
Proof.
  intros Hr Hb. destruct (selected_object s r UNITTEST Hr Hb) as (o & Hn & Hp).
  injection Hn as <-. destruct (modify_ok st r Hp) as [r' Hm].
  pose proof Hm as Hm'. apply modify_run in Hm' as (_ & Hr').
  exists r'. cbn [run_events].
  rewrite (bind_Ok _ _ _ _ _ (Params_current_run r _ Hp)). cbv beta.
  assert (Hp' : pCurrentParams r' = Some unitTestParams_obj) by (subst r'; exact Hp).
  unfold bind at 1 2. rewrite Hm. cbv beta iota.
  unfold bind at 1. rewrite (Params_current_run r' _ Hp'). cbv beta iota.
  subst r'. reflexivity.
Qed.

(** A state after [SelectParams(k)] from the initial one. *)
Definition selected_state (s : StaticParams) (k : Network) (o : ParamsObj) : Registry :=
  {| statics := s; pCurrentParams := Some o; pCurrentBaseParams := Some k |}.

Lemma selected_state_reachable (s : StaticParams) (k : Network) (o : ParamsObj) :
  Params_network k = Ok o -> reachable s (selected_state s k o).
Proof.
  intros Hk. eapply reach_step; [constructor|]. apply (step_select k).
  apply (SelectParams_run k o (init_registry s) Hk).
Qed.

Lemma production_readers_agree_witness :
  exists p, profile_of (statics (selected_state sample_statics MAIN mainParams_obj)) MAIN = Some p /\
    ((exists n, run_events [EvRead; EvOverride (setDefaultConsistencyChecks false); EvRead]
                  (selected_state sample_statics MAIN mainParams_obj) =
                Ok (repeat p n, selected_state sample_statics MAIN mainParams_obj)) \/
     run_events [EvRead; EvOverride (setDefaultConsistencyChecks false); EvRead]
       (selected_state sample_statics MAIN mainParams_obj) =
       Fatal "pCurrentParams==&unitTestParams").
Proof.
  apply (production_readers_agree sample_statics);
    [apply selected_state_reachable; reflexivity|reflexivity|discriminate|reflexivity].
Defined.

Lemma unittest_read_override_order_witness :
  exists r', run_events [EvRead; EvOverride (setDefaultConsistencyChecks false); EvRead]
               (selected_state sample_statics UNITTEST unitTestParams_obj) =
    Ok ([unitTestParams sample_statics;
         apply_setter (setDefaultConsistencyChecks false) (unitTestParams sample_statics)], r').
Proof.
  apply (unittest_read_override_order sample_statics
           (selected_state sample_statics UNITTEST unitTestParams_obj));
    [apply selected_state_reachable; reflexivity|reflexivity].
Defined.
