(* ===== verification/Wire.v ===== *)
(** * The genesis block as its consumers receive it

    The spec's external interfaces read the active profile through the
    registry: the block-storage collaborator takes [Params().GenesisBlock()]
    as block index zero, in the bit layout of the block encoding, and
    compares block hashes with [Params().HashGenesisBlock()].  This file
    composes the three components involved: static initialisation
    ([init_statics], [ChainParams.v]), the registry's reachable states and
    [Params_current] ([Registry.v]) and the block codec ([Serialize.v]).
    Whatever network is selected and whatever overrides the unit-test
    profile received, the block served as the genesis hashes to the hash
    served beside it and travels as its 253 canonical bytes. *)

From Stdlib Require Import ZArith List Lia.
From S2P Require Import Prelude Seeds Block ChainParams Registry Serialize Interleaving.
Import ListNotations.
Open Scope Z_scope.

Section Served.
Context `{HS : Hashing}.
Context (pnSeed6_main pnSeed6_test : list SeedSpec6).

(** A successful static initialisation stores [main_genesis] in the main
    profile, and the declared hash is the hash of its header. *)
Lemma init_main_genesis (w w' : World) (s : StaticParams) :
  init_statics pnSeed6_main pnSeed6_test w = Ok (s, w') ->
  genesis (mainParams s) = main_genesis /\
  hashGenesisBlock (mainParams s) = header_GetHash (header main_genesis).
Proof.
  intros Hrun. pose proof (statics_genesis _ _ _ _ _ Hrun) as (_ & _ & _ & Hm & _).
  apply init_statics_inv in Hrun as [Hg ->].
  apply genesis_checks_pass_iff in Hg as [H1 _].
  rewrite Hm, H1. split; reflexivity.
Qed.

(** Every object the registry can dereference in a reachable state
    carries the main profile's genesis block and genesis hash: three
    objects are never written, and a setter leaves both fields alone. *)
Lemma deref_genesis (w w' : World) (s : StaticParams) (r : Registry) (o : ParamsObj) :
  init_statics pnSeed6_main pnSeed6_test w = Ok (s, w') -> reachable s r ->
  genesis (deref r o) = main_genesis /\
  hashGenesisBlock (deref r o) = header_GetHash (header main_genesis).
Proof.
  intros Hrun Hr. destruct (init_main_genesis _ _ _ Hrun) as [Gm Hm].
  destruct (statics_genesis _ _ _ _ _ Hrun) as (Gt & Gr & Gu & Hm' & Ht & Hrg & Hu).
  destruct (reachable_inv s r Hr) as (Em & Et & Er & Eu & _).
  destruct Eu as (_ & _ & _ & _ & _ & _ & _ & _ & _ & EGu & EHu & _).
  destruct o; cbn [deref]; [rewrite Em|rewrite Et|rewrite Er|rewrite <- EGu, <- EHu];
    split; congruence.
Qed.

(** C27 (functional) From any state the registry can reach after a
    successful static initialisation, a read of the active profile leaves
    the state unchanged and returns a profile whose genesis block hashes
    to the genesis hash it serves, whose wire encoding is 253 bytes, and
    which the block decoder reads back from those bytes: selection,
    overrides and initialisation compose into the block index zero the
    consumers expect, on every network. *)
Theorem served_genesis_on_wire (w w' : World) (s : StaticParams) (r r' : Registry)
    (p : CChainParams) (rest : list Z) :
  init_statics pnSeed6_main pnSeed6_test w = Ok (s, w') -> reachable s r ->
  Params_current r = Ok (p, r') ->
  r' = r /\ header_GetHash (header (genesis p)) = hashGenesisBlock p /\
  length (ser_block (genesis p)) = 253%nat /\
  read_block (ser_block (genesis p) ++ rest) = Some (genesis p, rest).
Proof.
  intros Hrun Hr Hp. unfold Params_current, bind, get in Hp.
  destruct (pCurrentParams r) as [o|]; [|discriminate]. injection Hp as <- <-.
  destruct (deref_genesis _ _ _ r o Hrun Hr) as [-> ->].
  split; [reflexivity|split; [reflexivity|]].
  split; [apply length_ser_main_genesis|apply read_block_ser, main_genesis_ok].
Qed.
End Served.

Lemma served_genesis_on_wire_witness :
  let r := selected_state sample_statics TESTNET testNetParams_obj in
  r = r /\
  @header_GetHash genesis_hashing (header (genesis (testNetParams sample_statics))) =
    hashGenesisBlock (testNetParams sample_statics) /\
  length (ser_block (genesis (testNetParams sample_statics))) = 253%nat /\
  read_block (ser_block (genesis (testNetParams sample_statics)) ++ []) =
    Some (genesis (testNetParams sample_statics), []).
Proof.
  apply (served_genesis_on_wire (HS := genesis_hashing) [] [] sample_world
           (statics_world [] [] sample_world) sample_statics
           (selected_state sample_statics TESTNET testNetParams_obj)).
  - exact sample_init.
  - apply selected_state_reachable. reflexivity.
  - reflexivity.
Defined.
